(** * AMD Zen microcode layout plugin (amd_zen_ucode.py): model and properties

    The plugin registers a family of packed structure types with the host
    (Binary Ninja) and applies them as data variables at a base address.
    The host is not part of the repository.  Its Python objects are modelled
    below: the static constructors of [Type], [StructureBuilder] and
    [EnumerationBuilder] as pure functions that may raise, and the
    [BinaryView] together with the log as an explicit state threaded through
    a state-and-exception monad.  Which call shapes a given build of the host
    accepts is a parameter ([Host]); the plugin's own control flow
    (try/except, hasattr, early returns) is transcribed from the source. *)

From Stdlib Require Import ZArith String Ascii List Bool Lia.
From Stdlib Require Import DecimalString HexadecimalString DecimalZ.
From stdpp Require Import base option gmap strings.

Set Warnings "-register-all".


Local Open Scope Z_scope.

(* ===================================================================== *)
(** ** Layout constants                                                   *)
(* ===================================================================== *)

Definition PATCH_SIZE : Z := 0x3820.

Definition HDR_OFF : Z := 0x0000.
Definition HDR_SIZE : Z := 0x0020.

Definition RANDOM_OFF : Z := 0x0020.
Definition RANDOM_SIZE : Z := 0x0300.

Definition UCREG_OFF : Z := 0x0320.
Definition UCREG_SIZE : Z := 0x3500.

Definition BODY_SIZE : Z := 0x3800.
Definition UOP_SIZE : Z := 4.
Definition UOP_COUNT : Z := UCREG_SIZE / UOP_SIZE.

Definition T_HDR : string := "AMD_MC_Header".
Definition T_RAND : string := "AMD_MC_RandomBlocks".
Definition T_PATCH : string := "AMD_MC_Patch".

Definition T_ENUM : string := "AMD_Zen_Opcode".
Definition T_UOP : string := "AMD_Zen_MicroOp".
Definition T_REG : string := "AMD_Zen_MicrocodeRegion".

(** The dict [ZEN_OPCODE_ENUM], in insertion order (the order [items()]
    yields). *)
Definition ZEN_OPCODE_ENUM : list (string * Z) :=
  [ ("AMD_ZEN_UOP_UNKNOWN", 0x00);
    ("AMD_ZEN_TYPE5_READ", 0xDE);
    ("AMD_ZEN_TYPE7_ALU_OR", 0xBE);
    ("AMD_ZEN_TYPE3_WRITE", 0xA0);
    ("AMD_ZEN_TYPE_REG_NOP", 0xFF);
    ("AMD_ZEN_UOP_21", 0x21);
    ("AMD_ZEN_UOP_41", 0x41);
    ("AMD_ZEN_UOP_5F", 0x5F) ].

(* ===================================================================== *)
(** ** Host types and their byte layout                                   *)
(* ===================================================================== *)

(** A host [Type] object.  [TNamed] is what [Type.named_type_from_type]
    returns: a reference by name that carries the type it was made from. *)
Inductive Ty : Type :=
| TInt (width : Z) (signed : bool)
| TEnum (width : Z) (signed : bool) (members : list (string * Z))
| TNamed (name : string) (target : Ty)
| TArray (elem : Ty) (count : Z)
| TStruct (packed : bool) (fields : list (Ty * string)).

(** Round [off] up to a multiple of the alignment [a]. *)
Definition align_up (off a : Z) : Z :=
  if a <=? 1 then off else ((off + a - 1) / a) * a.

(** [(width, alignment)] of a type.  A packed structure places every field
    at the end of the previous one and has alignment 1; an unpacked one
    rounds each field offset, and the total, up to the natural alignment. *)
Fixpoint ty_layout (t : Ty) : Z * Z :=
  match t with
  | TInt w _ => (w, w)
  | TEnum w _ _ => (w, w)
  | TNamed _ t' => ty_layout t'
  | TArray e n => (fst (ty_layout e) * n, snd (ty_layout e))
  | TStruct packed fs =>
      let fix fields_layout (fs : list (Ty * string)) (off al : Z) : Z * Z :=
        match fs with
        | [] => (off, al)
        | (ft, _) :: fs' =>
            let '(w, a) := ty_layout ft in
            if packed then fields_layout fs' (off + w) 1
            else fields_layout fs' (align_up off a + w) (Z.max al a)
        end in
      let '(off, al) := fields_layout fs 0 1 in
      (align_up off al, al)
  end.

Definition ty_width (t : Ty) : Z := fst (ty_layout t).

(** Sum of the widths of the fields, i.e. the size with no padding at all. *)
Definition fields_width (fs : list (Ty * string)) : Z :=
  fold_right (fun f acc => ty_width (fst f) + acc) 0 fs.

(** Python truthiness of a value that is [None] or a host [Type]: the host
    class defines [__len__] as the width, so a zero-width type is falsy. *)
Definition truthy (o : option Ty) : bool :=
  match o with
  | None => false
  | Some t => negb (ty_width t =? 0)
  end.

(* ===================================================================== *)
(** ** Exceptions and the two monads                                      *)
(* ===================================================================== *)

(** The exception classes the source distinguishes; all of them are
    subclasses of [Exception]. *)
Inductive ExnClass := TypeError | RuntimeError | OtherError.

Record Exn := mkExn { exn_class : ExnClass; exn_msg : string }.

Definition is_TypeError (e : Exn) : bool :=
  match exn_class e with TypeError => true | _ => false end.

(** Result of a computation that may raise. *)
Inductive Res (A : Type) : Type :=
| Ok (a : A)
| Raise (e : Exn).
Arguments Ok {A} a.
Arguments Raise {A} e.

Definition res_bind {A B} (r : Res A) (k : A -> Res B) : Res B :=
  match r with
  | Ok a => k a
  | Raise e => Raise e
  end.

(** What a host call does on a given build: it works, or it raises. *)
Inductive Outcome := Works | Fails (e : Exn).

Definition outcome_res {A} (o : Outcome) (a : A) : Res A :=
  match o with
  | Works => Ok a
  | Fails e => Raise e
  end.

(** Python integer formatting used in the f-strings. *)
Definition py_str (z : Z) : string :=
  DecimalString.NilZero.string_of_int (Z.to_int z).

Definition py_hex (z : Z) : string :=
  HexadecimalString.NilZero.string_of_int (Z.to_hex_int z).

Definition py_hex_alt (z : Z) : string :=
  if z <? 0 then "-0x" +:+ py_hex (- z) else "0x" +:+ py_hex z.

(* ===================================================================== *)
(** ** Builders                                                           *)
(* ===================================================================== *)

Record StructureBuilder := mkSB {
  sb_packed : bool;
  sb_fields : list (Ty * string)
}.

Definition sb_create : StructureBuilder := mkSB false [].
Definition sb_set_packed (b : bool) (sb : StructureBuilder) : StructureBuilder :=
  mkSB b (sb_fields sb).
Definition sb_append (t : Ty) (name : string) (sb : StructureBuilder)
  : StructureBuilder :=
  mkSB (sb_packed sb) (sb_fields sb ++ [(t, name)]).

Definition sb_type (sb : StructureBuilder) : Ty :=
  TStruct (sb_packed sb) (sb_fields sb).

Record EnumerationBuilder := mkEB {
  eb_width : Z;
  eb_signed : bool;
  eb_members : list (string * Z)
}.

(* ===================================================================== *)
(** ** The host build                                                     *)
(* ===================================================================== *)

(** A build of the host, as far as the plugin probes it.  [None] in an
    optional field means that the attribute does not exist ([hasattr] is
    false).  A call that works returns the object one expects from its
    arguments; the calls the source makes outside any [try] (builder
    creation for structures, [Type.array], [Type.named_type_from_type], the
    definitions on the view) are taken to succeed. *)
Record Host := mkHost {
  (* Type.int(width, False) / Type.int(width, 0) / Type.int(width) *)
  int_width_bool : Z -> Outcome;
  int_width_zero : Z -> Outcome;
  int_width_only : Z -> Outcome;
  int_default_signed : bool;
  (* Type.structure(sb) / Type.structure_type(sb) *)
  type_structure : option (StructureBuilder -> Outcome);
  type_structure_type : option (StructureBuilder -> Outcome);
  (* EnumerationBuilder.create() / EnumerationBuilder() *)
  enum_builder_create : Outcome;
  enum_builder_construct : Outcome;
  enum_default_width : Z;
  enum_default_signed : bool;
  (* eb.width = 1, hasattr(eb, "signed"), eb.signed = False, eb.append *)
  enum_set_width : Outcome;
  enum_has_signed : bool;
  enum_set_signed : Outcome;
  enum_append : string -> Z -> Outcome;
  (* Type.enumeration(eb) *)
  type_enumeration : option Outcome;
  (* Type.enumeration_type(1, eb) / (eb, 1) / (eb) *)
  type_enumeration_type : option (Outcome * Outcome * Outcome);
  (* bv.undefine_user_data_var where nothing is defined, bv.read,
     bv.update_analysis *)
  undefine_absent : Outcome;
  read_outcome : Outcome;
  update_analysis_outcome : Outcome
}.

(* ===================================================================== *)
(** ** The binary view and the log                                        *)
(* ===================================================================== *)

Inductive Level := Info | Warn | Error.

(** The calls on the view that change it or notify the host, the reads of
    the image, the type parser, and the log lines, in the order made. *)
Inductive Event :=
| EvLog (lvl : Level) (msg : string)
| EvRead (addr len : Z)
| EvDefineUserType (name : string) (t : Ty)
| EvUndefineVar (addr : Z)
| EvDefineVar (addr : Z) (t : Ty)
| EvDefineSymbol (addr : Z) (name : string)
| EvSetComment (addr : Z) (text : string)
| EvParseTypeString (src : string)
| EvUpdateAnalysis.

(** The view holds, per name, one user type and, per address, one user
    data variable, one user symbol and one comment; defining again
    replaces what was there.  The trace records the calls made on it. *)
Record BinaryView := mkBV {
  bv_start : Z;                      (* address of the first image byte *)
  bv_data : list Byte.byte;          (* the image bytes *)
  bv_types : gmap string Ty;         (* user types by name *)
  bv_vars : gmap Z Ty;               (* user data variables by address *)
  bv_symbols : gmap Z string;        (* user data symbol at an address *)
  bv_comments : gmap Z string;       (* comment at an address *)
  bv_trace : list Event
}.

(** [bv.end] *)
Definition bv_end (bv : BinaryView) : Z :=
  bv_start bv + Z.of_nat (length (bv_data bv)).

Definition with_types (f : gmap string Ty -> gmap string Ty) (bv : BinaryView) :=
  mkBV (bv_start bv) (bv_data bv) (f (bv_types bv)) (bv_vars bv)
       (bv_symbols bv) (bv_comments bv) (bv_trace bv).
Definition with_vars (f : gmap Z Ty -> gmap Z Ty) (bv : BinaryView) :=
  mkBV (bv_start bv) (bv_data bv) (bv_types bv) (f (bv_vars bv))
       (bv_symbols bv) (bv_comments bv) (bv_trace bv).
Definition with_symbols (f : gmap Z string -> gmap Z string) (bv : BinaryView) :=
  mkBV (bv_start bv) (bv_data bv) (bv_types bv) (bv_vars bv)
       (f (bv_symbols bv)) (bv_comments bv) (bv_trace bv).
Definition with_comments (f : gmap Z string -> gmap Z string) (bv : BinaryView) :=
  mkBV (bv_start bv) (bv_data bv) (bv_types bv) (bv_vars bv)
       (bv_symbols bv) (f (bv_comments bv)) (bv_trace bv).
Definition emit (ev : Event) (bv : BinaryView) :=
  mkBV (bv_start bv) (bv_data bv) (bv_types bv) (bv_vars bv)
       (bv_symbols bv) (bv_comments bv) (bv_trace bv ++ [ev]).

(** Computations on the view that may raise; the view as left behind by a
    raising computation is kept, as in Python. *)
Definition M (A : Type) : Type := BinaryView -> Res A * BinaryView.

Definition ret {A} (a : A) : M A := fun bv => (Ok a, bv).
Definition bind {A B} (m : M A) (k : A -> M B) : M B :=
  fun bv =>
    match m bv with
    | (Ok a, bv') => k a bv'
    | (Raise e, bv') => (Raise e, bv')
    end.
Definition lift {A} (r : Res A) : M A := fun bv => (r, bv).

(** [try: m  except Exception: h] *)
Definition try_except {A} (m : M A) (h : Exn -> M A) : M A :=
  fun bv =>
    match m bv with
    | (Ok a, bv') => (Ok a, bv')
    | (Raise e, bv') => h e bv'
    end.

Declare Scope py_scope.
Delimit Scope py_scope with py.
Notation "'do' x <- m ; k" := (bind m (fun x => k))
  (at level 10, x name, m at level 100, k at level 200) : py_scope.
Notation "m ;; k" := (bind m (fun _ => k))
  (at level 100, k at level 200, right associativity) : py_scope.
Notation "'do_res' x <- r ; k" := (res_bind r (fun x => k))
  (at level 10, x name, r at level 100, k at level 200) : py_scope.
Local Open Scope py_scope.

(* ===================================================================== *)
(** ** The host's parser for C declarations                               *)
(* ===================================================================== *)

(** Remove the prefix [p] from [s]. *)
Fixpoint strip_prefix (p s : string) : option string :=
  match p with
  | EmptyString => Some s
  | String a p' =>
      match s with
      | String b s' => if Ascii.eqb a b then strip_prefix p' s' else None
      | EmptyString => None
      end
  end.

(** Cut [s] at the first occurrence of [c], which is dropped. *)
Fixpoint split_at (c : ascii) (s : string) : option (string * string) :=
  match s with
  | EmptyString => None
  | String a s' =>
      if Ascii.eqb a c then Some (EmptyString, s')
      else match split_at c s' with
           | Some (l, r) => Some (String a l, r)
           | None => None
           end
  end.

(** A declaration [struct S { T f[N]; };], the one form the plugin hands to
    [parse_type_string]: the names [S], [T], [f] and the count [N]. *)
Definition parse_struct_decl (src : string) : option (string * string * string * Z) :=
  match strip_prefix "struct " src with
  | None => None
  | Some rest =>
  match split_at " " rest with
  | None => None
  | Some (sname, rest) =>
  match strip_prefix "{ " rest with
  | None => None
  | Some rest =>
  match split_at " " rest with
  | None => None
  | Some (tname, rest) =>
  match split_at "[" rest with
  | None => None
  | Some (fname, rest) =>
  match split_at "]" rest with
  | None => None
  | Some (digits, rest) =>
  match DecimalString.NilZero.uint_of_string digits with
  | None => None
  | Some d =>
      if String.eqb rest "; };"
      then Some (sname, tname, fname, Z.of_uint d)
      else None
  end end end end end end end.

(* ===================================================================== *)
(** ** The plugin                                                         *)
(* ===================================================================== *)

Section Plugin.

Variable h : Host.

(** *** Static constructors of the host *)

Definition Type_int_bool (width : Z) : Res Ty :=
  outcome_res (int_width_bool h width) (TInt width false).
Definition Type_int_zero (width : Z) : Res Ty :=
  outcome_res (int_width_zero h width) (TInt width false).
Definition Type_int_only (width : Z) : Res Ty :=
  outcome_res (int_width_only h width) (TInt width (int_default_signed h)).

Definition Type_array (t : Ty) (n : Z) : Ty := TArray t n.
Definition Type_named_type_from_type (name : string) (t : Ty) : Ty := TNamed name t.

(** *** Helpers for old Type.int() signatures *)

Definition _uint (width : Z) : Res Ty :=
  match Type_int_bool width with
  | Ok t => Ok t
  | Raise e =>
      if negb (is_TypeError e) then Raise e else
      match Type_int_zero width with
      | Ok t => Ok t
      | Raise e =>
          if negb (is_TypeError e) then Raise e else
          match Type_int_only width with
          | Ok t => Ok t
          | Raise e =>
              Raise (mkExn RuntimeError
                       ("Cannot construct Type.int(" +:+ py_str width +:+ "): "
                        +:+ exn_msg e))
          end
      end
  end.

Definition u8 : Res Ty := _uint 1.
Definition u16 : Res Ty := _uint 2.
Definition u32 : Res Ty := _uint 4.

Definition no_structure_msg : string :=
  "No Type.structure / Type.structure_type available on this BN build".

Definition _type_structure (sb : StructureBuilder) : Res Ty :=
  let via_structure_type :=
    match type_structure_type h with
    | Some f => outcome_res (f sb) (sb_type sb)
    | None => Raise (mkExn RuntimeError no_structure_msg)
    end in
  match type_structure h with
  | Some f =>
      match outcome_res (f sb) (sb_type sb) with
      | Ok t => Ok t
      | Raise _ => via_structure_type
      end
  | None => via_structure_type
  end.

(** *** Enum construction *)

(** The [for k, v in ZEN_OPCODE_ENUM.items()] loop: [None] as soon as one
    [append] raises. *)
Fixpoint enum_append_all (eb : EnumerationBuilder) (items : list (string * Z))
  : option EnumerationBuilder :=
  match items with
  | [] => Some eb
  | (k, v) :: rest =>
      match enum_append h k v with
      | Works =>
          enum_append_all
            (mkEB (eb_width eb) (eb_signed eb) (eb_members eb ++ [(k, v)])) rest
      | Fails _ => None
      end
  end.

Definition enum_type (width : Z) (eb : EnumerationBuilder) : Ty :=
  TEnum width (eb_signed eb) (eb_members eb).

Definition _make_enum_type_best_effort : option Ty :=
  let fresh := mkEB (enum_default_width h) (enum_default_signed h) [] in
  let eb :=
    match enum_builder_create h with
    | Works => Some fresh
    | Fails _ =>
        match enum_builder_construct h with
        | Works => Some fresh
        | Fails _ => None
        end
    end in
  match eb with
  | None => None
  | Some eb =>
      let eb :=
        match enum_set_width h with
        | Works => mkEB 1 (eb_signed eb) (eb_members eb)
        | Fails _ => eb
        end in
      let eb :=
        if enum_has_signed h then
          match enum_set_signed h with
          | Works => mkEB (eb_width eb) false (eb_members eb)
          | Fails _ => eb
          end
        else eb in
      match enum_append_all eb ZEN_OPCODE_ENUM with
      | None => None
      | Some eb =>
          let via_enumeration_type :=
            match type_enumeration_type h with
            | Some (width_first, width_last, no_width) =>
                match width_first with
                | Works => Some (enum_type 1 eb)
                | Fails _ =>
                    match width_last with
                    | Works => Some (enum_type 1 eb)
                    | Fails _ =>
                        match no_width with
                        | Works => Some (enum_type (eb_width eb) eb)
                        | Fails _ => None
                        end
                    end
                end
            | None => None
            end in
          match type_enumeration h with
          | Some Works => Some (enum_type (eb_width eb) eb)
          | Some (Fails _) => via_enumeration_type
          | None => via_enumeration_type
          end
      end
  end.

(** *** Methods of the view, and the log *)

Definition log_info (msg : string) : M unit :=
  fun bv => (Ok tt, emit (EvLog Info msg) bv).
Definition log_warn (msg : string) : M unit :=
  fun bv => (Ok tt, emit (EvLog Warn msg) bv).
Definition log_error (msg : string) : M unit :=
  fun bv => (Ok tt, emit (EvLog Error msg) bv).

Definition get_type_by_name (name : string) : M (option Ty) :=
  fun bv => (Ok (bv_types bv !! name), bv).

Definition define_user_type (name : string) (t : Ty) : M unit :=
  fun bv => (Ok tt, emit (EvDefineUserType name t) (with_types (insert name t) bv)).

(** Removing a variable that is there works; what happens where there is
    none depends on the build. *)
Definition undefine_user_data_var (addr : Z) : M unit :=
  fun bv =>
    match bv_vars bv !! addr with
    | Some _ => (Ok tt, emit (EvUndefineVar addr) (with_vars (delete addr) bv))
    | None => (outcome_res (undefine_absent h) tt, emit (EvUndefineVar addr) bv)
    end.

Definition define_user_data_var (addr : Z) (t : Ty) : M unit :=
  fun bv => (Ok tt, emit (EvDefineVar addr t) (with_vars (insert addr t) bv)).

(** [bv.define_user_symbol(Symbol(SymbolType.DataSymbol, addr, sym))] *)
Definition define_user_symbol (addr : Z) (sym : string) : M unit :=
  fun bv => (Ok tt, emit (EvDefineSymbol addr sym) (with_symbols (insert addr sym) bv)).

Definition set_comment_at (addr : Z) (comment : string) : M unit :=
  fun bv => (Ok tt, emit (EvSetComment addr comment) (with_comments (insert addr comment) bv)).

(** The bytes [bv.read(addr, len)] returns: those of the image from [addr]
    on, at most [len], none outside the image. *)
Definition image_read (bv : BinaryView) (addr len : Z) : list Byte.byte :=
  if (addr <? bv_start bv) || (bv_end bv <=? addr) then []
  else firstn (Z.to_nat len) (skipn (Z.to_nat (addr - bv_start bv)) (bv_data bv)).

Definition bv_read (addr len : Z) : M (list Byte.byte) :=
  fun bv => (outcome_res (read_outcome h) (image_read bv addr len),
             emit (EvRead addr len) bv).

Definition update_analysis : M unit :=
  fun bv => (outcome_res (update_analysis_outcome h) tt, emit EvUpdateAnalysis bv).

Definition parse_error : Exn := mkExn OtherError "parse_type_string: syntax error".

(** [bv.parse_type_string(src)]: the parsed type and its name.  A name used
    inside the declaration is resolved against the types of the view; the
    view itself is left as it is. *)
Definition parse_type_string (src : string) : M (Ty * string) :=
  fun bv =>
    let bv' := emit (EvParseTypeString src) bv in
    match parse_struct_decl src with
    | Some (sname, tname, fname, n) =>
        match bv_types bv !! tname with
        | Some t => (Ok (TStruct false [(TArray (TNamed tname t) n, fname)], sname), bv')
        | None => (Raise parse_error, bv')
        end
    | None => (Raise parse_error, bv')
    end.

(** *** BinaryView var helpers *)

Definition _safe_undef_var (addr : Z) : M unit :=
  try_except (undefine_user_data_var addr) (fun _ => ret tt).

(** Python truthiness of an optional string argument. *)
Definition str_truthy (o : option string) : option string :=
  match o with
  | Some EmptyString => None
  | other => other
  end.

Definition _define_var (addr : Z) (t : Ty) (sym comment : option string) : M unit :=
  _safe_undef_var addr ;;
  define_user_data_var addr t ;;
  match str_truthy sym with
  | Some s => define_user_symbol addr s
  | None => ret tt
  end ;;
  match str_truthy comment with
  | Some c => set_comment_at addr c
  | None => ret tt
  end.

Definition short_read_msg (got base : Z) : string :=
  "Only " +:+ py_str got +:+ " bytes available from 0x" +:+ py_hex base
  +:+ ", expected 0x" +:+ py_hex PATCH_SIZE +:+ ". Layout may be partial.".

Definition _check_size (base : Z) : M unit :=
  try_except
    (do data <- bv_read base PATCH_SIZE;
     let got := Z.of_nat (length data) in
     if got <? PATCH_SIZE then log_warn (short_read_msg got base) else ret tt)
    (fun _ => ret tt).

(** *** Define ALL types *)

(** [sb.append(<type expression>, name)], where evaluating the type
    expression may raise. *)
Definition append (r : Res Ty) (name : string) (sb : StructureBuilder)
  : M StructureBuilder :=
  do t <- lift r; ret (sb_append t name sb).

Definition enum_created_msg : string := "AMD_Zen_Opcode enum created (u8).".
Definition enum_fallback_msg : string :=
  "Could not create AMD_Zen_Opcode enum on this BN build; opcode will be uint8.".
Definition structs_defined_msg : string :=
  "AMD microcode structs defined in this database.".

Definition _ensure_types : M unit :=
  do existing <- get_type_by_name T_PATCH;
  match existing with
  | Some _ => ret tt
  | None =>
      (* Enum: AMD_Zen_Opcode *)
      do opcode_field_t <-
        match _make_enum_type_best_effort with
        | Some enum_t =>
            define_user_type T_ENUM enum_t ;;
            let opcode_field_t := Type_named_type_from_type T_ENUM enum_t in
            log_info enum_created_msg ;;
            ret opcode_field_t
        | None =>
            do opcode_field_t <- lift u8;
            log_warn enum_fallback_msg ;;
            ret opcode_field_t
        end;
      (* AMD_Zen_MicroOp (packed 4 bytes) *)
      let sb_uop := sb_set_packed true sb_create in
      let sb_uop := sb_append opcode_field_t "opcode" sb_uop in
      do sb_uop <- append u8 "b1" sb_uop;
      do sb_uop <- append u16 "imm16" sb_uop;
      do uop_t <- lift (_type_structure sb_uop);
      define_user_type T_UOP uop_t ;;
      let uop_named := Type_named_type_from_type T_UOP uop_t in
      (* AMD_Zen_MicrocodeRegion (0x3500 bytes) *)
      let sb_reg := sb_set_packed true sb_create in
      let sb_reg := sb_append (Type_array uop_named UOP_COUNT) "uops" sb_reg in
      do reg_t <- lift (_type_structure sb_reg);
      define_user_type T_REG reg_t ;;
      (* AMD_MC_Header (packed 0x20 bytes) *)
      let sb_hdr := sb_set_packed true sb_create in
      do sb_hdr <- append u16 "Year" sb_hdr;
      do sb_hdr <- append u8 "Day" sb_hdr;
      do sb_hdr <- append u8 "Month" sb_hdr;
      do sb_hdr <- append u32 "UpdateRevision" sb_hdr;
      do sb_hdr <- append u16 "LoaderID" sb_hdr;
      do sb_hdr <- append u8 "DataSize" sb_hdr;
      do sb_hdr <- append u8 "InitializationFlag" sb_hdr;
      do sb_hdr <- append u32 "DataChecksum" sb_hdr;
      do sb_hdr <- append u16 "NorthBridgeVEN_ID" sb_hdr;
      do sb_hdr <- append u16 "NorthBridgeDEV_ID" sb_hdr;
      do sb_hdr <- append u16 "SouthBridgeVEN_ID" sb_hdr;
      do sb_hdr <- append u16 "SouthBridgeDEV_ID" sb_hdr;
      do sb_hdr <- append u16 "ProcessorSignature" sb_hdr;
      do sb_hdr <- append u8 "NorthBridgeREV_ID" sb_hdr;
      do sb_hdr <- append u8 "SouthBridgeREV_ID" sb_hdr;
      do sb_hdr <- append u8 "BiosApiRevision" sb_hdr;
      do sb_hdr <- append u8 "LoadControl" sb_hdr;
      do sb_hdr <- append u8 "Reserved_1E" sb_hdr;
      do sb_hdr <- append u8 "Reserved_1F" sb_hdr;
      do hdr_t <- lift (_type_structure sb_hdr);
      define_user_type T_HDR hdr_t ;;
      let hdr_named := Type_named_type_from_type T_HDR hdr_t in
      (* AMD_MC_RandomBlocks (packed 0x300) *)
      let sb_rand := sb_set_packed true sb_create in
      do sb_rand <- append (do_res t <- u8; Ok (Type_array t 0x100)) "block1" sb_rand;
      do sb_rand <- append (do_res t <- u8; Ok (Type_array t 0x100)) "block2" sb_rand;
      do sb_rand <- append (do_res t <- u8; Ok (Type_array t 0x100)) "block3" sb_rand;
      do rand_t <- lift (_type_structure sb_rand);
      define_user_type T_RAND rand_t ;;
      let rand_named := Type_named_type_from_type T_RAND rand_t in
      (* AMD_MC_Patch (0x3820) *)
      let sb_patch := sb_set_packed true sb_create in
      let sb_patch := sb_append hdr_named "hdr" sb_patch in
      do sb_patch <- append (do_res t <- u8; Ok (Type_array t 0x3800)) "body" sb_patch;
      do patch_t <- lift (_type_structure sb_patch);
      define_user_type T_PATCH patch_t ;;
      log_info structs_defined_msg
  end.

(** *** Apply layout *)

(** Lines 310-313: the size of the region that is typed and its number of
    records, from the end of the image and the start of the region. *)
Definition ucode_sizing (file_end reg_base : Z) : Z * Z :=
  let available := file_end - reg_base in
  let ucode_size := Z.min available UCREG_SIZE in
  let ucode_size := ucode_size - (ucode_size mod UOP_SIZE) in
  let uops_count := ucode_size / UOP_SIZE in
  (ucode_size, uops_count).

(** The f-string handed to the parser for a truncated region. *)
Definition type_str (uops_count : Z) : string :=
  "struct AMD_Zen_MicrocodeRegion_auto { " +:+ T_UOP +:+ " uops["
  +:+ py_str uops_count +:+ "]; };".

Definition types_missing_msg : string :=
  "Types missing after definition; type creation failed on this build.".
Definition no_bytes_msg : string :=
  "No bytes available for ucode region at this base.".
Definition applied_msg (base uops_count : Z) : string :=
  "Applied AMD microcode layout at 0x" +:+ py_hex base +:+ " (uops="
  +:+ py_hex_alt uops_count +:+ ").".

Definition apply_layout_at (base : Z) : M unit :=
  _ensure_types ;;
  _check_size base ;;
  do patch_t <- get_type_by_name T_PATCH;
  do hdr_t <- get_type_by_name T_HDR;
  do rand_t <- get_type_by_name T_RAND;
  do reg_t <- get_type_by_name T_REG;
  (* if not all([patch_t, hdr_t, rand_t, reg_t]): None is falsy *)
  match patch_t, hdr_t, rand_t, reg_t with
  | Some patch_t', Some hdr_t', Some rand_t', Some reg_t' =>
      if negb (forallb truthy [patch_t; hdr_t; rand_t; reg_t])
      then log_error types_missing_msg
      else
        _define_var (base + 0x0) patch_t' (Some "amd_mc_patch")
                    (Some "AMD microcode patch container") ;;
        _define_var (base + HDR_OFF) hdr_t' (Some "amd_mc_header") None ;;
        _define_var (base + RANDOM_OFF) rand_t' (Some "amd_mc_random_blocks") None ;;
        (* microcode region (auto-size if partial) *)
        do file_end <- (fun bv => (Ok (bv_end bv), bv));
        let reg_base := base + UCREG_OFF in
        if reg_base >=? file_end
        then log_warn no_bytes_msg
        else
          let '(ucode_size, uops_count) := ucode_sizing file_end reg_base in
          (if ucode_size =? UCREG_SIZE
           then _define_var reg_base reg_t' (Some "amd_ucode_region") None
           else
             do parsed <- parse_type_string (type_str uops_count);
             let auto_t := fst parsed in
             _define_var reg_base auto_t (Some "amd_ucode_region") None) ;;
          try_except update_analysis (fun _ => ret tt) ;;
          log_info (applied_msg base uops_count)
  | _, _, _, _ => log_error types_missing_msg
  end.

(** *** Commands *)

Definition cmd_define_types : M unit := _ensure_types.
Definition cmd_apply_at_zero : M unit := apply_layout_at 0.
Definition cmd_apply_at_cursor (addr : Z) : M unit := apply_layout_at addr.

End Plugin.

(* ===================================================================== *)
(** ** Notions used in the statements                                     *)
(* ===================================================================== *)

(** The sizing rule in the words of the specification. *)
Definition floor_to_multiple (x m : Z) : Z := (x / m) * m.

Definition usable_region_bytes (available_bytes : Z) : Z :=
  floor_to_multiple (Z.min available_bytes UCREG_SIZE) UOP_SIZE.

Definition record_count (available_bytes : Z) : Z :=
  usable_region_bytes available_bytes / UOP_SIZE.

(** The events a computation added, given the view before and after. *)
Definition trace_since (before after : BinaryView) : list Event :=
  skipn (length (bv_trace before)) (bv_trace after).

Definition defined_vars (tr : list Event) : list (Z * Ty) :=
  flat_map (fun ev => match ev with EvDefineVar a t => [(a, t)] | _ => [] end) tr.

Definition registered_types (tr : list Event) : list (string * Ty) :=
  flat_map (fun ev => match ev with EvDefineUserType n t => [(n, t)] | _ => [] end) tr.

Definition parsed_sources (tr : list Event) : list string :=
  flat_map (fun ev => match ev with EvParseTypeString s => [s] | _ => [] end) tr.

Definition analysis_requests (tr : list Event) : list unit :=
  flat_map (fun ev => match ev with EvUpdateAnalysis => [tt] | _ => [] end) tr.

Definition log_lines (tr : list Event) : list (Level * string) :=
  flat_map (fun ev => match ev with EvLog l m => [(l, m)] | _ => [] end) tr.

Definition error_lines (tr : list Event) : list string :=
  flat_map (fun ev => match ev with EvLog Error m => [m] | _ => [] end) tr.

(** The four names [apply_layout_at] looks up are there and truthy. *)
Definition registered (bv : BinaryView) : bool :=
  forallb (fun name => truthy (bv_types bv !! name)) [T_PATCH; T_HDR; T_RAND; T_REG].

(** The ad hoc type of a truncated region with [n] records of type [uop]. *)
Definition auto_region_type (uop : Ty) (n : Z) : Ty :=
  TStruct false [(TArray (TNamed T_UOP uop) n, "uops")].

(** What one [_define_var] call leaves behind. *)
Definition define_var_post (addr : Z) (t : Ty) (sym comment : option string)
    (bv : BinaryView) : BinaryView :=
  let bv := emit (EvUndefineVar addr) (with_vars (delete addr) bv) in
  let bv := emit (EvDefineVar addr t) (with_vars (insert addr t) bv) in
  let bv := match str_truthy sym with
            | Some s => emit (EvDefineSymbol addr s) (with_symbols (insert addr s) bv)
            | None => bv
            end in
  match str_truthy comment with
  | Some c => emit (EvSetComment addr c) (with_comments (insert addr c) bv)
  | None => bv
  end.

(** What [_check_size] leaves behind: the read, and the warning if the read
    worked and came back short. *)
Definition check_size_post (h : Host) (base : Z) (bv : BinaryView) : BinaryView :=
  let bv' := emit (EvRead base PATCH_SIZE) bv in
  match read_outcome h with
  | Works =>
      let got := Z.of_nat (length (image_read bv base PATCH_SIZE)) in
      if got <? PATCH_SIZE then emit (EvLog Warn (short_read_msg got base)) bv' else bv'
  | Fails _ => bv'
  end.

(** The type of the opcode field: the named enumeration, or [u8()]. *)
Definition opcode_field (h : Host) : Res Ty :=
  match _make_enum_type_best_effort h with
  | Some enum_t => Ok (TNamed T_ENUM enum_t)
  | None => u8 h
  end.

(** The structures a registration pass builds, from the integer types the
    host returned. *)
Definition uop_struct (opcode_t t8 t16 : Ty) : Ty :=
  TStruct true [(opcode_t, "opcode"); (t8, "b1"); (t16, "imm16")].

Definition region_struct (uop : Ty) : Ty :=
  TStruct true [(TArray (TNamed T_UOP uop) UOP_COUNT, "uops")].

Definition header_struct (t8 t16 t32 : Ty) : Ty :=
  TStruct true
    [ (t16, "Year"); (t8, "Day"); (t8, "Month"); (t32, "UpdateRevision");
      (t16, "LoaderID"); (t8, "DataSize"); (t8, "InitializationFlag");
      (t32, "DataChecksum"); (t16, "NorthBridgeVEN_ID");
      (t16, "NorthBridgeDEV_ID"); (t16, "SouthBridgeVEN_ID");
      (t16, "SouthBridgeDEV_ID"); (t16, "ProcessorSignature");
      (t8, "NorthBridgeREV_ID"); (t8, "SouthBridgeREV_ID");
      (t8, "BiosApiRevision"); (t8, "LoadControl"); (t8, "Reserved_1E");
      (t8, "Reserved_1F") ].

Definition random_struct (t8 : Ty) : Ty :=
  TStruct true
    [ (TArray t8 0x100, "block1"); (TArray t8 0x100, "block2");
      (TArray t8 0x100, "block3") ].

Definition patch_struct (hdr t8 : Ty) : Ty :=
  TStruct true [(TNamed T_HDR hdr, "hdr"); (TArray t8 0x3800, "body")].

(** The enumeration, when there is one, is registered under [T_ENUM]. *)
Definition with_enum (h : Host) (tys : gmap string Ty) : gmap string Ty :=
  match _make_enum_type_best_effort h with
  | Some enum_t => <[T_ENUM := enum_t]> tys
  | None => tys
  end.

(** The events of the enumeration step, and of a whole registration pass
    that runs to its end. *)
Definition enum_events (h : Host) : list Event :=
  match _make_enum_type_best_effort h with
  | Some enum_t => [EvDefineUserType T_ENUM enum_t; EvLog Info enum_created_msg]
  | None => [EvLog Warn enum_fallback_msg]
  end.

Definition registration_events (h : Host) (opcode_t t8 t16 t32 : Ty) : list Event :=
  enum_events h ++
  [ EvDefineUserType T_UOP (uop_struct opcode_t t8 t16);
    EvDefineUserType T_REG (region_struct (uop_struct opcode_t t8 t16));
    EvDefineUserType T_HDR (header_struct t8 t16 t32);
    EvDefineUserType T_RAND (random_struct t8);
    EvDefineUserType T_PATCH (patch_struct (header_struct t8 t16 t32) t8);
    EvLog Info structs_defined_msg ].

Definition registered_view (h : Host) (opcode_t t8 t16 t32 : Ty)
    (bv : BinaryView) : BinaryView :=
  mkBV (bv_start bv) (bv_data bv)
       (<[T_PATCH := patch_struct (header_struct t8 t16 t32) t8]>
          (<[T_RAND := random_struct t8]>
             (<[T_HDR := header_struct t8 t16 t32]>
                (<[T_REG := region_struct (uop_struct opcode_t t8 t16)]>
                   (<[T_UOP := uop_struct opcode_t t8 t16]>
                      (with_enum h (bv_types bv)))))))
       (bv_vars bv) (bv_symbols bv) (bv_comments bv)
       (bv_trace bv ++ registration_events h opcode_t t8 t16 t32).

(** An event of the kind registration produces: a type definition or a log
    line below error level. *)
Definition registration_event (ev : Event) : bool :=
  match ev with
  | EvDefineUserType _ _ => true
  | EvLog Info _ => true
  | EvLog Warn _ => true
  | _ => false
  end.

(** [s'] differs from [s] at most in its types and by registration events. *)
Definition only_registers (s s' : BinaryView) : Prop :=
  bv_start s' = bv_start s /\ bv_data s' = bv_data s /\
  bv_vars s' = bv_vars s /\ bv_symbols s' = bv_symbols s /\
  bv_comments s' = bv_comments s /\
  exists evs, bv_trace s' = bv_trace s ++ evs /\
              forallb registration_event evs = true.

Definition keeps {A} (m : M A) : Prop := forall s, only_registers s (snd (m s)).

(** The view after the three fixed regions have been defined at [base]. *)
Definition three_regions_post (base : Z) (patch_t hdr_t rand_t : Ty)
    (bv : BinaryView) : BinaryView :=
  define_var_post (base + RANDOM_OFF) rand_t (Some "amd_mc_random_blocks") None
    (define_var_post (base + HDR_OFF) hdr_t (Some "amd_mc_header") None
       (define_var_post (base + 0x0) patch_t (Some "amd_mc_patch")
          (Some "AMD microcode patch container") bv)).

(** The view after the analysis request and the closing log line. *)
Definition finish_post (base uops_count : Z) (bv : BinaryView) : BinaryView :=
  emit (EvLog Info (applied_msg base uops_count)) (emit EvUpdateAnalysis bv).

(** The events of one [_check_size], of one [_define_var], and of the three
    fixed regions. *)
Definition check_size_events (h : Host) (base : Z) (bv : BinaryView) : list Event :=
  EvRead base PATCH_SIZE ::
  match read_outcome h with
  | Works =>
      let got := Z.of_nat (length (image_read bv base PATCH_SIZE)) in
      if got <? PATCH_SIZE then [EvLog Warn (short_read_msg got base)] else []
  | Fails _ => []
  end.

Definition define_var_events (addr : Z) (t : Ty) (sym comment : option string)
  : list Event :=
  [EvUndefineVar addr; EvDefineVar addr t]
  ++ match str_truthy sym with Some s => [EvDefineSymbol addr s] | None => [] end
  ++ match str_truthy comment with Some c => [EvSetComment addr c] | None => [] end.

Definition three_regions_events (base : Z) (patch_t hdr_t rand_t : Ty) : list Event :=
  define_var_events (base + 0x0) patch_t (Some "amd_mc_patch")
    (Some "AMD microcode patch container")
  ++ define_var_events (base + HDR_OFF) hdr_t (Some "amd_mc_header") None
  ++ define_var_events (base + RANDOM_OFF) rand_t (Some "amd_mc_random_blocks") None.

(** All the text a call surfaces: the message of the exception it raised,
    if any, and its log lines. *)
Definition diagnostics {A} (r : Res A) (tr : list Event) : list string :=
  match r with Raise e => [exn_msg e] | Ok _ => [] end ++ map snd (log_lines tr).

(** The five structure names. *)
Definition structure_names : list string := [T_UOP; T_REG; T_HDR; T_RAND; T_PATCH].

(** Two views agree on everything but the trace. *)
Definition same_view (s s' : BinaryView) : Prop :=
  bv_start s' = bv_start s /\ bv_data s' = bv_data s /\
  bv_types s' = bv_types s /\ bv_vars s' = bv_vars s /\
  bv_symbols s' = bv_symbols s /\ bv_comments s' = bv_comments s.

(** The view a call that got past the type check leaves behind, from the
    view [bv] after registration: the three fixed regions, the microcode
    region when one was defined ([region]), and the events [evs]. *)
Definition region_var (base : Z) (region : option Ty) (vars : gmap Z Ty)
  : gmap Z Ty :=
  match region with
  | Some t => <[base + UCREG_OFF := t]> vars
  | None => vars
  end.

Definition region_symbol (base : Z) (region : option Ty) (syms : gmap Z string)
  : gmap Z string :=
  match region with
  | Some _ => <[base + UCREG_OFF := "amd_ucode_region"]> syms
  | None => syms
  end.

Definition applied_view (base : Z) (patch_t hdr_t rand_t : Ty) (region : option Ty)
    (bv : BinaryView) (evs : list Event) : BinaryView :=
  mkBV (bv_start bv) (bv_data bv) (bv_types bv)
       (region_var base region
          (<[base + 0x20 := rand_t]> (<[base := hdr_t]> (bv_vars bv))))
       (region_symbol base region
          (<[base + 0x20 := "amd_mc_random_blocks"]>
             (<[base := "amd_mc_header"]> (bv_symbols bv))))
       (<[base := "AMD microcode patch container"]> (bv_comments bv))
       (bv_trace bv ++ evs).

(** The events of the call after registration, on each of its three ways
    through the microcode region. *)
Definition early_events (h : Host) (base : Z) (patch_t hdr_t rand_t : Ty)
    (bv : BinaryView) : list Event :=
  check_size_events h base bv ++ three_regions_events base patch_t hdr_t rand_t
  ++ [EvLog Warn no_bytes_msg].

Definition full_events (h : Host) (base : Z) (patch_t hdr_t rand_t reg_t : Ty)
    (bv : BinaryView) : list Event :=
  check_size_events h base bv ++ three_regions_events base patch_t hdr_t rand_t
  ++ define_var_events (base + UCREG_OFF) reg_t (Some "amd_ucode_region") None
  ++ [EvUpdateAnalysis;
      EvLog Info (applied_msg base (snd (ucode_sizing (bv_end bv) (base + UCREG_OFF))))].

Definition truncated_events (h : Host) (base : Z) (patch_t hdr_t rand_t uop : Ty)
    (bv : BinaryView) : list Event :=
  let n := snd (ucode_sizing (bv_end bv) (base + UCREG_OFF)) in
  check_size_events h base bv ++ three_regions_events base patch_t hdr_t rand_t
  ++ [EvParseTypeString (type_str n)]
  ++ define_var_events (base + UCREG_OFF) (auto_region_type uop n)
       (Some "amd_ucode_region") None
  ++ [EvUpdateAnalysis; EvLog Info (applied_msg base n)].

(** The packing flag and the fields of a structure type. *)
Definition ty_packed (t : Ty) : bool :=
  match t with TStruct p _ => p | _ => false end.

Definition ty_fields (t : Ty) : list (Ty * string) :=
  match t with TStruct _ fs => fs | _ => [] end.

Definition field_widths (t : Ty) : list Z :=
  map (fun f => ty_width (fst f)) (ty_fields t).

(** A list of registrations, latest first, applied to a registry; and a
    computation that, whatever the view, returns the same result, registers
    the same types and adds the same events. *)
Definition insert_all (regs : list (string * Ty)) (tys : gmap string Ty)
  : gmap string Ty :=
  fold_right (fun kv m => <[kv.1 := kv.2]> m) tys regs.

Definition script_view (regs : list (string * Ty)) (evs : list Event)
    (bv : BinaryView) : BinaryView :=
  mkBV (bv_start bv) (bv_data bv) (insert_all regs (bv_types bv))
       (bv_vars bv) (bv_symbols bv) (bv_comments bv) (bv_trace bv ++ evs).

Definition uniform {A} (m : M A) : Prop :=
  exists r regs evs, forall s, m s = (r, script_view regs evs s).

(** [n] calls of [_ensure_types] in a row. *)
Fixpoint ensure_types_times (h : Host) (n : nat) : M unit :=
  match n with
  | O => ret tt
  | S n' => _ensure_types h ;; ensure_types_times h n'
  end.

(** [c] does not occur in [s]. *)
Fixpoint avoids (c : ascii) (s : string) : bool :=
  match s with
  | EmptyString => true
  | String a s' => negb (Ascii.eqb a c) && avoids c s'
  end.

(** [needle] occurs in [s]. *)
Fixpoint occurs_in (needle s : string) : bool :=
  if String.prefix needle s then true
  else match s with
       | EmptyString => false
       | String _ s' => occurs_in needle s'
       end.

(** A call outcome as a boolean. *)
Definition works (o : Outcome) : bool :=
  match o with Works => true | Fails _ => false end.

(** What the host must offer for [_make_enum_type_best_effort] to return a
    type: a builder from either constructor, every [append], and one of the
    four conversions of the builder into a type. *)
Definition enum_supported (h : Host) : bool :=
  (works (enum_builder_create h) || works (enum_builder_construct h))
  && forallb (fun kv => works (enum_append h kv.1 kv.2)) ZEN_OPCODE_ENUM
  && (match type_enumeration h with Some o => works o | None => false end
      || match type_enumeration_type h with
         | Some (width_first, width_last, no_width) =>
             works width_first || works width_last || works no_width
         | None => false
         end).

(** The complement of a byte, as in the comments of the table:
    [~v & 0xFF]. *)
Definition byte_complement (v : Z) : Z := Z.land (Z.lnot v) 0xFF.

(** The references by name inside a type, each with the type it carries. *)
Fixpoint named_refs (t : Ty) : list (string * Ty) :=
  match t with
  | TInt _ _ => []
  | TEnum _ _ _ => []
  | TNamed n t' => (n, t') :: named_refs t'
  | TArray e _ => named_refs e
  | TStruct _ fs =>
      (fix fields_refs (fs : list (Ty * string)) : list (string * Ty) :=
         match fs with
         | [] => []
         | (ft, _) :: fs' => named_refs ft ++ fields_refs fs'
         end) fs
  end.

(** The names registration may define. *)
Definition managed_names : list string := T_ENUM :: structure_names.

(** A computation that leaves every type outside [managed_names] alone. *)
Definition leaves_other_types {A} (m : M A) : Prop :=
  forall s name, ~ In name managed_names ->
    bv_types (m s).2 !! name = bv_types s !! name.

(* ===================================================================== *)
(** ** Some host builds and images                                        *)
(* ===================================================================== *)

(** A current build: every call shape works. *)
Definition host_modern : Host :=
  mkHost (fun _ => Works) (fun _ => Works) (fun _ => Works) true
         (Some (fun _ => Works)) None
         Works Works 4 false
         Works true Works (fun _ _ => Works)
         (Some Works) None
         Works Works Works.

Definition host_exn (msg : string) : Exn := mkExn OtherError msg.
Definition host_type_error : Exn := mkExn TypeError "unexpected argument".

(** An old build without any enumeration support, whose [Type.int] only
    takes [(width, 0)] and whose structures come from [structure_type]. *)
Definition host_no_enum : Host :=
  mkHost (fun _ => Fails host_type_error) (fun _ => Works)
         (fun _ => Fails host_type_error) true
         None (Some (fun _ => Works))
         (Fails (host_exn "no create")) (Fails (host_exn "no builder")) 4 false
         (Fails (host_exn "no width")) false (Fails (host_exn "no signed"))
         (fun _ _ => Fails (host_exn "no append"))
         None None
         (Fails (host_exn "not defined")) Works (Fails (host_exn "no analysis")).

(** A build on which [Type] has neither [structure] nor [structure_type]. *)
Definition host_no_structs : Host :=
  mkHost (fun _ => Works) (fun _ => Works) (fun _ => Works) true
         None None
         Works Works 4 false
         Works true Works (fun _ _ => Works)
         (Some Works) None
         Works Works Works.

(** An image of [n] zero bytes at [start], with nothing defined. *)
Definition image (start : Z) (n : nat) : BinaryView :=
  mkBV start (repeat Byte.x00 n) ∅ ∅ ∅ ∅ [].

(** A build whose [Type.int] accepts no call shape at all. *)
Definition host_no_int : Host :=
  mkHost (fun _ => Fails host_type_error) (fun _ => Fails host_type_error)
         (fun _ => Fails (host_exn "no int")) true
         (Some (fun _ => Works)) None
         Works Works 4 false
         Works true Works (fun _ _ => Works)
         (Some Works) None
         Works Works Works.

(** A build whose [Type.structure] exists but raises, without
    [structure_type]. *)
Definition host_broken_structure : Host :=
  mkHost (fun _ => Works) (fun _ => Works) (fun _ => Works) true
         (Some (fun _ => Fails (host_exn "structure failed"))) None
         Works Works 4 false
         Works true Works (fun _ _ => Works)
         (Some Works) None
         Works Works Works.

(** A registry that holds the container name only, and one that holds the
    four looked-up names but not the record type. *)
Definition image_patch_only (start : Z) (n : nat) : BinaryView :=
  with_types (insert T_PATCH (TInt 4 false)) (image start n).

Definition image_without_uop (start : Z) (n : nat) : BinaryView :=
  with_types
    (fun tys =>
       <[T_PATCH := TInt 4 false]>
         (<[T_HDR := TInt 4 false]>
            (<[T_RAND := TInt 4 false]> (<[T_REG := TInt 4 false]> tys))))
    (image start n).

(** The addresses at which [apply_layout_at] defines variables; the
    container and the header share the first one. *)
Definition layout_addresses (base : Z) : list Z :=
  [base; base + RANDOM_OFF; base + UCREG_OFF].

(** The host [h] with other outcomes for the two calls the source wraps in
    [except Exception: pass]: undefining where nothing is defined, and the
    request for re-analysis. *)
Definition with_guarded_calls (undef analysis : Outcome) (h : Host) : Host :=
  mkHost (int_width_bool h) (int_width_zero h) (int_width_only h)
         (int_default_signed h)
         (type_structure h) (type_structure_type h)
         (enum_builder_create h) (enum_builder_construct h)
         (enum_default_width h) (enum_default_signed h)
         (enum_set_width h) (enum_has_signed h) (enum_set_signed h) (enum_append h)
         (type_enumeration h) (type_enumeration_type h)
         undef (read_outcome h) analysis.

(** A build without enumeration support on which [Type.int] takes the
    width only and gives a signed type. *)
Definition host_legacy : Host :=
  mkHost (fun _ => Fails host_type_error) (fun _ => Fails host_type_error)
         (fun _ => Works) true
         (Some (fun _ => Works)) None
         (Fails (host_exn "no create")) (Fails (host_exn "no builder")) 4 false
         Works true Works (fun _ _ => Works)
         None None
         Works Works Works.

(** A build on which the width of an enumeration builder cannot be
    assigned and [Type.enumeration] converts the builder as it is, four
    bytes wide. *)
Definition host_wide_enum : Host :=
  mkHost (fun _ => Works) (fun _ => Works) (fun _ => Works) true
         (Some (fun _ => Works)) None
         Works Works 4 false
         (Fails (host_exn "width is read-only")) true Works (fun _ _ => Works)
         (Some Works) None
         Works Works Works.
(* ===================================================================== *)
(** ** Region sizing                                                      *)
(* ===================================================================== *)

Lemma floor_to_multiple_spec (x m : Z) :
  0 < m ->
  floor_to_multiple x m = x - x mod m /\
  floor_to_multiple x m mod m = 0 /\
  floor_to_multiple x m <= x < floor_to_multiple x m + m.
Proof.
  intros Hm. unfold floor_to_multiple.
  pose proof (Z.div_mod x m ltac:(lia)) as Hdm.
  pose proof (Z.mod_pos_bound x m Hm) as Hb.
  repeat split.
  - lia.
  - apply Z.mod_mul. lia.
  - lia.
  - lia.
Qed.

Lemma ucode_sizing_unfold (file_end reg_base : Z) :
  ucode_sizing file_end reg_base =
    (usable_region_bytes (file_end - reg_base), record_count (file_end - reg_base)).
Proof.
  unfold ucode_sizing, record_count, usable_region_bytes.
  destruct (floor_to_multiple_spec (Z.min (file_end - reg_base) UCREG_SIZE) UOP_SIZE)
    as (-> & _ & _); [reflexivity|]. reflexivity.
Qed.

Lemma ucode_sizing_count_nonneg (file_end reg_base : Z) :
  0 < file_end - reg_base -> 0 <= snd (ucode_sizing file_end reg_base).
Proof.
  intros Hav. rewrite ucode_sizing_unfold. cbn [snd].
  unfold record_count, usable_region_bytes, floor_to_multiple.
  change UOP_SIZE with 4. change UCREG_SIZE with 0x3500.
  rewrite Z.div_mul by lia. apply Z.div_pos; lia.
Qed.

(** The arithmetic of the sizing expressions: [min(available, 0x3500)]
    rounded down to a multiple of 4, and that size divided by 4. *)
Lemma ucode_sizing_floor (file_end reg_base : Z) :
  0 < file_end - reg_base ->
  let available := file_end - reg_base in
  let usable := fst (ucode_sizing file_end reg_base) in
  let count := snd (ucode_sizing file_end reg_base) in
  usable = usable_region_bytes available /\
  count = record_count available /\
  count = usable / 4 /\
  count * 4 = usable /\
  usable mod 4 = 0 /\
  0 <= usable <= Z.min available 0x3500 /\
  Z.min available 0x3500 < usable + 4.
Proof.
  intros Hav available usable count. subst usable count.
  rewrite ucode_sizing_unfold. cbn [fst snd]. fold available.
  unfold record_count, usable_region_bytes.
  destruct (floor_to_multiple_spec (Z.min available UCREG_SIZE) UOP_SIZE)
    as (Heq & Hmod & Hlo & Hhi); [reflexivity|].
  change UOP_SIZE with 4 in *. change UCREG_SIZE with 0x3500 in *.
  set (u := floor_to_multiple (Z.min available 13568) 4) in *.
  assert (Hu : u = u / 4 * 4) by (apply Z.div_exact in Hmod; lia).
  assert (0 <= u) by (unfold u, floor_to_multiple;
                      pose proof (Z.div_pos (Z.min available 13568) 4); lia).
  repeat split; try lia.
Qed.

(* ===================================================================== *)
(** ** The declaration handed to the parser                               *)
(* ===================================================================== *)

Lemma append_nil (s : string) : "" +:+ s = s.
Proof. reflexivity. Qed.

Lemma append_cons (a : ascii) (s t : string) : String a s +:+ t = String a (s +:+ t).
Proof. reflexivity. Qed.

Lemma split_at_append (c : ascii) (d r : string) :
  avoids c d = true -> split_at c (d +:+ String c r) = Some (d, r).
Proof.
  induction d as [|a d IH]; cbn [avoids]; intros Hd.
  - rewrite append_nil. cbn [split_at]. by rewrite Ascii.eqb_refl.
  - apply andb_prop in Hd as [Ha Hd].
    rewrite append_cons. cbn [split_at].
    destruct (Ascii.eqb a c); [discriminate|]. by rewrite (IH Hd).
Qed.

Lemma uint_string_avoids_bracket (d : Decimal.uint) :
  avoids "]" (DecimalString.NilEmpty.string_of_uint d) = true.
Proof. induction d; cbn; auto. Qed.

Lemma py_str_avoids_bracket (n : Z) : 0 <= n -> avoids "]" (py_str n) = true.
Proof.
  intros Hn. unfold py_str. destruct n as [|p|p]; [reflexivity| |lia].
  cbn [Z.to_int DecimalString.NilZero.string_of_int].
  unfold DecimalString.NilZero.string_of_uint.
  destruct (Pos.to_uint p) eqn:E; try reflexivity;
    rewrite <- E; apply uint_string_avoids_bracket.
Qed.

Lemma py_str_parses (n : Z) :
  0 <= n ->
  exists d, DecimalString.NilZero.uint_of_string (py_str n) = Some d /\ Z.of_uint d = n.
Proof.
  intros Hn. unfold py_str.
  pose proof (DecimalZ.of_to n) as Hrt.
  destruct n as [|p|p]; [by exists Decimal.zero| |lia].
  cbn [Z.to_int DecimalString.NilZero.string_of_int] in *.
  assert (Hnn : Pos.to_uint p <> Decimal.Nil).
  { intros E. rewrite E in Hrt. discriminate Hrt. }
  exists (Pos.to_uint p). split; [|exact Hrt].
  by apply DecimalString.NilZero.usu.
Qed.

Lemma strip_prefix_append (p s : string) : strip_prefix p (p +:+ s) = Some s.
Proof.
  induction p as [|a p IH]; [reflexivity|].
  rewrite append_cons. cbn [strip_prefix]. by rewrite Ascii.eqb_refl.
Qed.

Lemma parse_type_str (n : Z) :
  0 <= n ->
  parse_struct_decl (type_str n)
  = Some ("AMD_Zen_MicrocodeRegion_auto", T_UOP, "uops", n).
Proof.
  intros Hn.
  destruct (py_str_parses n Hn) as (d & Hd & Hz).
  unfold parse_struct_decl.
  change (type_str n)
    with ("struct "
          +:+ ("AMD_Zen_MicrocodeRegion_auto"
          +:+ String " " ("{ "
          +:+ (T_UOP
          +:+ String " " ("uops"
          +:+ String "[" (py_str n
          +:+ String "]" "; };")))))).
  rewrite strip_prefix_append.
  rewrite split_at_append by reflexivity.
  rewrite strip_prefix_append.
  rewrite split_at_append by reflexivity.
  rewrite split_at_append by reflexivity.
  rewrite split_at_append by (by apply py_str_avoids_bracket).
  rewrite Hd, Hz. reflexivity.
Qed.

(* ===================================================================== *)
(** ** Running the helpers                                                *)
(* ===================================================================== *)

(** Projections of a view written out with [emit] and the [with_] updates. *)
Ltac view_simpl :=
  cbv beta iota zeta delta
    [emit with_types with_vars with_symbols with_comments bv_start bv_data
     bv_types bv_vars bv_symbols bv_comments bv_trace].

Ltac view_simpl_in H :=
  cbv beta iota zeta delta
    [emit with_types with_vars with_symbols with_comments bv_start bv_data
     bv_types bv_vars bv_symbols bv_comments bv_trace] in H.

Lemma bind_run {A B} (m : M A) (k : A -> M B) s :
  bind m k s = match m s with
               | (Ok a, s') => k a s'
               | (Raise e, s') => (Raise e, s')
               end.
Proof. reflexivity. Qed.

Lemma only_registers_refl s : only_registers s s.
Proof.
  repeat split. exists []. split; [|reflexivity]. by rewrite app_nil_r.
Qed.

Lemma only_registers_trans s1 s2 s3 :
  only_registers s1 s2 -> only_registers s2 s3 -> only_registers s1 s3.
Proof.
  intros (A1 & A2 & A3 & A4 & A5 & e1 & A6 & A7) (B1 & B2 & B3 & B4 & B5 & e2 & B6 & B7).
  repeat split; try congruence.
  exists (e1 ++ e2). split.
  - by rewrite B6, A6, app_assoc.
  - by rewrite forallb_app, A7, B7.
Qed.

Lemma only_registers_emit ev s :
  registration_event ev = true -> only_registers s (emit ev s).
Proof.
  intros Hev. repeat split. exists [ev]. split; [reflexivity|].
  cbn. by rewrite Hev.
Qed.

Lemma only_registers_end s s' : only_registers s s' -> bv_end s' = bv_end s.
Proof. intros (A1 & A2 & _). unfold bv_end. by rewrite A1, A2. Qed.

Section Runs.

Variable h : Host.

Lemma keeps_ret {A} (a : A) : keeps (ret a).
Proof. intros s. apply only_registers_refl. Qed.

Lemma keeps_lift {A} (r : Res A) : keeps (lift r).
Proof. intros s. apply only_registers_refl. Qed.

Lemma keeps_bind {A B} (m : M A) (k : A -> M B) :
  keeps m -> (forall a, keeps (k a)) -> keeps (bind m k).
Proof.
  intros Hm Hk s. specialize (Hm s). unfold bind.
  destruct (m s) as [[a|e] s']; cbn in *; [|done].
  eapply only_registers_trans; [exact Hm|apply Hk].
Qed.

Lemma keeps_get_type_by_name name : keeps (get_type_by_name name).
Proof. intros s. apply only_registers_refl. Qed.

Lemma keeps_define_user_type name t : keeps (define_user_type name t).
Proof.
  intros s. cbn. repeat split. exists [EvDefineUserType name t]. by split.
Qed.

Lemma keeps_log_info msg : keeps (log_info msg).
Proof. intros s. by apply only_registers_emit. Qed.

Lemma keeps_log_warn msg : keeps (log_warn msg).
Proof. intros s. by apply only_registers_emit. Qed.

Lemma keeps_append r name sb : keeps (append r name sb).
Proof. apply keeps_bind; [apply keeps_lift|intros; apply keeps_ret]. Qed.

Ltac keeps_steps :=
  repeat match goal with
    | |- keeps (bind _ _) => apply keeps_bind; [|intros ?]
    | |- keeps (ret _) => apply keeps_ret
    | |- keeps (lift _) => apply keeps_lift
    | |- keeps (append _ _ _) => apply keeps_append
    | |- keeps (get_type_by_name _) => apply keeps_get_type_by_name
    | |- keeps (define_user_type _ _) => apply keeps_define_user_type
    | |- keeps (log_info _) => apply keeps_log_info
    | |- keeps (log_warn _) => apply keeps_log_warn
    | |- keeps (match ?x with _ => _ end) => destruct x
    | |- keeps _ => progress cbv zeta
    end.

(** Registration, whether it completes or raises, touches nothing but the
    types and the trace. *)
Lemma ensure_types_keeps : keeps (_ensure_types h).
Proof. unfold _ensure_types. keeps_steps. Qed.

Lemma uint_shape w t : _uint h w = Ok t -> exists sg, t = TInt w sg.
Proof.
  unfold _uint, Type_int_bool, Type_int_zero, Type_int_only.
  destruct (int_width_bool h w) as [|e1]; cbn; [intros [= <-]; eauto|].
  destruct (is_TypeError e1); cbn; [|discriminate].
  destruct (int_width_zero h w) as [|e2]; cbn; [intros [= <-]; eauto|].
  destruct (is_TypeError e2); cbn; [|discriminate].
  destruct (int_width_only h w) as [|e3]; cbn; [intros [= <-]; eauto|discriminate].
Qed.

Lemma type_structure_ok sb t : _type_structure h sb = Ok t -> t = sb_type sb.
Proof.
  unfold _type_structure.
  destruct (type_structure h) as [f|], (type_structure_type h) as [g|];
    try destruct (f sb); try destruct (g sb); cbn; congruence.
Qed.

(** *** Registration *)

Lemma ensure_types_present s :
  is_Some (bv_types s !! T_PATCH) -> _ensure_types h s = (Ok tt, s).
Proof.
  intros [t Ht]. unfold _ensure_types. rewrite bind_run.
  unfold get_type_by_name. by rewrite Ht.
Qed.

Ltac run_in H :=
  cbv beta iota zeta delta
    [bind lift ret append res_bind define_user_type log_info log_warn
     get_type_by_name Type_array Type_named_type_from_type] in H.

Ltac structure_in H :=
  match type of H with
  | context [_type_structure h ?sb] =>
      let t := fresh "t" in
      let E := fresh "E" in
      destruct (_type_structure h sb) as [t|?] eqn:E;
      [apply type_structure_ok in E; subst t | run_in H; discriminate H];
      run_in H
  end.

(** A pass that starts without [T_PATCH] and returns has built every
    structure from the integer types the host gave it, and registered them
    in the order of the source. *)
Lemma ensure_types_fresh s0 s1 :
  bv_types s0 !! T_PATCH = None ->
  _ensure_types h s0 = (Ok tt, s1) ->
  exists opcode_t t8 t16 t32,
    opcode_field h = Ok opcode_t /\ u8 h = Ok t8 /\ u16 h = Ok t16 /\
    u32 h = Ok t32 /\ s1 = registered_view h opcode_t t8 t16 t32 s0.
Proof.
  intros Habs H.
  unfold _ensure_types in H. rewrite bind_run in H.
  unfold get_type_by_name at 1 in H. rewrite Habs in H.
  unfold opcode_field, registered_view, registration_events, enum_events, with_enum.
  destruct (u8 h) as [t8|e8] eqn:E8.
  2:{ destruct (_make_enum_type_best_effort h); run_in H; discriminate H. }
  destruct (u16 h) as [t16|e16] eqn:E16.
  2:{ destruct (_make_enum_type_best_effort h); run_in H; discriminate H. }
  destruct (u32 h) as [t32|e32] eqn:E32.
  2:{ destruct (_make_enum_type_best_effort h); run_in H;
      structure_in H; structure_in H; discriminate H. }
  destruct (_make_enum_type_best_effort h) as [enum_t|] eqn:Een;
    [exists (TNamed T_ENUM enum_t), t8, t16, t32
    |exists t8, t8, t16, t32];
    (repeat (split; [reflexivity|]));
    run_in H; do 5 structure_in H; injection H as <-;
    view_simpl; f_equal; by rewrite <- !app_assoc.
Qed.

(** *** The variable helpers *)

Lemma safe_undef_var_run a s :
  _safe_undef_var h a s = (Ok tt, emit (EvUndefineVar a) (with_vars (delete a) s)).
Proof.
  unfold _safe_undef_var, try_except, undefine_user_data_var.
  destruct (bv_vars s !! a) eqn:E; [reflexivity|].
  assert (with_vars (delete a) s = s) as ->.
  { destruct s; view_simpl_in E; view_simpl. f_equal. by apply delete_id. }
  by destruct (undefine_absent h).
Qed.

Lemma define_var_run a t sym c s :
  _define_var h a t sym c s = (Ok tt, define_var_post a t sym c s).
Proof.
  unfold _define_var, define_var_post.
  rewrite bind_run, safe_undef_var_run.
  cbv beta iota zeta delta [bind define_user_data_var define_user_symbol set_comment_at ret].
  by destruct (str_truthy sym), (str_truthy c).
Qed.

Lemma define_var_post_vars a t sym c s :
  bv_vars (define_var_post a t sym c s) = <[a := t]> (bv_vars s).
Proof.
  unfold define_var_post.
  destruct (str_truthy sym), (str_truthy c); view_simpl; apply insert_delete_eq.
Qed.

Lemma define_var_post_types a t sym c s :
  bv_types (define_var_post a t sym c s) = bv_types s.
Proof. unfold define_var_post. by destruct (str_truthy sym), (str_truthy c). Qed.

Lemma define_var_post_end a t sym c s :
  bv_end (define_var_post a t sym c s) = bv_end s.
Proof. unfold define_var_post. by destruct (str_truthy sym), (str_truthy c). Qed.

Lemma check_size_run base s :
  _check_size h base s = (Ok tt, check_size_post h base s).
Proof.
  unfold _check_size, check_size_post, try_except, bv_read.
  rewrite bind_run. destruct (read_outcome h); cbn; [|reflexivity].
  by destruct (_ <? PATCH_SIZE).
Qed.

Lemma check_size_post_types base s :
  bv_types (check_size_post h base s) = bv_types s.
Proof.
  unfold check_size_post. destruct (read_outcome h); [|reflexivity].
  by destruct (_ <? PATCH_SIZE).
Qed.

Lemma check_size_post_vars base s :
  bv_vars (check_size_post h base s) = bv_vars s.
Proof.
  unfold check_size_post. destruct (read_outcome h); [|reflexivity].
  by destruct (_ <? PATCH_SIZE).
Qed.

Lemma check_size_post_end base s :
  bv_end (check_size_post h base s) = bv_end s.
Proof.
  unfold check_size_post. destruct (read_outcome h); [|reflexivity].
  by destruct (_ <? PATCH_SIZE).
Qed.

Lemma parse_type_string_run n uop s :
  0 <= n -> bv_types s !! T_UOP = Some uop ->
  parse_type_string (type_str n) s
  = (Ok (auto_region_type uop n, "AMD_Zen_MicrocodeRegion_auto"),
     emit (EvParseTypeString (type_str n)) s).
Proof.
  intros Hn Hu. unfold parse_type_string. by rewrite parse_type_str, Hu.
Qed.

(** *** The layout *)

Lemma update_analysis_run s :
  try_except (update_analysis h) (fun _ => ret tt) s = (Ok tt, emit EvUpdateAnalysis s).
Proof. unfold try_except, update_analysis. by destruct (update_analysis_outcome h). Qed.

Lemma apply_run_abort base s0 e s1 :
  _ensure_types h s0 = (Raise e, s1) -> apply_layout_at h base s0 = (Raise e, s1).
Proof. intros H. unfold apply_layout_at. by rewrite bind_run, H. Qed.

Lemma registered_lookup s :
  registered s = true ->
  exists patch_t hdr_t rand_t reg_t,
    bv_types s !! T_PATCH = Some patch_t /\ bv_types s !! T_HDR = Some hdr_t /\
    bv_types s !! T_RAND = Some rand_t /\ bv_types s !! T_REG = Some reg_t.
Proof.
  unfold registered. cbn [forallb]. rewrite !andb_true_iff.
  intros (Hp & Hh & Hr & Hg & _).
  destruct (bv_types s !! T_PATCH) as [p|]; [|discriminate].
  destruct (bv_types s !! T_HDR) as [hd|]; [|discriminate].
  destruct (bv_types s !! T_RAND) as [r|]; [|discriminate].
  destruct (bv_types s !! T_REG) as [g|]; [|discriminate].
  by exists p, hd, r, g.
Qed.

Ltac apply_prefix Hens :=
  unfold apply_layout_at;
  rewrite bind_run, Hens, bind_run, check_size_run;
  cbv beta iota zeta delta [bind get_type_by_name];
  rewrite !check_size_post_types.

Lemma apply_run_missing base s0 s1 :
  _ensure_types h s0 = (Ok tt, s1) -> registered s1 = false ->
  apply_layout_at h base s0
  = (Ok tt, emit (EvLog Error types_missing_msg) (check_size_post h base s1)).
Proof.
  intros Hens Hreg. apply_prefix Hens.
  unfold registered in Hreg. cbn [forallb] in Hreg.
  destruct (bv_types s1 !! T_PATCH) as [p|]; [|reflexivity].
  destruct (bv_types s1 !! T_HDR) as [hd|]; [|reflexivity].
  destruct (bv_types s1 !! T_RAND) as [r|]; [|reflexivity].
  destruct (bv_types s1 !! T_REG) as [g|]; [|reflexivity].
  cbn [forallb]. by rewrite Hreg.
Qed.

Section Ready.

Variables (base : Z) (s0 s1 : BinaryView) (patch_t hdr_t rand_t reg_t : Ty).
Hypothesis Hens : _ensure_types h s0 = (Ok tt, s1).
Hypothesis Hreg : registered s1 = true.
Hypothesis Hp : bv_types s1 !! T_PATCH = Some patch_t.
Hypothesis Hh : bv_types s1 !! T_HDR = Some hdr_t.
Hypothesis Hr : bv_types s1 !! T_RAND = Some rand_t.
Hypothesis Hg : bv_types s1 !! T_REG = Some reg_t.

Local Abbreviation s3 :=
  (three_regions_post base patch_t hdr_t rand_t (check_size_post h base s1)).

Lemma three_regions_post_end : bv_end s3 = bv_end s1.
Proof.
  unfold three_regions_post.
  by rewrite !define_var_post_end, check_size_post_end.
Qed.

Lemma three_regions_post_types : bv_types s3 = bv_types s1.
Proof.
  unfold three_regions_post.
  by rewrite !define_var_post_types, check_size_post_types.
Qed.

Ltac ready_prefix :=
  apply_prefix Hens;
  rewrite Hp, Hh, Hr, Hg;
  replace (forallb truthy [Some patch_t; Some hdr_t; Some rand_t; Some reg_t])
    with true
    by (symmetry; unfold registered in Hreg; cbn [forallb] in Hreg;
        by rewrite Hp, Hh, Hr, Hg in Hreg);
  cbv beta iota zeta delta [negb];
  do 3 (rewrite define_var_run; cbv beta iota);
  fold (three_regions_post base patch_t hdr_t rand_t (check_size_post h base s1));
  rewrite three_regions_post_end.

Lemma apply_run_early :
  base + UCREG_OFF >= bv_end s1 ->
  apply_layout_at h base s0 = (Ok tt, emit (EvLog Warn no_bytes_msg) s3).
Proof.
  intros Hge. ready_prefix.
  rewrite Z.geb_leb, (proj2 (Z.leb_le _ _)) by lia. reflexivity.
Qed.

Lemma apply_run_full :
  base + UCREG_OFF < bv_end s1 ->
  fst (ucode_sizing (bv_end s1) (base + UCREG_OFF)) = UCREG_SIZE ->
  apply_layout_at h base s0
  = (Ok tt,
     finish_post base (snd (ucode_sizing (bv_end s1) (base + UCREG_OFF)))
       (define_var_post (base + UCREG_OFF) reg_t (Some "amd_ucode_region") None s3)).
Proof.
  intros Hlt Hfull. ready_prefix.
  rewrite Z.geb_leb, (proj2 (Z.leb_gt _ _)) by lia.
  destruct (ucode_sizing (bv_end s1) (base + UCREG_OFF)) as [usz cnt].
  cbn [fst snd] in *. subst usz. rewrite Z.eqb_refl.
  rewrite define_var_run, update_analysis_run. reflexivity.
Qed.

Lemma apply_run_truncated uop :
  base + UCREG_OFF < bv_end s1 ->
  fst (ucode_sizing (bv_end s1) (base + UCREG_OFF)) <> UCREG_SIZE ->
  bv_types s1 !! T_UOP = Some uop ->
  let n := snd (ucode_sizing (bv_end s1) (base + UCREG_OFF)) in
  apply_layout_at h base s0
  = (Ok tt,
     finish_post base n
       (define_var_post (base + UCREG_OFF) (auto_region_type uop n)
          (Some "amd_ucode_region") None
          (emit (EvParseTypeString (type_str n)) s3))).
Proof.
  intros Hlt Htrunc Hu n. ready_prefix.
  rewrite Z.geb_leb, (proj2 (Z.leb_gt _ _)) by lia.
  assert (Hn : 0 <= n) by (apply ucode_sizing_count_nonneg; lia).
  subst n.
  destruct (ucode_sizing (bv_end s1) (base + UCREG_OFF)) as [usz cnt].
  cbn [fst snd] in *. rewrite (proj2 (Z.eqb_neq _ _)) by done.
  rewrite (parse_type_string_run cnt uop s3 Hn)
    by (by rewrite three_regions_post_types).
  cbn [fst]. rewrite define_var_run, update_analysis_run. reflexivity.
Qed.

(** Without the record type in the registry the declaration cannot be
    resolved: the parser raises after the three fixed regions are defined. *)
Lemma apply_run_unresolved :
  base + UCREG_OFF < bv_end s1 ->
  fst (ucode_sizing (bv_end s1) (base + UCREG_OFF)) <> UCREG_SIZE ->
  bv_types s1 !! T_UOP = None ->
  apply_layout_at h base s0
  = (Raise parse_error,
     emit (EvParseTypeString
             (type_str (snd (ucode_sizing (bv_end s1) (base + UCREG_OFF))))) s3).
Proof.
  intros Hlt Htrunc Hu. ready_prefix.
  rewrite Z.geb_leb, (proj2 (Z.leb_gt _ _)) by lia.
  assert (Hn : 0 <= snd (ucode_sizing (bv_end s1) (base + UCREG_OFF)))
    by (apply ucode_sizing_count_nonneg; lia).
  destruct (ucode_sizing (bv_end s1) (base + UCREG_OFF)) as [usz cnt].
  cbn [fst snd] in *. rewrite (proj2 (Z.eqb_neq _ _)) by done.
  unfold parse_type_string. rewrite parse_type_str by done.
  by rewrite three_regions_post_types, Hu.
Qed.

End Ready.

(** *** What the calls add to the trace *)

Lemma trace_since_app s s' evs :
  bv_trace s' = bv_trace s ++ evs -> trace_since s s' = evs.
Proof. intros H. unfold trace_since. rewrite H. apply drop_app_length. Qed.

Lemma check_size_post_trace base s :
  bv_trace (check_size_post h base s) = bv_trace s ++ check_size_events h base s.
Proof.
  unfold check_size_post, check_size_events.
  destruct (read_outcome h); [|reflexivity].
  destruct (_ <? PATCH_SIZE); view_simpl; [|reflexivity].
  by rewrite <- app_assoc.
Qed.

Lemma define_var_post_trace a t sym c s :
  bv_trace (define_var_post a t sym c s) = bv_trace s ++ define_var_events a t sym c.
Proof.
  unfold define_var_post, define_var_events.
  destruct (str_truthy sym), (str_truthy c); view_simpl;
    rewrite <- ?app_assoc; reflexivity.
Qed.

Lemma define_var_post_symbols a t sym c s :
  bv_symbols (define_var_post a t sym c s)
  = match str_truthy sym with
    | Some x => <[a := x]> (bv_symbols s)
    | None => bv_symbols s
    end.
Proof. unfold define_var_post. by destruct (str_truthy sym), (str_truthy c). Qed.

Lemma define_var_post_comments a t sym c s :
  bv_comments (define_var_post a t sym c s)
  = match str_truthy c with
    | Some x => <[a := x]> (bv_comments s)
    | None => bv_comments s
    end.
Proof. unfold define_var_post. by destruct (str_truthy sym), (str_truthy c). Qed.

Lemma check_size_post_same base s : same_view s (check_size_post h base s).
Proof.
  unfold check_size_post. destruct (read_outcome h); [|done].
  by destruct (_ <? PATCH_SIZE).
Qed.

End Runs.

(* ===================================================================== *)
(** ** Facts about traces                                                 *)
(* ===================================================================== *)

Lemma registration_events_silent evs :
  forallb registration_event evs = true ->
  defined_vars evs = [] /\ parsed_sources evs = [] /\
  analysis_requests evs = [] /\ error_lines evs = [].
Proof.
  induction evs as [|ev evs IH]; [done|].
  cbn [forallb]. rewrite andb_true_iff. intros [Hev Hevs].
  destruct (IH Hevs) as (I1 & I2 & I3 & I4).
  unfold defined_vars, parsed_sources, analysis_requests, error_lines in *.
  cbn [flat_map]. rewrite I1, I2, I3, I4.
  destruct ev as [[] ?| | | | | | | |]; done.
Qed.

Lemma check_size_events_silent h base s :
  defined_vars (check_size_events h base s) = [] /\
  parsed_sources (check_size_events h base s) = [] /\
  analysis_requests (check_size_events h base s) = [] /\
  error_lines (check_size_events h base s) = [] /\
  registered_types (check_size_events h base s) = [].
Proof.
  unfold check_size_events. destruct (read_outcome h); [|done].
  by destruct (_ <? PATCH_SIZE).
Qed.

Lemma three_regions_events_vars base patch_t hdr_t rand_t :
  defined_vars (three_regions_events base patch_t hdr_t rand_t)
  = [(base + 0, patch_t); (base + HDR_OFF, hdr_t); (base + RANDOM_OFF, rand_t)].
Proof. reflexivity. Qed.

Lemma three_regions_post_trace base patch_t hdr_t rand_t s :
  bv_trace (three_regions_post base patch_t hdr_t rand_t s)
  = bv_trace s ++ three_regions_events base patch_t hdr_t rand_t.
Proof.
  unfold three_regions_post, three_regions_events.
  rewrite !define_var_post_trace. by rewrite <- !app_assoc.
Qed.

Lemma three_regions_post_vars base patch_t hdr_t rand_t s :
  bv_vars (three_regions_post base patch_t hdr_t rand_t s)
  = <[base + 0x20 := rand_t]> (<[base := hdr_t]> (bv_vars s)).
Proof.
  unfold three_regions_post. rewrite !define_var_post_vars.
  unfold HDR_OFF, RANDOM_OFF. rewrite Z.add_0_r. by rewrite insert_insert_eq.
Qed.

Lemma three_regions_post_symbols base patch_t hdr_t rand_t s :
  bv_symbols (three_regions_post base patch_t hdr_t rand_t s)
  = <[base + 0x20 := "amd_mc_random_blocks"]>
      (<[base := "amd_mc_header"]> (bv_symbols s)).
Proof.
  unfold three_regions_post. rewrite !define_var_post_symbols.
  cbn [str_truthy]. unfold HDR_OFF, RANDOM_OFF. rewrite Z.add_0_r.
  by rewrite insert_insert_eq.
Qed.

Lemma three_regions_post_comments base patch_t hdr_t rand_t s :
  bv_comments (three_regions_post base patch_t hdr_t rand_t s)
  = <[base := "AMD microcode patch container"]> (bv_comments s).
Proof.
  unfold three_regions_post. rewrite !define_var_post_comments.
  cbn [str_truthy]. by rewrite Z.add_0_r.
Qed.

(* ===================================================================== *)
(** ** Base addresses whose microcode region lies outside the image       *)
(* ===================================================================== *)

Lemma emit_vars ev s : bv_vars (emit ev s) = bv_vars s.
Proof. reflexivity. Qed.

Lemma emit_trace ev s : bv_trace (emit ev s) = bv_trace s ++ [ev].
Proof. reflexivity. Qed.

Lemma ensure_types_end h s0 r s1 :
  _ensure_types h s0 = (r, s1) -> only_registers s0 s1.
Proof. intros H. pose proof (ensure_types_keeps h s0) as K. by rewrite H in K. Qed.

(** C4: when the microcode region would start at or beyond the end of the
    image, a call whose registration succeeded still defines the container,
    the header and the random blocks, defines nothing at the region start,
    and ends normally on the warning [no_bytes_msg], which is not the error
    line of a failed registration; no error line is logged. *)
Theorem out_of_range_skips_region (h : Host) (base : Z) (s0 s1 : BinaryView) :
  _ensure_types h s0 = (Ok tt, s1) ->
  registered s1 = true ->
  base + UCREG_OFF >= bv_end s0 ->
  exists patch_t hdr_t rand_t,
    bv_types s1 !! T_PATCH = Some patch_t /\
    bv_types s1 !! T_HDR = Some hdr_t /\
    bv_types s1 !! T_RAND = Some rand_t /\
    (apply_layout_at h base s0).1 = Ok tt /\
    defined_vars (trace_since s0 (apply_layout_at h base s0).2)
    = [(base + 0, patch_t); (base + HDR_OFF, hdr_t); (base + RANDOM_OFF, rand_t)] /\
    bv_vars (apply_layout_at h base s0).2
    = <[base + 0x20 := rand_t]> (<[base := hdr_t]> (bv_vars s0)) /\
    bv_vars (apply_layout_at h base s0).2 !! (base + UCREG_OFF)
    = bv_vars s0 !! (base + UCREG_OFF) /\
    last (bv_trace (apply_layout_at h base s0).2) = Some (EvLog Warn no_bytes_msg) /\
    error_lines (trace_since s0 (apply_layout_at h base s0).2) = [] /\
    no_bytes_msg <> types_missing_msg.
Proof.
  intros Hens Hreg Hge.
  destruct (registered_lookup s1 Hreg) as (patch_t & hdr_t & rand_t & reg_t & Hp & Hh & Hr & Hg).
  pose proof (ensure_types_end h s0 _ s1 Hens) as Hframe.
  pose proof (only_registers_end _ _ Hframe) as Hend.
  destruct Hframe as (_ & _ & Hvars & _ & _ & evs & Htr & Hevs).
  destruct (registration_events_silent evs Hevs) as (Ev1 & _ & _ & Ev4).
  exists patch_t, hdr_t, rand_t. do 3 (split; [done|]).
  rewrite (apply_run_early h base s0 s1 patch_t hdr_t rand_t reg_t) by (done || lia).
  cbn [fst snd].
  assert (Htrace :
    bv_trace (emit (EvLog Warn no_bytes_msg)
                (three_regions_post base patch_t hdr_t rand_t (check_size_post h base s1)))
    = bv_trace s0 ++ (evs ++ check_size_events h base s1
                      ++ three_regions_events base patch_t hdr_t rand_t
                      ++ [EvLog Warn no_bytes_msg])).
  { rewrite emit_trace, three_regions_post_trace, check_size_post_trace, Htr.
    by rewrite <- !app_assoc. }
  destruct (check_size_events_silent h base s1) as (C1 & _ & _ & C4 & _).
  split; [done|]. split.
  { rewrite (trace_since_app _ _ _ Htrace). unfold defined_vars in *.
    rewrite !flat_map_app, Ev1, C1. apply three_regions_events_vars. }
  split.
  { by rewrite emit_vars, three_regions_post_vars, check_size_post_vars, Hvars. }
  split.
  { rewrite emit_vars, three_regions_post_vars, check_size_post_vars, Hvars.
    unfold UCREG_OFF. by rewrite !lookup_insert_ne by lia. }
  split.
  { rewrite emit_trace. apply last_snoc. }
  split; [|done].
  rewrite (trace_since_app _ _ _ Htrace). unfold error_lines in *.
  rewrite !flat_map_app, Ev4, C4. done.
Qed.

Lemma out_of_range_skips_region_witness :
  _ensure_types host_modern (image 0 256)
  = (Ok tt, (_ensure_types host_modern (image 0 256)).2) /\
  registered (_ensure_types host_modern (image 0 256)).2 = true /\
  0 + UCREG_OFF >= bv_end (image 0 256) /\
  (apply_layout_at host_modern 0 (image 0 256)).1 = Ok tt.
Proof.
  assert (H1 : _ensure_types host_modern (image 0 256)
               = (Ok tt, (_ensure_types host_modern (image 0 256)).2))
    by (vm_compute; reflexivity).
  assert (H2 : registered (_ensure_types host_modern (image 0 256)).2 = true)
    by (vm_compute; reflexivity).
  assert (H3 : 0 + UCREG_OFF >= bv_end (image 0 256))
    by (vm_compute; discriminate).
  destruct (out_of_range_skips_region host_modern 0 _ _ H1 H2 H3)
    as (p & hd & r & _ & _ & _ & Hok & _).
  exact (conj H1 (conj H2 (conj H3 Hok))).
Defined.

(* ===================================================================== *)
(** ** The view after a call                                              *)
(* ===================================================================== *)

Lemma view_ext (s s' : BinaryView) :
  bv_start s = bv_start s' -> bv_data s = bv_data s' ->
  bv_types s = bv_types s' -> bv_vars s = bv_vars s' ->
  bv_symbols s = bv_symbols s' -> bv_comments s = bv_comments s' ->
  bv_trace s = bv_trace s' -> s = s'.
Proof.
  destruct s, s'. view_simpl. intros. by subst.
Qed.

Lemma three_regions_post_same_image base patch_t hdr_t rand_t s :
  bv_start (three_regions_post base patch_t hdr_t rand_t s) = bv_start s /\
  bv_data (three_regions_post base patch_t hdr_t rand_t s) = bv_data s /\
  bv_types (three_regions_post base patch_t hdr_t rand_t s) = bv_types s.
Proof. done. Qed.

Section Views.

Variables (h : Host) (base : Z) (s0 s1 : BinaryView).
Variables (patch_t hdr_t rand_t reg_t : Ty).
Hypothesis Hens : _ensure_types h s0 = (Ok tt, s1).
Hypothesis Hreg : registered s1 = true.
Hypothesis Hp : bv_types s1 !! T_PATCH = Some patch_t.
Hypothesis Hh : bv_types s1 !! T_HDR = Some hdr_t.
Hypothesis Hr : bv_types s1 !! T_RAND = Some rand_t.
Hypothesis Hg : bv_types s1 !! T_REG = Some reg_t.

Lemma three_regions_view :
  three_regions_post base patch_t hdr_t rand_t (check_size_post h base s1)
  = applied_view base patch_t hdr_t rand_t None s1
      (check_size_events h base s1 ++ three_regions_events base patch_t hdr_t rand_t).
Proof.
  destruct (check_size_post_same h base s1) as (C1 & C2 & C3 & C4 & C5 & C6).
  destruct (three_regions_post_same_image base patch_t hdr_t rand_t
              (check_size_post h base s1)) as (T1 & T2 & T3).
  apply view_ext; unfold applied_view, region_var, region_symbol;
    cbn [bv_start bv_data bv_types bv_vars bv_symbols bv_comments bv_trace].
  - by rewrite T1.
  - by rewrite T2.
  - by rewrite T3.
  - by rewrite three_regions_post_vars, C4.
  - by rewrite three_regions_post_symbols, C5.
  - by rewrite three_regions_post_comments, C6.
  - by rewrite three_regions_post_trace, check_size_post_trace, <- app_assoc.
Qed.

Lemma emit_applied_view ev region s evs :
  emit ev (applied_view base patch_t hdr_t rand_t region s evs)
  = applied_view base patch_t hdr_t rand_t region s (evs ++ [ev]).
Proof. unfold applied_view, emit. view_simpl. f_equal. by rewrite <- app_assoc. Qed.

Lemma apply_view_early :
  base + UCREG_OFF >= bv_end s1 ->
  apply_layout_at h base s0
  = (Ok tt, applied_view base patch_t hdr_t rand_t None s1
              (early_events h base patch_t hdr_t rand_t s1)).
Proof.
  intros Hge.
  rewrite (apply_run_early h base s0 s1 patch_t hdr_t rand_t reg_t) by done.
  rewrite three_regions_view, emit_applied_view. f_equal.
  unfold early_events. by rewrite <- !app_assoc.
Qed.

Lemma completed_view (t : Ty) (n : Z) (pre : list Event) (s : BinaryView) :
  finish_post base n
    (define_var_post (base + UCREG_OFF) t (Some "amd_ucode_region") None
       (applied_view base patch_t hdr_t rand_t None s pre))
  = applied_view base patch_t hdr_t rand_t (Some t) s
      (pre ++ define_var_events (base + UCREG_OFF) t (Some "amd_ucode_region") None
       ++ [EvUpdateAnalysis; EvLog Info (applied_msg base n)]).
Proof.
  unfold finish_post, define_var_post, define_var_events, applied_view,
    region_var, region_symbol.
  cbn [str_truthy]. view_simpl. f_equal.
  - apply insert_delete_eq.
  - by rewrite <- !app_assoc.
Qed.

Lemma apply_view_full :
  base + UCREG_OFF < bv_end s1 ->
  fst (ucode_sizing (bv_end s1) (base + UCREG_OFF)) = UCREG_SIZE ->
  apply_layout_at h base s0
  = (Ok tt, applied_view base patch_t hdr_t rand_t (Some reg_t) s1
              (full_events h base patch_t hdr_t rand_t reg_t s1)).
Proof.
  intros Hlt Hfull.
  rewrite (apply_run_full h base s0 s1 patch_t hdr_t rand_t reg_t) by done.
  rewrite three_regions_view, completed_view. f_equal.
  unfold full_events. by rewrite <- !app_assoc.
Qed.

Lemma apply_view_truncated uop :
  base + UCREG_OFF < bv_end s1 ->
  fst (ucode_sizing (bv_end s1) (base + UCREG_OFF)) <> UCREG_SIZE ->
  bv_types s1 !! T_UOP = Some uop ->
  apply_layout_at h base s0
  = (Ok tt, applied_view base patch_t hdr_t rand_t
              (Some (auto_region_type uop
                       (snd (ucode_sizing (bv_end s1) (base + UCREG_OFF)))))
              s1 (truncated_events h base patch_t hdr_t rand_t uop s1)).
Proof.
  intros Hlt Htr Hu.
  rewrite (apply_run_truncated h base s0 s1 patch_t hdr_t rand_t reg_t
             Hens Hreg Hp Hh Hr Hg uop Hlt Htr Hu).
  cbv zeta. rewrite three_regions_view.
  set (n := snd (ucode_sizing (bv_end s1) (base + UCREG_OFF))).
  rewrite emit_applied_view, completed_view. f_equal.
  unfold truncated_events. fold n. cbv zeta. by rewrite <- !app_assoc.
Qed.

End Views.

(* ===================================================================== *)
(** ** What the events of a call contain                                  *)
(* ===================================================================== *)

Ltac events_proj h base s :=
  destruct (check_size_events_silent h base s) as (C1 & C2 & C3 & C4 & C5);
  unfold defined_vars, parsed_sources, analysis_requests, error_lines,
    registered_types in *;
  rewrite !flat_map_app, ?C1, ?C2, ?C3, ?C4, ?C5; reflexivity.

Lemma early_events_vars h base p hd r s :
  defined_vars (early_events h base p hd r s)
  = [(base + 0, p); (base + HDR_OFF, hd); (base + RANDOM_OFF, r)].
Proof. unfold early_events. events_proj h base s. Qed.

Lemma early_events_analysis h base p hd r s :
  analysis_requests (early_events h base p hd r s) = [].
Proof. unfold early_events. events_proj h base s. Qed.

Lemma early_events_errors h base p hd r s :
  error_lines (early_events h base p hd r s) = [].
Proof. unfold early_events. events_proj h base s. Qed.

Lemma early_events_types h base p hd r s :
  registered_types (early_events h base p hd r s) = [].
Proof. unfold early_events. events_proj h base s. Qed.

Lemma full_events_vars h base p hd r g s :
  defined_vars (full_events h base p hd r g s)
  = [(base + 0, p); (base + HDR_OFF, hd); (base + RANDOM_OFF, r);
     (base + UCREG_OFF, g)].
Proof. unfold full_events. events_proj h base s. Qed.

Lemma full_events_parsed h base p hd r g s :
  parsed_sources (full_events h base p hd r g s) = [].
Proof. unfold full_events. events_proj h base s. Qed.

Lemma full_events_analysis h base p hd r g s :
  analysis_requests (full_events h base p hd r g s) = [tt].
Proof. unfold full_events. events_proj h base s. Qed.

Lemma full_events_errors h base p hd r g s :
  error_lines (full_events h base p hd r g s) = [].
Proof. unfold full_events. events_proj h base s. Qed.

Lemma full_events_types h base p hd r g s :
  registered_types (full_events h base p hd r g s) = [].
Proof. unfold full_events. events_proj h base s. Qed.

Lemma truncated_events_vars h base p hd r uop s :
  defined_vars (truncated_events h base p hd r uop s)
  = [(base + 0, p); (base + HDR_OFF, hd); (base + RANDOM_OFF, r);
     (base + UCREG_OFF,
      auto_region_type uop (snd (ucode_sizing (bv_end s) (base + UCREG_OFF))))].
Proof. unfold truncated_events. cbv zeta. events_proj h base s. Qed.

Lemma truncated_events_parsed h base p hd r uop s :
  parsed_sources (truncated_events h base p hd r uop s)
  = [type_str (snd (ucode_sizing (bv_end s) (base + UCREG_OFF)))].
Proof. unfold truncated_events. cbv zeta. events_proj h base s. Qed.

Lemma truncated_events_analysis h base p hd r uop s :
  analysis_requests (truncated_events h base p hd r uop s) = [tt].
Proof. unfold truncated_events. cbv zeta. events_proj h base s. Qed.

Lemma truncated_events_errors h base p hd r uop s :
  error_lines (truncated_events h base p hd r uop s) = [].
Proof. unfold truncated_events. cbv zeta. events_proj h base s. Qed.

Lemma truncated_events_types h base p hd r uop s :
  registered_types (truncated_events h base p hd r uop s) = [].
Proof. unfold truncated_events. cbv zeta. events_proj h base s. Qed.

(** The events since the view before registration: those of registration,
    then those of the rest of the call. *)
Lemma trace_since_applied base p hd r region s0 s1 evs :
  only_registers s0 s1 ->
  exists regs,
    forallb registration_event regs = true /\
    bv_trace s1 = bv_trace s0 ++ regs /\
    trace_since s0 (applied_view base p hd r region s1 evs) = regs ++ evs.
Proof.
  intros (_ & _ & _ & _ & _ & regs & Htr & Hregs).
  exists regs. split; [done|]. split; [done|].
  apply trace_since_app. unfold applied_view. cbn [bv_trace].
  by rewrite Htr, <- app_assoc.
Qed.

Lemma trace_since_applied_self base p hd r region s evs :
  trace_since s (applied_view base p hd r region s evs) = evs.
Proof. by apply trace_since_app. Qed.

(* ===================================================================== *)
(** ** A tail shorter than one record                                     *)
(* ===================================================================== *)

Lemma ucode_sizing_short_tail (file_end reg_base : Z) :
  0 < file_end - reg_base < 4 -> ucode_sizing file_end reg_base = (0, 0).
Proof.
  intros Hav. unfold ucode_sizing.
  rewrite Z.min_l by (unfold UCREG_SIZE; lia).
  rewrite Z.mod_small by (unfold UOP_SIZE; lia).
  by rewrite Z.sub_diag.
Qed.

(** C10: with one to three bytes available at the region start the sizing
    gives no usable byte and no record, and the call does not skip the
    region: it has the declaration with [uops[0]] parsed and defines the
    resulting zero-element type at the region start. *)
Theorem short_tail_defines_empty_region (h : Host) (base : Z)
    (s0 s1 : BinaryView) (uop : Ty) :
  _ensure_types h s0 = (Ok tt, s1) ->
  registered s1 = true ->
  bv_types s1 !! T_UOP = Some uop ->
  0 < bv_end s0 - (base + UCREG_OFF) < 4 ->
  ucode_sizing (bv_end s0) (base + UCREG_OFF) = (0, 0) /\
  (apply_layout_at h base s0).1 = Ok tt /\
  parsed_sources (trace_since s0 (apply_layout_at h base s0).2)
  = ["struct AMD_Zen_MicrocodeRegion_auto { AMD_Zen_MicroOp uops[0]; };"] /\
  last (defined_vars (trace_since s0 (apply_layout_at h base s0).2))
  = Some (base + UCREG_OFF, auto_region_type uop 0) /\
  bv_vars (apply_layout_at h base s0).2 !! (base + UCREG_OFF)
  = Some (auto_region_type uop 0) /\
  analysis_requests (trace_since s0 (apply_layout_at h base s0).2) = [tt].
Proof.
  intros Hens Hreg Hu Hav.
  pose proof (ucode_sizing_short_tail _ _ Hav) as Hsz.
  split; [exact Hsz|].
  destruct (registered_lookup s1 Hreg) as (p & hd & r & g & Hp & Hh & Hr & Hg).
  pose proof (ensure_types_end h s0 _ s1 Hens) as Hframe.
  pose proof (only_registers_end _ _ Hframe) as Hend.
  rewrite <- Hend in Hsz, Hav.
  rewrite (apply_view_truncated h base s0 s1 p hd r g Hens Hreg Hp Hh Hr Hg uop)
    by (rewrite ?Hsz; done || lia).
  cbn [fst snd].
  destruct (trace_since_applied base p hd r
              (Some (auto_region_type uop
                       (snd (ucode_sizing (bv_end s1) (base + UCREG_OFF)))))
              s0 s1 (truncated_events h base p hd r uop s1) Hframe)
    as (regs & Hregs & _ & ->).
  destruct (registration_events_silent regs Hregs) as (R1 & R2 & R3 & _).
  split; [done|].
  split.
  { unfold parsed_sources in *. rewrite flat_map_app, R2.
    fold (parsed_sources (truncated_events h base p hd r uop s1)).
    by rewrite truncated_events_parsed, Hsz. }
  split.
  { unfold defined_vars in *. rewrite flat_map_app, R1.
    fold (defined_vars (truncated_events h base p hd r uop s1)).
    by rewrite truncated_events_vars, Hsz. }
  split.
  { unfold applied_view, region_var. cbn [bv_vars].
    by rewrite lookup_insert_eq, Hsz. }
  unfold analysis_requests in *. rewrite flat_map_app, R3.
  fold (analysis_requests (truncated_events h base p hd r uop s1)).
  by rewrite truncated_events_analysis.
Qed.

Lemma short_tail_defines_empty_region_witness :
  _ensure_types host_modern (image 0 0x322)
  = (Ok tt, (_ensure_types host_modern (image 0 0x322)).2) /\
  registered (_ensure_types host_modern (image 0 0x322)).2 = true /\
  0 < bv_end (image 0 0x322) - (0 + UCREG_OFF) < 4 /\
  exists uop,
    bv_vars (apply_layout_at host_modern 0 (image 0 0x322)).2 !! (0 + UCREG_OFF)
    = Some (auto_region_type uop 0).
Proof.
  assert (H1 : _ensure_types host_modern (image 0 0x322)
               = (Ok tt, (_ensure_types host_modern (image 0 0x322)).2))
    by (vm_compute; reflexivity).
  assert (H2 : registered (_ensure_types host_modern (image 0 0x322)).2 = true)
    by (vm_compute; reflexivity).
  assert (H3 : 0 < bv_end (image 0 0x322) - (0 + UCREG_OFF) < 4)
    by (vm_compute; split; reflexivity).
  assert (H4 : bv_types (_ensure_types host_modern (image 0 0x322)).2 !! T_UOP
               = Some (uop_struct (TNamed T_ENUM (TEnum 1 false ZEN_OPCODE_ENUM))
                         (TInt 1 false) (TInt 2 false)))
    by (vm_compute; reflexivity).
  destruct (short_tail_defines_empty_region host_modern 0 _ _ _ H1 H2 H4 H3)
    as (_ & _ & _ & _ & Hv & _).
  exact (conj H1 (conj H2 (conj H3 (ex_intro _ _ Hv)))).
Defined.

(* ===================================================================== *)
(** ** Calling again                                                      *)
(* ===================================================================== *)

(** After a registration call that returned, the container type is there. *)
Lemma ensure_types_ok_present h s0 s1 :
  _ensure_types h s0 = (Ok tt, s1) -> is_Some (bv_types s1 !! T_PATCH).
Proof.
  intros Hens. destruct (bv_types s0 !! T_PATCH) as [t|] eqn:E.
  - rewrite ensure_types_present in Hens by eauto. injection Hens as <-. eauto.
  - destruct (ensure_types_fresh h s0 s1 E Hens) as (o & t8 & t16 & t32 & _ & _ & _ & _ & ->).
    unfold registered_view. cbn [bv_types]. rewrite lookup_insert_eq. eauto.
Qed.

(** The name of the ad hoc structure is none of the names registration
    defines. *)
Lemma ensure_types_auto_name h s0 s1 :
  _ensure_types h s0 = (Ok tt, s1) ->
  bv_types s1 !! "AMD_Zen_MicrocodeRegion_auto"
  = bv_types s0 !! "AMD_Zen_MicrocodeRegion_auto".
Proof.
  intros Hens. destruct (bv_types s0 !! T_PATCH) as [t|] eqn:E.
  - rewrite ensure_types_present in Hens by eauto. by injection Hens as <-.
  - destruct (ensure_types_fresh h s0 s1 E Hens) as (o & t8 & t16 & t32 & _ & _ & _ & _ & ->).
    unfold registered_view, with_enum. cbn [bv_types].
    rewrite !lookup_insert_ne by (by vm_compute).
    destruct (_make_enum_type_best_effort h); [|done].
    by rewrite lookup_insert_ne by (by vm_compute).
Qed.

Lemma region_var_idem base region (t1 t2 : Ty) (m : gmap Z Ty) :
  region_var base region
    (<[base + 0x20 := t2]> (<[base := t1]>
       (region_var base region (<[base + 0x20 := t2]> (<[base := t1]> m)))))
  = region_var base region (<[base + 0x20 := t2]> (<[base := t1]> m)).
Proof.
  apply map_eq. intros i. unfold region_var.
  destruct region; rewrite !lookup_insert; repeat case_decide; done.
Qed.

Lemma region_symbol_idem base region (x1 x2 : string) (m : gmap Z string) :
  region_symbol base region
    (<[base + 0x20 := x2]> (<[base := x1]>
       (region_symbol base region (<[base + 0x20 := x2]> (<[base := x1]> m)))))
  = region_symbol base region (<[base + 0x20 := x2]> (<[base := x1]> m)).
Proof.
  apply map_eq. intros i. unfold region_symbol.
  destruct region; rewrite !lookup_insert; repeat case_decide; done.
Qed.

Lemma applied_view_idem base p hd r region s evs evs' :
  same_view (applied_view base p hd r region s evs)
    (applied_view base p hd r region (applied_view base p hd r region s evs) evs').
Proof.
  unfold same_view, applied_view.
  cbn [bv_start bv_data bv_types bv_vars bv_symbols bv_comments].
  repeat split.
  - apply region_var_idem.
  - apply region_symbol_idem.
  - apply insert_insert_eq.
Qed.

Section Again.

Variables (h : Host) (base : Z) (s1 : BinaryView).
Variables (patch_t hdr_t rand_t reg_t : Ty).
Hypothesis Hreg : registered s1 = true.
Hypothesis Hp : bv_types s1 !! T_PATCH = Some patch_t.
Hypothesis Hh : bv_types s1 !! T_HDR = Some hdr_t.
Hypothesis Hr : bv_types s1 !! T_RAND = Some rand_t.
Hypothesis Hg : bv_types s1 !! T_REG = Some reg_t.

Variables (region : option Ty) (evs : list Event).

Local Abbreviation s' := (applied_view base patch_t hdr_t rand_t region s1 evs).

Lemma applied_view_ensure : _ensure_types h s' = (Ok tt, s').
Proof. apply ensure_types_present. unfold applied_view. cbn [bv_types]. eauto. Qed.

Lemma again_early :
  base + UCREG_OFF >= bv_end s1 ->
  apply_layout_at h base s'
  = (Ok tt, applied_view base patch_t hdr_t rand_t None s'
              (early_events h base patch_t hdr_t rand_t s')).
Proof.
  intros Hge.
  exact (apply_view_early h base s' s' patch_t hdr_t rand_t reg_t
           applied_view_ensure Hreg Hp Hh Hr Hg Hge).
Qed.

Lemma again_full :
  base + UCREG_OFF < bv_end s1 ->
  fst (ucode_sizing (bv_end s1) (base + UCREG_OFF)) = UCREG_SIZE ->
  apply_layout_at h base s'
  = (Ok tt, applied_view base patch_t hdr_t rand_t (Some reg_t) s'
              (full_events h base patch_t hdr_t rand_t reg_t s')).
Proof.
  intros Hlt Hfull.
  exact (apply_view_full h base s' s' patch_t hdr_t rand_t reg_t
           applied_view_ensure Hreg Hp Hh Hr Hg Hlt Hfull).
Qed.

Lemma again_truncated uop :
  base + UCREG_OFF < bv_end s1 ->
  fst (ucode_sizing (bv_end s1) (base + UCREG_OFF)) <> UCREG_SIZE ->
  bv_types s1 !! T_UOP = Some uop ->
  apply_layout_at h base s'
  = (Ok tt, applied_view base patch_t hdr_t rand_t
              (Some (auto_region_type uop
                       (snd (ucode_sizing (bv_end s1) (base + UCREG_OFF)))))
              s' (truncated_events h base patch_t hdr_t rand_t uop s')).
Proof.
  intros Hlt Htr Hu.
  exact (apply_view_truncated h base s' s' patch_t hdr_t rand_t reg_t
           applied_view_ensure Hreg Hp Hh Hr Hg uop Hlt Htr Hu).
Qed.

End Again.

(* ===================================================================== *)
(** ** Which type the microcode region gets                               *)
(* ===================================================================== *)

Lemma ucode_sizing_count (file_end reg_base : Z) :
  snd (ucode_sizing file_end reg_base) = fst (ucode_sizing file_end reg_base) / 4.
Proof. reflexivity. Qed.

(** C2: in a call whose registration succeeded and whose region start lies
    inside the image, a usable size of 0x3500 types the region with the
    registered [T_REG] type, with nothing parsed and nothing registered; a
    smaller usable size has a declaration with exactly [usable / 4] records
    of the registered record type parsed, defines the resulting type at the
    region start and leaves the registry as registration left it (the name
    of the ad hoc structure is not added), and a second call parses the
    same declaration again and arrives at the same type. *)
Theorem region_type_choice (h : Host) (base : Z) (s0 s1 : BinaryView)
    (reg_t : Ty) :
  _ensure_types h s0 = (Ok tt, s1) ->
  registered s1 = true ->
  bv_types s1 !! T_REG = Some reg_t ->
  base + UCREG_OFF < bv_end s0 ->
  let usable := fst (ucode_sizing (bv_end s0) (base + UCREG_OFF)) in
  let s' := (apply_layout_at h base s0).2 in
  let s'' := (apply_layout_at h base s').2 in
  (usable = UCREG_SIZE ->
     bv_vars s' !! (base + UCREG_OFF) = Some reg_t /\
     parsed_sources (trace_since s0 s') = [] /\
     registered_types (trace_since s1 s') = [] /\
     bv_types s' = bv_types s1) /\
  (usable < UCREG_SIZE ->
   forall uop, bv_types s1 !! T_UOP = Some uop ->
     bv_vars s' !! (base + UCREG_OFF) = Some (auto_region_type uop (usable / 4)) /\
     parsed_sources (trace_since s0 s') = [type_str (usable / 4)] /\
     registered_types (trace_since s1 s') = [] /\
     bv_types s' = bv_types s1 /\
     bv_types s' !! "AMD_Zen_MicrocodeRegion_auto"
     = bv_types s0 !! "AMD_Zen_MicrocodeRegion_auto" /\
     parsed_sources (trace_since s' s'') = [type_str (usable / 4)] /\
     bv_vars s'' !! (base + UCREG_OFF) = Some (auto_region_type uop (usable / 4)) /\
     bv_types s'' = bv_types s1).
Proof.
  intros Hens Hreg Hg Hlt usable s' s''.
  destruct (registered_lookup s1 Hreg) as (p & hd & r & g & Hp & Hh & Hr & Hg').
  assert (g = reg_t) as -> by congruence. clear Hg'.
  pose proof (ensure_types_end h s0 _ s1 Hens) as Hframe.
  pose proof (only_registers_end _ _ Hframe) as Hend.
  pose proof (ensure_types_auto_name h s0 s1 Hens) as Hauto.
  subst usable s' s''. rewrite <- Hend in *.
  split.
  - intros Hfull.
    rewrite (apply_view_full h base s0 s1 p hd r reg_t Hens Hreg Hp Hh Hr Hg Hlt Hfull).
    cbn [snd].
    destruct (trace_since_applied base p hd r (Some reg_t) s0 s1
                (full_events h base p hd r reg_t s1) Hframe)
      as (regs & Hregs & _ & ->).
    destruct (registration_events_silent regs Hregs) as (_ & R2 & _ & _).
    rewrite trace_since_applied_self.
    split; [apply lookup_insert_eq|]. split; [|split; [|done]].
    + unfold parsed_sources in *. rewrite flat_map_app, R2.
      apply full_events_parsed.
    + apply full_events_types.
  - intros Hsmall uop Hu.
    assert (Hne : fst (ucode_sizing (bv_end s1) (base + UCREG_OFF)) <> UCREG_SIZE) by lia.
    rewrite (apply_view_truncated h base s0 s1 p hd r reg_t Hens Hreg Hp Hh Hr Hg
               uop Hlt Hne Hu).
    cbn [snd].
    rewrite (again_truncated h base s1 p hd r reg_t Hreg Hp Hh Hr Hg _ _ uop Hlt Hne Hu).
    cbn [snd].
    destruct (trace_since_applied base p hd r
                (Some (auto_region_type uop
                         (snd (ucode_sizing (bv_end s1) (base + UCREG_OFF)))))
                s0 s1 (truncated_events h base p hd r uop s1) Hframe)
      as (regs & Hregs & _ & ->).
    destruct (registration_events_silent regs Hregs) as (_ & R2 & _ & _).
    rewrite !trace_since_applied_self, <- ucode_sizing_count.
    split; [apply lookup_insert_eq|].
    split.
    { unfold parsed_sources in *. rewrite flat_map_app, R2.
      apply truncated_events_parsed. }
    split; [apply truncated_events_types|].
    split; [done|]. split; [exact Hauto|].
    split; [by rewrite truncated_events_parsed|].
    split; [apply lookup_insert_eq|done].
Qed.

Lemma region_type_choice_witness :
  _ensure_types host_modern (image 0 0x723)
  = (Ok tt, (_ensure_types host_modern (image 0 0x723)).2) /\
  registered (_ensure_types host_modern (image 0 0x723)).2 = true /\
  0 + UCREG_OFF < bv_end (image 0 0x723) /\
  fst (ucode_sizing (bv_end (image 0 0x723)) (0 + UCREG_OFF)) < UCREG_SIZE /\
  parsed_sources
    (trace_since (image 0 0x723) (apply_layout_at host_modern 0 (image 0 0x723)).2)
  = ["struct AMD_Zen_MicrocodeRegion_auto { AMD_Zen_MicroOp uops[256]; };"].
Proof.
  assert (H1 : _ensure_types host_modern (image 0 0x723)
               = (Ok tt, (_ensure_types host_modern (image 0 0x723)).2))
    by (vm_compute; reflexivity).
  assert (H2 : registered (_ensure_types host_modern (image 0 0x723)).2 = true)
    by (vm_compute; reflexivity).
  assert (H3 : bv_types (_ensure_types host_modern (image 0 0x723)).2 !! T_REG
               = Some (region_struct
                         (uop_struct (TNamed T_ENUM (TEnum 1 false ZEN_OPCODE_ENUM))
                            (TInt 1 false) (TInt 2 false))))
    by (vm_compute; reflexivity).
  assert (H4 : bv_types (_ensure_types host_modern (image 0 0x723)).2 !! T_UOP
               = Some (uop_struct (TNamed T_ENUM (TEnum 1 false ZEN_OPCODE_ENUM))
                         (TInt 1 false) (TInt 2 false)))
    by (vm_compute; reflexivity).
  assert (H5 : 0 + UCREG_OFF < bv_end (image 0 0x723)) by (vm_compute; reflexivity).
  assert (H6 : fst (ucode_sizing (bv_end (image 0 0x723)) (0 + UCREG_OFF)) < UCREG_SIZE)
    by (vm_compute; reflexivity).
  destruct (region_type_choice host_modern 0 _ _ _ H1 H2 H3 H5) as [_ Htr].
  destruct (Htr H6 _ H4) as (_ & Hparsed & _).
  exact (conj H1 (conj H2 (conj H5 (conj H6 Hparsed)))).
Defined.

(* ===================================================================== *)
(** ** Applying twice                                                     *)
(* ===================================================================== *)

Lemma same_view_registered s s' : same_view s s' -> registered s' = registered s.
Proof. intros (_ & _ & Ht & _). unfold registered. by rewrite Ht. Qed.

Lemma missing_post_same h base s :
  same_view s (emit (EvLog Error types_missing_msg) (check_size_post h base s)).
Proof. apply (check_size_post_same h base s). Qed.

Lemma missing_post_trace h base s :
  bv_trace (emit (EvLog Error types_missing_msg) (check_size_post h base s))
  = bv_trace s ++ (check_size_events h base s ++ [EvLog Error types_missing_msg]).
Proof. by rewrite emit_trace, check_size_post_trace, <- app_assoc. Qed.

Lemma missing_events_proj h base s :
  defined_vars (check_size_events h base s ++ [EvLog Error types_missing_msg]) = [] /\
  registered_types (check_size_events h base s ++ [EvLog Error types_missing_msg]) = [] /\
  error_lines (check_size_events h base s ++ [EvLog Error types_missing_msg])
  = [types_missing_msg].
Proof.
  destruct (check_size_events_silent h base s) as (C1 & _ & _ & C4 & C5).
  unfold defined_vars, registered_types, error_lines in *.
  by rewrite !flat_map_app, C1, C4, C5.
Qed.

(** The three fields compared in the statement, for a first call that got
    past registration with events [regs] and then added [evs], and a second
    call that added [evs']. *)
Lemma twice_summary (s0 s' s'' : BinaryView) (regs evs evs' : list Event) :
  forallb registration_event regs = true ->
  trace_since s0 s' = regs ++ evs ->
  trace_since s' s'' = evs' ->
  registered_types evs' = [] ->
  error_lines evs' = error_lines evs ->
  defined_vars evs' = defined_vars evs ->
  registered_types (trace_since s' s'') = [] /\
  error_lines (trace_since s' s'') = error_lines (trace_since s0 s') /\
  defined_vars (trace_since s' s'') = defined_vars (trace_since s0 s').
Proof.
  intros Hregs -> -> Ht He Hv.
  destruct (registration_events_silent regs Hregs) as (R1 & _ & _ & R4).
  split; [done|].
  unfold error_lines, defined_vars in *.
  by rewrite !flat_map_app, R1, R4, He, Hv.
Qed.

(* ===================================================================== *)
(** ** Registration happens once                                          *)
(* ===================================================================== *)

Lemma ensure_types_times_present h n s :
  is_Some (bv_types s !! T_PATCH) -> ensure_types_times h n s = (Ok tt, s).
Proof.
  intros Hs. induction n as [|n IH]; [reflexivity|].
  cbn [ensure_types_times]. by rewrite bind_run, ensure_types_present.
Qed.

Lemma registration_events_names h opcode_t t8 t16 t32 :
  map fst (registered_types (registration_events h opcode_t t8 t16 t32))
  = match _make_enum_type_best_effort h with
    | Some _ => [T_ENUM]
    | None => []
    end ++ structure_names.
Proof.
  unfold registration_events, enum_events.
  by destruct (_make_enum_type_best_effort h).
Qed.

(** C6: where [T_PATCH] is already registered, [_ensure_types] returns at
    once and leaves the view, trace included, as it was; and [n >= 1] calls
    in a row, the first of which returns, leave exactly the view of that
    first call: starting without [T_PATCH], the whole run registers each
    name once, in one pass. *)
Theorem ensure_types_single_pass (h : Host) (s0 s1 : BinaryView) (n : nat) :
  (1 <= n)%nat ->
  _ensure_types h s0 = (Ok tt, s1) ->
  (is_Some (bv_types s0 !! T_PATCH) -> s1 = s0) /\
  ensure_types_times h n s0 = (Ok tt, s1) /\
  _ensure_types h s1 = (Ok tt, s1) /\
  (bv_types s0 !! T_PATCH = None ->
   map fst (registered_types (trace_since s0 (ensure_types_times h n s0).2))
   = match _make_enum_type_best_effort h with
     | Some _ => [T_ENUM]
     | None => []
     end ++ structure_names).
Proof.
  intros Hn Hens.
  pose proof (ensure_types_ok_present h s0 s1 Hens) as Hpatch.
  assert (Htimes : ensure_types_times h n s0 = (Ok tt, s1)).
  { destruct n as [|n]; [lia|]. cbn [ensure_types_times].
    rewrite bind_run, Hens. by apply ensure_types_times_present. }
  split.
  { intros Hs. rewrite ensure_types_present in Hens by done. by injection Hens. }
  split; [exact Htimes|]. split; [by apply ensure_types_present|].
  intros Habs. rewrite Htimes. cbn [snd].
  destruct (ensure_types_fresh h s0 s1 Habs Hens)
    as (o & t8 & t16 & t32 & _ & _ & _ & _ & ->).
  rewrite (trace_since_app s0 _ (registration_events h o t8 t16 t32)) by done.
  apply registration_events_names.
Qed.

Lemma ensure_types_single_pass_witness :
  (1 <= 3)%nat /\
  _ensure_types host_modern (image 0 16)
  = (Ok tt, (_ensure_types host_modern (image 0 16)).2) /\
  ensure_types_times host_modern 3 (image 0 16)
  = (Ok tt, (_ensure_types host_modern (image 0 16)).2).
Proof.
  assert (H0 : (1 <= 3)%nat) by lia.
  assert (H1 : _ensure_types host_modern (image 0 16)
               = (Ok tt, (_ensure_types host_modern (image 0 16)).2))
    by (vm_compute; reflexivity).
  destruct (ensure_types_single_pass host_modern _ _ 3 H0 H1) as (_ & Ht & _).
  exact (conj H0 (conj H1 Ht)).
Defined.

(* ===================================================================== *)
(** ** Registration without the enumeration                               *)
(* ===================================================================== *)

(** With the integers and the structures constructible, a pass completes. *)
Lemma ensure_types_completes h s0 opcode_t t8 t16 t32 :
  bv_types s0 !! T_PATCH = None ->
  opcode_field h = Ok opcode_t -> u8 h = Ok t8 -> u16 h = Ok t16 -> u32 h = Ok t32 ->
  (forall sb, _type_structure h sb = Ok (sb_type sb)) ->
  _ensure_types h s0 = (Ok tt, registered_view h opcode_t t8 t16 t32 s0).
Proof.
  intros Habs Hop H8 H16 H32 Hsb.
  unfold _ensure_types. rewrite bind_run.
  unfold get_type_by_name at 1. rewrite Habs.
  unfold opcode_field in Hop.
  unfold registered_view, registration_events, enum_events, with_enum.
  destruct (_make_enum_type_best_effort h) as [enum_t|];
    [injection Hop as <- | rewrite H8 in Hop; injection Hop as <-];
    rewrite ?H8, ?H16, ?H32;
    cbv beta iota zeta delta
      [bind lift ret append res_bind define_user_type log_info log_warn
       get_type_by_name Type_array Type_named_type_from_type];
    rewrite ?H8, ?H16, ?H32, !Hsb;
    cbv beta iota; view_simpl; f_equal; f_equal; by rewrite <- !app_assoc.
Qed.

Lemma uint_signedness h w t :
  _uint h w = Ok t ->
  t = TInt w false \/
  (t = TInt w (int_default_signed h) /\ int_width_bool h w <> Works /\
   int_width_zero h w <> Works).
Proof.
  unfold _uint, Type_int_bool, Type_int_zero, Type_int_only.
  destruct (int_width_bool h w) as [|e1]; cbn; [intros [= <-]; by left|].
  destruct (is_TypeError e1); cbn; [|discriminate].
  destruct (int_width_zero h w) as [|e2]; cbn; [intros [= <-]; by left|].
  destruct (is_TypeError e2); cbn; [|discriminate].
  destruct (int_width_only h w) as [|e3]; cbn; [intros [= <-]|discriminate].
  right. done.
Qed.

Lemma registered_view_types h o t8 t16 t32 s :
  bv_types (registered_view h o t8 t16 t32 s) !! T_UOP = Some (uop_struct o t8 t16) /\
  bv_types (registered_view h o t8 t16 t32 s) !! T_REG
  = Some (region_struct (uop_struct o t8 t16)) /\
  bv_types (registered_view h o t8 t16 t32 s) !! T_HDR = Some (header_struct t8 t16 t32) /\
  bv_types (registered_view h o t8 t16 t32 s) !! T_RAND = Some (random_struct t8) /\
  bv_types (registered_view h o t8 t16 t32 s) !! T_PATCH
  = Some (patch_struct (header_struct t8 t16 t32) t8).
Proof.
  unfold registered_view. cbn [bv_types].
  repeat split;
    repeat (first [apply lookup_insert_eq | rewrite lookup_insert_ne by (by vm_compute)]).
Qed.

Lemma registered_view_enum_name h o t8 t16 t32 s :
  _make_enum_type_best_effort h = None ->
  bv_types (registered_view h o t8 t16 t32 s) !! T_ENUM = bv_types s !! T_ENUM.
Proof.
  intros Hen. unfold registered_view, with_enum. cbn [bv_types]. rewrite Hen.
  by rewrite !lookup_insert_ne by (by vm_compute).
Qed.

(** The packed structures have the sizes of the format as soon as the
    integer types have their widths and the opcode field is one byte. *)
Lemma struct_widths (o : Ty) (s8 s16 s32 : bool) :
  ty_width o = 1 ->
  let t8 := TInt 1 s8 in
  let t16 := TInt 2 s16 in
  let t32 := TInt 4 s32 in
  ty_width (uop_struct o t8 t16) = 4 /\
  ty_width (region_struct (uop_struct o t8 t16)) = 0x3500 /\
  ty_width (header_struct t8 t16 t32) = 0x20 /\
  ty_width (random_struct t8) = 0x300 /\
  ty_width (patch_struct (header_struct t8 t16 t32) t8) = 0x3820.
Proof.
  intros Ho. unfold ty_width in *. cbn.
  destruct (ty_layout o) as [w a]. cbn in *. subst w. done.
Qed.

(** C7 (as the code has it): on a build that cannot construct the
    enumeration but can construct the integers and the structures,
    registration returns normally: the opcode field is the type [u8()]
    returns, a one-byte integer that is unsigned unless both call shapes of
    [Type.int] with an explicit signedness raised [TypeError], in which
    case it has the signedness [Type.int(1)] gives by default; all five
    structures are registered and pass the check of [apply_layout_at],
    nothing is registered under the enumeration's name, and the fallback is
    reported by one warning line: no exception, no error line. *)
Theorem enum_unsupported_falls_back (h : Host) (s0 : BinaryView) (t8 t16 t32 : Ty) :
  bv_types s0 !! T_PATCH = None ->
  _make_enum_type_best_effort h = None ->
  u8 h = Ok t8 -> u16 h = Ok t16 -> u32 h = Ok t32 ->
  (forall sb, _type_structure h sb = Ok (sb_type sb)) ->
  (_ensure_types h s0).1 = Ok tt /\
  (t8 = TInt 1 false \/
   t8 = TInt 1 (int_default_signed h) /\
   int_width_bool h 1 <> Works /\ int_width_zero h 1 <> Works) /\
  (int_width_bool h 1 = Works -> t8 = TInt 1 false) /\
  ty_width t8 = 1 /\
  bv_types (_ensure_types h s0).2 !! T_UOP
  = Some (TStruct true [(t8, "opcode"); (t8, "b1"); (t16, "imm16")]) /\
  bv_types (_ensure_types h s0).2 !! T_REG
  = Some (region_struct (uop_struct t8 t8 t16)) /\
  bv_types (_ensure_types h s0).2 !! T_HDR = Some (header_struct t8 t16 t32) /\
  bv_types (_ensure_types h s0).2 !! T_RAND = Some (random_struct t8) /\
  bv_types (_ensure_types h s0).2 !! T_PATCH
  = Some (patch_struct (header_struct t8 t16 t32) t8) /\
  registered (_ensure_types h s0).2 = true /\
  bv_types (_ensure_types h s0).2 !! T_ENUM = bv_types s0 !! T_ENUM /\
  log_lines (trace_since s0 (_ensure_types h s0).2)
  = [(Warn, enum_fallback_msg); (Info, structs_defined_msg)] /\
  error_lines (trace_since s0 (_ensure_types h s0).2) = [].
Proof.
  intros Habs Hen H8 H16 H32 Hsb.
  assert (Hop : opcode_field h = Ok t8)
    by (unfold opcode_field; by rewrite Hen).
  rewrite (ensure_types_completes h s0 _ _ _ _ Habs Hop H8 H16 H32 Hsb).
  cbn [fst snd].
  destruct (registered_view_types h t8 t8 t16 t32 s0) as (Tu & Tg & Th & Tr & Tp).
  split; [done|].
  split; [exact (uint_signedness h 1 t8 H8)|].
  split.
  { intros Hb. unfold u8, _uint, Type_int_bool in H8. rewrite Hb in H8.
    cbn in H8. by injection H8 as <-. }
  destruct (uint_shape h 1 t8 H8) as [s8 E8].
  split; [by rewrite E8|].
  do 5 (split; [done|]).
  split.
  { unfold registered. cbn [forallb]. rewrite Tp, Th, Tr, Tg. rewrite E8.
    destruct (uint_shape h 2 t16 H16) as [s16 ->].
    destruct (uint_shape h 4 t32 H32) as [s32 ->].
    reflexivity. }
  split; [by apply registered_view_enum_name|].
  rewrite (trace_since_app s0 _ (registration_events h t8 t8 t16 t32)) by done.
  unfold registration_events, enum_events. by rewrite Hen.
Qed.

Lemma enum_unsupported_falls_back_witness :
  bv_types (image 0 16) !! T_PATCH = None /\
  _make_enum_type_best_effort host_no_enum = None /\
  u8 host_no_enum = Ok (TInt 1 false) /\
  (forall sb, _type_structure host_no_enum sb = Ok (sb_type sb)) /\
  (_ensure_types host_no_enum (image 0 16)).1 = Ok tt.
Proof.
  assert (H0 : bv_types (image 0 16) !! T_PATCH = None) by reflexivity.
  assert (H1 : _make_enum_type_best_effort host_no_enum = None) by reflexivity.
  assert (H2 : u8 host_no_enum = Ok (TInt 1 false)) by reflexivity.
  assert (H3 : u16 host_no_enum = Ok (TInt 2 false)) by reflexivity.
  assert (H4 : u32 host_no_enum = Ok (TInt 4 false)) by reflexivity.
  assert (H5 : forall sb, _type_structure host_no_enum sb = Ok (sb_type sb))
    by (intros sb; reflexivity).
  destruct (enum_unsupported_falls_back host_no_enum (image 0 16) _ _ _
              H0 H1 H2 H3 H4 H5) as (Hok & _).
  exact (conj H0 (conj H1 (conj H2 (conj H5 Hok)))).
Defined.

(** C7, the claim as stated: the downgrade is neither silent nor always to
    an unsigned type.  On a build without enumeration support on which
    [Type.int] takes the width only, registration returns normally, its log
    carries the warning about the fallback, and the opcode field of the
    registered record is a signed byte. *)
Lemma enum_fallback_logged_and_signed :
  _make_enum_type_best_effort host_legacy = None /\
  (_ensure_types host_legacy (image 0 16)).1 = Ok tt /\
  log_lines (bv_trace (_ensure_types host_legacy (image 0 16)).2)
  = [(Warn, enum_fallback_msg); (Info, structs_defined_msg)] /\
  bv_types (_ensure_types host_legacy (image 0 16)).2 !! T_UOP
  = Some (TStruct true
            [(TInt 1 true, "opcode"); (TInt 1 true, "b1"); (TInt 2 true, "imm16")]).
Proof. by vm_compute. Qed.

(* ===================================================================== *)
(** ** The byte-exact format                                              *)
(* ===================================================================== *)

Lemma enum_append_all_width h eb items eb' :
  enum_append_all h eb items = Some eb' -> eb_width eb' = eb_width eb.
Proof.
  revert eb. induction items as [|[k v] items IH]; intros eb; cbn [enum_append_all].
  - by intros [= <-].
  - destruct (enum_append h k v); [|discriminate]. intros H. by rewrite (IH _ H).
Qed.

(** Where the builder takes [eb.width = 1], the enumeration is one byte
    whichever constructor produces it. *)
Lemma enum_width_when_set h e :
  enum_set_width h = Works -> _make_enum_type_best_effort h = Some e -> ty_width e = 1.
Proof.
  intros Hw. unfold _make_enum_type_best_effort. rewrite Hw.
  set (fresh := mkEB (enum_default_width h) (enum_default_signed h) []).
  assert (forall eb0 : EnumerationBuilder,
    match enum_append_all h
            (if enum_has_signed h
             then match enum_set_signed h with
                  | Works => mkEB 1 false (eb_members eb0)
                  | Fails _ => mkEB 1 (eb_signed eb0) (eb_members eb0)
                  end
             else mkEB 1 (eb_signed eb0) (eb_members eb0)) ZEN_OPCODE_ENUM
    with
    | Some eb => eb_width eb = 1
    | None => True
    end) as Hone.
  { intros eb0.
    destruct (enum_append_all h _ ZEN_OPCODE_ENUM) as [eb|] eqn:E; [|done].
    apply enum_append_all_width in E. rewrite E.
    by destruct (enum_has_signed h), (enum_set_signed h). }
  assert (forall eb0 : EnumerationBuilder,
    match enum_append_all h
            (if enum_has_signed h
             then match enum_set_signed h with
                  | Works => mkEB 1 false (eb_members eb0)
                  | Fails _ => mkEB 1 (eb_signed eb0) (eb_members eb0)
                  end
             else mkEB 1 (eb_signed eb0) (eb_members eb0)) ZEN_OPCODE_ENUM
    with
    | Some eb =>
        match type_enumeration h with
        | Some Works => Some (enum_type (eb_width eb) eb)
        | _ =>
            match type_enumeration_type h with
            | Some (width_first, width_last, no_width) =>
                match width_first with
                | Works => Some (enum_type 1 eb)
                | Fails _ =>
                    match width_last with
                    | Works => Some (enum_type 1 eb)
                    | Fails _ =>
                        match no_width with
                        | Works => Some (enum_type (eb_width eb) eb)
                        | Fails _ => None
                        end
                    end
                end
            | None => None
            end
        end
    | None => None
    end = Some e -> ty_width e = 1) as Hcase.
  { intros eb0. specialize (Hone eb0).
    destruct (enum_append_all h _ ZEN_OPCODE_ENUM) as [eb|]; [|discriminate].
    destruct (type_enumeration h) as [[|?]|];
      [intros [= <-]; exact Hone| |];
      (destruct (type_enumeration_type h) as [[[[|?] [|?]] [|?]]|];
       intros [= <-]; (exact Hone || reflexivity)). }
  destruct (enum_builder_create h); [apply (Hcase fresh)|].
  destruct (enum_builder_construct h); [apply (Hcase fresh)|discriminate].
Qed.

Lemma layout_constants :
  UOP_COUNT = 0xD40 /\ UOP_COUNT * UOP_SIZE = UCREG_SIZE /\
  UCREG_SIZE mod UOP_SIZE = 0 /\
  RANDOM_SIZE = 3 * 0x100 /\ BODY_SIZE = RANDOM_SIZE + UCREG_SIZE /\
  PATCH_SIZE = HDR_SIZE + BODY_SIZE /\
  RANDOM_OFF = HDR_OFF + HDR_SIZE /\ UCREG_OFF = RANDOM_OFF + RANDOM_SIZE.
Proof. done. Qed.

(** Where the enumeration, when the host builds one, is one byte wide, a
    registration pass that starts without [T_PATCH] and returns has
    registered five packed structures whose sizes are those of the format
    (4, 0x3500, 0x20, 0x300 and 0x3820 bytes), each equal to the sum of its
    field widths, with the field widths of the format. *)
Theorem registered_types_byte_exact (h : Host) (s0 s1 : BinaryView) :
  bv_types s0 !! T_PATCH = None ->
  _ensure_types h s0 = (Ok tt, s1) ->
  (forall e, _make_enum_type_best_effort h = Some e -> ty_width e = 1) ->
  exists uop reg hdr rand patch,
    bv_types s1 !! T_UOP = Some uop /\
    bv_types s1 !! T_REG = Some reg /\
    bv_types s1 !! T_HDR = Some hdr /\
    bv_types s1 !! T_RAND = Some rand /\
    bv_types s1 !! T_PATCH = Some patch /\
    map ty_packed [uop; reg; hdr; rand; patch] = [true; true; true; true; true] /\
    field_widths uop = [1; 1; 2] /\
    map snd (ty_fields uop) = ["opcode"; "b1"; "imm16"] /\
    ty_fields reg = [(TArray (TNamed T_UOP uop) 0xD40, "uops")] /\
    field_widths hdr = [2; 1; 1; 4; 2; 1; 1; 4; 2; 2; 2; 2; 2; 1; 1; 1; 1; 1; 1] /\
    field_widths rand = [0x100; 0x100; 0x100] /\
    field_widths patch = [0x20; 0x3800] /\
    ty_width uop = UOP_SIZE /\ ty_width reg = UCREG_SIZE /\
    ty_width hdr = HDR_SIZE /\ ty_width rand = RANDOM_SIZE /\
    ty_width patch = PATCH_SIZE /\
    Forall (fun t => ty_width t = fields_width (ty_fields t)) [uop; reg; hdr; rand; patch].
Proof.
  intros Habs Hens Henum.
  destruct (ensure_types_fresh h s0 s1 Habs Hens)
    as (o & t8 & t16 & t32 & Hop & H8 & H16 & H32 & ->).
  destruct (registered_view_types h o t8 t16 t32 s0) as (Tu & Tg & Th & Tr & Tp).
  destruct (uint_shape h 1 t8 H8) as [s8 ->].
  destruct (uint_shape h 2 t16 H16) as [s16 ->].
  destruct (uint_shape h 4 t32 H32) as [s32 ->].
  assert (Ho : ty_width o = 1).
  { unfold opcode_field in Hop.
    destruct (_make_enum_type_best_effort h) as [e|] eqn:Een.
    - injection Hop as <-. change (ty_width e = 1). by apply Henum.
    - rewrite H8 in Hop. by injection Hop as <-. }
  destruct (struct_widths o s8 s16 s32 Ho) as (W1 & W2 & W3 & W4 & W5).
  exists (uop_struct o (TInt 1 s8) (TInt 2 s16)),
    (region_struct (uop_struct o (TInt 1 s8) (TInt 2 s16))),
    (header_struct (TInt 1 s8) (TInt 2 s16) (TInt 4 s32)),
    (random_struct (TInt 1 s8)),
    (patch_struct (header_struct (TInt 1 s8) (TInt 2 s16) (TInt 4 s32)) (TInt 1 s8)).
  do 5 (split; [assumption|]).
  split; [reflexivity|].
  split; [unfold field_widths; cbn; by rewrite Ho|].
  split; [reflexivity|]. split; [reflexivity|].
  split; [reflexivity|]. split; [reflexivity|].
  split.
  { unfold field_widths, ty_width in *. cbn [ty_fields patch_struct map fst].
    cbn [ty_layout]. rewrite W3. reflexivity. }
  do 5 (split; [done|]).
  repeat constructor.
  - rewrite W1. unfold fields_width. cbn. by rewrite Ho.
  - rewrite W2. unfold fields_width, ty_width in *.
    cbn [ty_fields region_struct fold_right fst]. cbn [ty_layout].
    fold (uop_struct o (TInt 1 s8) (TInt 2 s16)). by rewrite W1.
Qed.

Lemma registered_types_byte_exact_witness :
  bv_types (image 0 16) !! T_PATCH = None /\
  _ensure_types host_modern (image 0 16)
  = (Ok tt, (_ensure_types host_modern (image 0 16)).2) /\
  (forall e, _make_enum_type_best_effort host_modern = Some e -> ty_width e = 1) /\
  exists patch,
    bv_types (_ensure_types host_modern (image 0 16)).2 !! T_PATCH = Some patch /\
    ty_width patch = PATCH_SIZE.
Proof.
  assert (H0 : bv_types (image 0 16) !! T_PATCH = None) by reflexivity.
  assert (H1 : _ensure_types host_modern (image 0 16)
               = (Ok tt, (_ensure_types host_modern (image 0 16)).2))
    by (vm_compute; reflexivity).
  assert (H2 : forall e, _make_enum_type_best_effort host_modern = Some e
                         -> ty_width e = 1)
    by (intros e; apply enum_width_when_set; reflexivity).
  destruct (registered_types_byte_exact host_modern _ _ H0 H1 H2)
    as (uop & reg & hdr & rand & patch & _ & _ & _ & _ & Hp & _ & _ & _ & _ & _ & _
        & _ & _ & _ & _ & _ & Hw & _).
  exact (conj H0 (conj H1 (conj H2 (ex_intro _ patch (conj Hp Hw))))).
Defined.

(** C9, at a build on which [eb.width = 1] raises and [Type.enumeration]
    converts the builder with its default width of four bytes: registration
    returns and reports the enumeration as created [(u8)], but the
    enumeration is four bytes wide, so the packed record registered under
    [T_UOP] has field widths 4, 1, 2 and is 7 bytes, not [UOP_SIZE], and
    the region type is 0xD40 * 7 = 0x5CC0 bytes, not [UCREG_SIZE]; header,
    random blocks and container keep their sizes.  Applied to a whole
    patch at address 0, the region variable defined at 0x320 is then
    0x5CC0 bytes wide in an image that ends at 0x3820. *)
Theorem wide_enum_breaks_record_size :
  (_ensure_types host_wide_enum (image 0 0x3820)).1 = Ok tt /\
  log_lines (bv_trace (_ensure_types host_wide_enum (image 0 0x3820)).2)
  = [(Info, "AMD_Zen_Opcode enum created (u8).");
     (Info, "AMD microcode structs defined in this database.")] /\
  ty_width <$> bv_types (_ensure_types host_wide_enum (image 0 0x3820)).2 !! T_ENUM
  = Some 4 /\
  field_widths <$> bv_types (_ensure_types host_wide_enum (image 0 0x3820)).2 !! T_UOP
  = Some [4; 1; 2] /\
  ty_width <$> bv_types (_ensure_types host_wide_enum (image 0 0x3820)).2 !! T_UOP
  = Some 7 /\
  ty_width <$> bv_types (_ensure_types host_wide_enum (image 0 0x3820)).2 !! T_REG
  = Some 0x5CC0 /\
  ty_width <$> bv_types (_ensure_types host_wide_enum (image 0 0x3820)).2 !! T_HDR
  = Some 0x20 /\
  ty_width <$> bv_types (_ensure_types host_wide_enum (image 0 0x3820)).2 !! T_RAND
  = Some 0x300 /\
  ty_width <$> bv_types (_ensure_types host_wide_enum (image 0 0x3820)).2 !! T_PATCH
  = Some 0x3820 /\
  UOP_SIZE = 4 /\ UCREG_SIZE = 0x3500 /\
  (apply_layout_at host_wide_enum 0 (image 0 0x3820)).1 = Ok tt /\
  ty_width <$> bv_vars (apply_layout_at host_wide_enum 0 (image 0 0x3820)).2 !! 0x320
  = Some 0x5CC0 /\
  bv_end (apply_layout_at host_wide_enum 0 (image 0 0x3820)).2 = 0x3820.
Proof. by vm_compute. Qed.

(* ===================================================================== *)
(** ** Failed registration                                                *)
(* ===================================================================== *)

Lemma type_structure_absent h sb :
  type_structure h = None -> type_structure_type h = None ->
  _type_structure h sb = Raise (mkExn RuntimeError no_structure_msg).
Proof. intros H1 H2. unfold _type_structure. by rewrite H1, H2. Qed.

(** On a build with neither structure constructor the first structure, the
    micro-op record, already fails, with the fixed message. *)
Lemma ensure_types_no_structure h s0 e s1 t8 t16 :
  type_structure h = None -> type_structure_type h = None ->
  u8 h = Ok t8 -> u16 h = Ok t16 ->
  _ensure_types h s0 = (Raise e, s1) ->
  e = mkExn RuntimeError no_structure_msg /\
  bv_types s1 !! T_UOP = bv_types s0 !! T_UOP.
Proof.
  intros H1 H2 H8 H16 Hens.
  destruct (bv_types s0 !! T_PATCH) as [t|] eqn:Habs.
  { rewrite ensure_types_present in Hens by eauto. discriminate Hens. }
  unfold _ensure_types in Hens. rewrite bind_run in Hens.
  unfold get_type_by_name at 1 in Hens. rewrite Habs in Hens.
  rewrite H8, H16 in Hens.
  destruct (_make_enum_type_best_effort h) as [enum_t|];
    cbv beta iota zeta delta
      [bind lift ret append res_bind define_user_type log_info log_warn
       get_type_by_name Type_array Type_named_type_from_type] in Hens;
    rewrite type_structure_absent in Hens by done;
    injection Hens as <- <-; (split; [reflexivity|]); view_simpl;
    by rewrite ?lookup_insert_ne by (by vm_compute).
Qed.

Lemma messages_name_no_structure :
  existsb (fun n => occurs_in n no_structure_msg) structure_names = false /\
  existsb (fun n => occurs_in n types_missing_msg) structure_names = false.
Proof. by vm_compute. Qed.

(** C5 (as the code has it): when registration raises, or returns leaving
    one of the four looked-up types missing, [apply_layout_at] defines no
    variable and leaves variables, symbols and comments as they were.  A
    raised exception propagates unchanged and no error line is logged; on a
    build without any structure constructor it is the fixed
    [no_structure_msg].  A missing type gives the single error line
    [types_missing_msg] and a normal return.  Neither text names a
    structure. *)
Theorem registration_failure_aborts (h : Host) (base : Z) (s0 s1 : BinaryView)
    (r : Res unit) :
  _ensure_types h s0 = (r, s1) ->
  r <> Ok tt \/ registered s1 = false ->
  defined_vars (trace_since s0 (apply_layout_at h base s0).2) = [] /\
  bv_vars (apply_layout_at h base s0).2 = bv_vars s0 /\
  bv_symbols (apply_layout_at h base s0).2 = bv_symbols s0 /\
  bv_comments (apply_layout_at h base s0).2 = bv_comments s0 /\
  match r with
  | Raise e =>
      apply_layout_at h base s0 = (Raise e, s1) /\
      error_lines (trace_since s0 s1) = [] /\
      (type_structure h = None -> type_structure_type h = None ->
       (exists t8, u8 h = Ok t8) -> (exists t16, u16 h = Ok t16) ->
       e = mkExn RuntimeError no_structure_msg /\
       bv_types s1 !! T_UOP = bv_types s0 !! T_UOP)
  | Ok _ =>
      (apply_layout_at h base s0).1 = Ok tt /\
      error_lines (trace_since s0 (apply_layout_at h base s0).2) = [types_missing_msg]
  end /\
  existsb (fun n => occurs_in n no_structure_msg) structure_names = false /\
  existsb (fun n => occurs_in n types_missing_msg) structure_names = false.
Proof.
  intros Hens Hfail.
  pose proof (ensure_types_end h s0 r s1 Hens) as Hframe.
  destruct Hframe as (_ & _ & Hv & Hs & Hc & regs & Htr & Hregs).
  destruct (registration_events_silent regs Hregs) as (R1 & _ & _ & R4).
  destruct messages_name_no_structure as [M1 M2].
  destruct r as [[]|e].
  - destruct Hfail as [Hfail|Hreg]; [done|].
    rewrite (apply_run_missing h base s0 s1 Hens Hreg). cbn [fst snd].
    destruct (missing_post_same h base s1) as (_ & _ & _ & Hv' & Hs' & Hc').
    destruct (missing_events_proj h base s1) as (V1 & _ & E1).
    assert (Htrace : trace_since s0 (emit (EvLog Error types_missing_msg)
                                       (check_size_post h base s1))
                     = regs ++ check_size_events h base s1
                       ++ [EvLog Error types_missing_msg]).
    { apply trace_since_app. by rewrite missing_post_trace, Htr, <- app_assoc. }
    rewrite Htrace. unfold defined_vars, error_lines in *.
    rewrite !(flat_map_app _ regs), R1, R4, V1, E1.
    split; [reflexivity|]. split; [congruence|]. split; [congruence|].
    split; [congruence|]. split; [by split|]. exact (conj M1 M2).
  - rewrite (apply_run_abort h base s0 e s1 Hens). cbn [fst snd].
    rewrite (trace_since_app s0 s1 regs Htr).
    split; [exact R1|]. split; [exact Hv|]. split; [exact Hs|].
    split; [exact Hc|]. split; [|exact (conj M1 M2)].
    split; [reflexivity|]. split; [exact R4|].
    intros H1 H2 [t8 H8] [t16 H16].
    exact (ensure_types_no_structure h s0 e s1 t8 t16 H1 H2 H8 H16 Hens).
Qed.

Lemma registration_failure_aborts_witness :
  _ensure_types host_no_structs (image 0 0x3820)
  = (Raise (mkExn RuntimeError no_structure_msg),
     (_ensure_types host_no_structs (image 0 0x3820)).2) /\
  bv_vars (apply_layout_at host_no_structs 0 (image 0 0x3820)).2
  = bv_vars (image 0 0x3820).
Proof.
  assert (H1 : _ensure_types host_no_structs (image 0 0x3820)
               = (Raise (mkExn RuntimeError no_structure_msg),
                  (_ensure_types host_no_structs (image 0 0x3820)).2))
    by (vm_compute; reflexivity).
  assert (H2 : Raise (mkExn RuntimeError no_structure_msg) <> Ok tt
               \/ registered (_ensure_types host_no_structs (image 0 0x3820)).2 = false)
    by (left; discriminate).
  destruct (registration_failure_aborts host_no_structs 0 _ _ _ H1 H2) as (_ & Hv & _).
  exact (conj H1 Hv).
Defined.

(** C5, the claim as stated: on a build without a structure constructor the
    micro-op record is the type that cannot be built, and nothing the call
    surfaces, neither the exception message nor a log line, contains its
    name or that of any other structure. *)
Lemma registration_diagnostic_names_no_type :
  (apply_layout_at host_no_structs 0 (image 0 0x3820)).1
  = Raise (mkExn RuntimeError no_structure_msg) /\
  bv_types (apply_layout_at host_no_structs 0 (image 0 0x3820)).2 !! T_UOP = None /\
  existsb (fun d => existsb (fun n => occurs_in n d) structure_names)
    (diagnostics (apply_layout_at host_no_structs 0 (image 0 0x3820)).1
       (bv_trace (apply_layout_at host_no_structs 0 (image 0 0x3820)).2))
  = false.
Proof. by vm_compute. Qed.

(* ===================================================================== *)
(** ** The request for re-analysis                                        *)
(* ===================================================================== *)

(** A call that reaches the microcode region requests the analysis once,
    after the last definition, returns whether or not the request raises,
    and closes with the log line that carries the record count of the
    sizing rule. *)
Lemma completed_call_requests_analysis (h : Host) (base : Z) (s0 s1 : BinaryView)
    (uop : Ty) :
  _ensure_types h s0 = (Ok tt, s1) ->
  registered s1 = true ->
  bv_types s1 !! T_UOP = Some uop ->
  base + UCREG_OFF < bv_end s1 ->
  (apply_layout_at h base s0).1 = Ok tt /\
  analysis_requests (trace_since s1 (apply_layout_at h base s0).2) = [tt] /\
  exists pre,
    trace_since s1 (apply_layout_at h base s0).2
    = pre ++ [EvUpdateAnalysis;
              EvLog Info (applied_msg base
                            (record_count (bv_end s1 - (base + UCREG_OFF))))].
Proof.
  intros Hens Hreg Hu Hlt.
  destruct (registered_lookup s1 Hreg) as (p & hd & r & g & Hp & Hh & Hr & Hg).
  destruct (Z.eq_dec (fst (ucode_sizing (bv_end s1) (base + UCREG_OFF))) UCREG_SIZE)
    as [Hfull|Hne].
  - rewrite (apply_view_full h base s0 s1 p hd r g Hens Hreg Hp Hh Hr Hg Hlt Hfull).
    cbn [fst snd]. rewrite trace_since_applied_self.
    split; [done|]. split; [apply full_events_analysis|].
    unfold full_events. rewrite ucode_sizing_unfold. cbn [snd].
    eexists. by rewrite !app_assoc.
  - rewrite (apply_view_truncated h base s0 s1 p hd r g Hens Hreg Hp Hh Hr Hg
               uop Hlt Hne Hu).
    cbn [fst snd]. rewrite trace_since_applied_self.
    split; [done|]. split; [apply truncated_events_analysis|].
    unfold truncated_events. cbv zeta. rewrite ucode_sizing_unfold. cbn [snd].
    eexists. by rewrite !app_assoc.
Qed.

(** The early return leaves out the request, whatever the build. *)
Lemma early_return_never_requests_analysis (h : Host) (base : Z) (s0 s1 : BinaryView) :
  _ensure_types h s0 = (Ok tt, s1) ->
  registered s1 = true ->
  base + UCREG_OFF >= bv_end s1 ->
  length (defined_vars (trace_since s0 (apply_layout_at h base s0).2)) = 3%nat /\
  analysis_requests (trace_since s0 (apply_layout_at h base s0).2) = [].
Proof.
  intros Hens Hreg Hge.
  destruct (registered_lookup s1 Hreg) as (p & hd & r & g & Hp & Hh & Hr & Hg).
  pose proof (ensure_types_end h s0 _ s1 Hens) as Hframe.
  rewrite (apply_view_early h base s0 s1 p hd r g Hens Hreg Hp Hh Hr Hg Hge).
  cbn [snd].
  destruct (trace_since_applied base p hd r None s0 s1
              (early_events h base p hd r s1) Hframe) as (regs & Hregs & _ & ->).
  destruct (registration_events_silent regs Hregs) as (R1 & _ & R3 & _).
  unfold defined_vars, analysis_requests in *. rewrite !flat_map_app, R1, R3.
  fold (defined_vars (early_events h base p hd r s1)).
  fold (analysis_requests (early_events h base p hd r s1)).
  by rewrite early_events_vars, early_events_analysis.
Qed.

(** C8, at an image that ends where the microcode region would start: the
    call returns normally, has defined the container, the header and the
    random blocks, ends on the warning, and has not requested the
    analysis. *)
Theorem early_return_skips_analysis :
  (apply_layout_at host_modern 0 (image 0 0x320)).1 = Ok tt /\
  map fst (defined_vars (bv_trace (apply_layout_at host_modern 0 (image 0 0x320)).2))
  = [0; 0; 0x20] /\
  last (bv_trace (apply_layout_at host_modern 0 (image 0 0x320)).2)
  = Some (EvLog Warn no_bytes_msg) /\
  analysis_requests (bv_trace (apply_layout_at host_modern 0 (image 0 0x320)).2) = [].
Proof. by vm_compute. Qed.

(* ===================================================================== *)
(** ** Registration does not depend on the view                           *)
(* ===================================================================== *)

Lemma script_view_nil s : script_view [] [] s = s.
Proof. destruct s. unfold script_view. view_simpl. by rewrite app_nil_r. Qed.

Lemma script_view_app regs regs' evs evs' s :
  script_view regs' evs' (script_view regs evs s)
  = script_view (regs' ++ regs) (evs ++ evs') s.
Proof.
  unfold script_view, insert_all. view_simpl.
  by rewrite foldr_app, app_assoc.
Qed.

Lemma uniform_ret {A} (a : A) : uniform (ret a).
Proof. exists (Ok a), [], []. intros s. by rewrite script_view_nil. Qed.

Lemma uniform_lift {A} (r : Res A) : uniform (lift r).
Proof. exists r, [], []. intros s. by rewrite script_view_nil. Qed.

Lemma uniform_bind {A B} (m : M A) (k : A -> M B) :
  uniform m -> (forall a, uniform (k a)) -> uniform (bind m k).
Proof.
  intros ([a|e] & regs & evs & Hm) Hk.
  - destruct (Hk a) as (r' & regs' & evs' & Hka).
    exists r', (regs' ++ regs), (evs ++ evs'). intros s.
    by rewrite bind_run, Hm, Hka, script_view_app.
  - exists (Raise e), regs, evs. intros s. by rewrite bind_run, Hm.
Qed.

Lemma uniform_define_user_type name t : uniform (define_user_type name t).
Proof. by exists (Ok tt), [(name, t)], [EvDefineUserType name t]. Qed.

Lemma uniform_log_info msg : uniform (log_info msg).
Proof. by exists (Ok tt), [], [EvLog Info msg]. Qed.

Lemma uniform_log_warn msg : uniform (log_warn msg).
Proof. by exists (Ok tt), [], [EvLog Warn msg]. Qed.

Lemma uniform_append r name sb : uniform (append r name sb).
Proof. apply uniform_bind; [apply uniform_lift|intros; apply uniform_ret]. Qed.

Ltac uniform_steps :=
  repeat match goal with
    | |- uniform (bind _ _) => apply uniform_bind; [|intros ?]
    | |- uniform (ret _) => apply uniform_ret
    | |- uniform (lift _) => apply uniform_lift
    | |- uniform (append _ _ _) => apply uniform_append
    | |- uniform (define_user_type _ _) => apply uniform_define_user_type
    | |- uniform (log_info _) => apply uniform_log_info
    | |- uniform (log_warn _) => apply uniform_log_warn
    | |- uniform (match ?x with _ => _ end) => destruct x
    | |- uniform _ => progress cbv zeta
    end.

Lemma uniform_after_absent {A} (k : option Ty -> M A) :
  uniform (k None) ->
  exists r regs evs, forall s,
    bv_types s !! T_PATCH = None ->
    bind (get_type_by_name T_PATCH) k s = (r, script_view regs evs s).
Proof.
  intros (r & regs & evs & Hk). exists r, regs, evs. intros s Habs.
  rewrite bind_run. unfold get_type_by_name. by rewrite Habs.
Qed.

(** Where [T_PATCH] is absent, the result of a pass, the types it registers
    and its events are the same on every view. *)
Lemma ensure_types_uniform h :
  exists r regs evs, forall s,
    bv_types s !! T_PATCH = None ->
    _ensure_types h s = (r, script_view regs evs s).
Proof.
  unfold _ensure_types. apply uniform_after_absent. cbv beta iota.
  uniform_steps.
Qed.

Lemma insert_all_absorb (regs : list (string * Ty)) k (v : Ty) m :
  <[k := v]> (insert_all regs (<[k := v]> m)) = <[k := v]> (insert_all regs m).
Proof.
  induction regs as [|[k' v'] regs IH]; cbn [insert_all fold_right fst snd].
  - apply insert_insert_eq.
  - fold (insert_all regs (<[k := v]> m)). fold (insert_all regs m).
    destruct (decide (k = k')) as [->|Hne].
    + by rewrite !insert_insert_eq.
    + rewrite (insert_insert_ne _ k k') by done. rewrite IH.
      by rewrite (insert_insert_ne _ k' k) by done.
Qed.

Lemma insert_all_idem (regs : list (string * Ty)) m :
  insert_all regs (insert_all regs m) = insert_all regs m.
Proof.
  induction regs as [|[k v] regs IH]; [done|].
  cbn [insert_all fold_right fst snd].
  fold (insert_all regs m). fold (insert_all regs (<[k := v]> (insert_all regs m))).
  by rewrite insert_all_absorb, IH.
Qed.

Lemma script_view_idem regs evs evs' s :
  same_view (script_view regs evs s) (script_view regs evs' (script_view regs evs s)).
Proof.
  unfold same_view, script_view.
  cbn [bv_start bv_data bv_types bv_vars bv_symbols bv_comments].
  repeat split. apply insert_all_idem.
Qed.

Section RaisedPass.

Variable h : Host.

Ltac run_in H :=
  cbv beta iota zeta delta
    [bind lift ret append res_bind define_user_type log_info log_warn
     get_type_by_name Type_array Type_named_type_from_type] in H.

Ltac close_raised H Habs :=
  run_in H;
  first [ discriminate H
        | injection H as <- <-; view_simpl;
          rewrite ?lookup_insert_ne by (by vm_compute); exact Habs ].

Ltac walk_raised H Habs :=
  run_in H;
  lazymatch type of H with
  | context [_type_structure h ?sb] =>
      let t := fresh "t" in
      let E := fresh "E" in
      destruct (_type_structure h sb) as [t|?] eqn:E;
      [apply type_structure_ok in E; subst t; walk_raised H Habs
      |close_raised H Habs]
  | _ => close_raised H Habs
  end.

(** A pass that raises has not got as far as registering [T_PATCH]. *)
Lemma ensure_types_raise_absent s0 e s1 :
  _ensure_types h s0 = (Raise e, s1) -> bv_types s1 !! T_PATCH = None.
Proof.
  intros H. destruct (bv_types s0 !! T_PATCH) as [t|] eqn:Habs.
  { rewrite ensure_types_present in H by eauto. discriminate H. }
  unfold _ensure_types in H. rewrite bind_run in H.
  unfold get_type_by_name at 1 in H. rewrite Habs in H.
  destruct (u8 h), (u16 h), (u32 h), (_make_enum_type_best_effort h);
    walk_raised H Habs.
Qed.

End RaisedPass.

(* ===================================================================== *)
(** ** Applying twice: the theorem                                        *)
(* ===================================================================== *)

Lemma again_unresolved h base s1 p hd r g region evs :
  registered s1 = true ->
  bv_types s1 !! T_PATCH = Some p -> bv_types s1 !! T_HDR = Some hd ->
  bv_types s1 !! T_RAND = Some r -> bv_types s1 !! T_REG = Some g ->
  base + UCREG_OFF < bv_end s1 ->
  fst (ucode_sizing (bv_end s1) (base + UCREG_OFF)) <> UCREG_SIZE ->
  bv_types s1 !! T_UOP = None ->
  apply_layout_at h base (applied_view base p hd r region s1 evs)
  = (Raise parse_error,
     emit (EvParseTypeString
             (type_str (snd (ucode_sizing (bv_end s1) (base + UCREG_OFF)))))
       (three_regions_post base p hd r
          (check_size_post h base (applied_view base p hd r region s1 evs)))).
Proof.
  intros Hreg Hp Hh Hr Hg Hlt Hne Hu.
  exact (apply_run_unresolved h base _ _ p hd r g
           (applied_view_ensure h base s1 p hd r Hp region evs)
           Hreg Hp Hh Hr Hg Hlt Hne Hu).
Qed.

(** C3: calling again at the same base gives the same result as the first
    call and leaves the same types, variables, symbols and comments (and
    image); when the first call returned, the second registers no type,
    logs the same error lines as the first (none when the first had none)
    and makes the same definitions. *)
Theorem apply_twice_same_view (h : Host) (base : Z) (s0 : BinaryView) :
  let s' := (apply_layout_at h base s0).2 in
  let s'' := (apply_layout_at h base s').2 in
  (apply_layout_at h base s').1 = (apply_layout_at h base s0).1 /\
  same_view s' s'' /\
  ((apply_layout_at h base s0).1 = Ok tt ->
   registered_types (trace_since s' s'') = [] /\
   error_lines (trace_since s' s'') = error_lines (trace_since s0 s') /\
   defined_vars (trace_since s' s'') = defined_vars (trace_since s0 s')).
Proof.
  intros s' s''. subst s' s''.
  destruct (_ensure_types h s0) as [[[]|e] s1] eqn:Hens.
  2:{ (* registration raised: it raises again, with the same registrations *)
    assert (Habs0 : bv_types s0 !! T_PATCH = None).
    { destruct (bv_types s0 !! T_PATCH) as [t|] eqn:E; [|done].
      rewrite ensure_types_present in Hens by eauto. discriminate Hens. }
    pose proof (ensure_types_raise_absent h s0 e s1 Hens) as Habs1.
    destruct (ensure_types_uniform h) as (r & regs & evs & Huni).
    pose proof (Huni s0 Habs0) as H0. rewrite Hens in H0. injection H0 as <- ->.
    pose proof (Huni _ Habs1) as H1.
    rewrite (apply_run_abort h base s0 _ _ Hens). cbn [fst snd].
    rewrite (apply_run_abort h base _ _ _ H1). cbn [fst snd].
    split; [done|]. split; [apply script_view_idem|]. intros [=]. }
  pose proof (ensure_types_end h s0 _ s1 Hens) as Hframe.
  pose proof (ensure_types_ok_present h s0 s1 Hens) as Hpatch.
  destruct (registered s1) eqn:Hreg.
  - destruct (registered_lookup s1 Hreg) as (p & hd & r & g & Hp & Hh & Hr & Hg).
    destruct (Z_lt_ge_dec (base + UCREG_OFF) (bv_end s1)) as [Hlt|Hge].
    + destruct (Z.eq_dec (fst (ucode_sizing (bv_end s1) (base + UCREG_OFF))) UCREG_SIZE)
        as [Hfull|Hne].
      * rewrite (apply_view_full h base s0 s1 p hd r g Hens Hreg Hp Hh Hr Hg Hlt Hfull).
        cbn [snd].
        rewrite (again_full h base s1 p hd r g Hreg Hp Hh Hr Hg _ _ Hlt Hfull).
        cbn [fst snd]. split; [done|]. split; [apply applied_view_idem|]. intros _.
        destruct (trace_since_applied base p hd r (Some g) s0 s1
                    (full_events h base p hd r g s1) Hframe) as (regs & Hregs & _ & Htr).
        eapply (twice_summary _ _ _ regs _ _ Hregs Htr);
          [apply trace_since_applied_self
          |apply full_events_types
          |by rewrite !full_events_errors
          |by rewrite !full_events_vars].
      * destruct (bv_types s1 !! T_UOP) as [uop|] eqn:Hu.
        -- rewrite (apply_view_truncated h base s0 s1 p hd r g Hens Hreg Hp Hh Hr Hg
                      uop Hlt Hne Hu).
           cbn [snd].
           rewrite (again_truncated h base s1 p hd r g Hreg Hp Hh Hr Hg _ _ uop
                      Hlt Hne Hu).
           cbn [fst snd]. split; [done|]. split; [apply applied_view_idem|]. intros _.
           destruct (trace_since_applied base p hd r
                       (Some (auto_region_type uop
                                (snd (ucode_sizing (bv_end s1) (base + UCREG_OFF)))))
                       s0 s1 (truncated_events h base p hd r uop s1) Hframe)
             as (regs & Hregs & _ & Htr).
           eapply (twice_summary _ _ _ regs _ _ Hregs Htr);
             [apply trace_since_applied_self
             |apply truncated_events_types
             |by rewrite !truncated_events_errors
             |by rewrite !truncated_events_vars].
        -- (* the record type is missing: the parser raises both times *)
           rewrite (apply_run_unresolved h base s0 s1 p hd r g Hens Hreg Hp Hh Hr Hg
                      Hlt Hne Hu).
           cbn [fst snd]. rewrite three_regions_view, emit_applied_view.
           rewrite (again_unresolved h base s1 p hd r g None _ Hreg Hp Hh Hr Hg
                      Hlt Hne Hu).
           cbn [fst snd]. rewrite three_regions_view, emit_applied_view.
           split; [done|]. split; [apply applied_view_idem|]. intros [=].
    + rewrite (apply_view_early h base s0 s1 p hd r g Hens Hreg Hp Hh Hr Hg Hge).
      cbn [snd].
      rewrite (again_early h base s1 p hd r g Hreg Hp Hh Hr Hg _ _ Hge).
      cbn [fst snd]. split; [done|]. split; [apply applied_view_idem|]. intros _.
      destruct (trace_since_applied base p hd r None s0 s1
                  (early_events h base p hd r s1) Hframe) as (regs & Hregs & _ & Htr).
      eapply (twice_summary _ _ _ regs _ _ Hregs Htr);
        [apply trace_since_applied_self
        |apply early_events_types
        |by rewrite !early_events_errors
        |by rewrite !early_events_vars].
  - rewrite (apply_run_missing h base s0 s1 Hens Hreg). cbn [snd].
    set (s' := emit (EvLog Error types_missing_msg) (check_size_post h base s1)).
    pose proof (missing_post_same h base s1) as Hsame. fold s' in Hsame.
    assert (Hens' : _ensure_types h s' = (Ok tt, s')).
    { apply ensure_types_present. destruct Hsame as (_ & _ & -> & _). exact Hpatch. }
    assert (Hreg' : registered s' = false)
      by (by rewrite (same_view_registered _ _ Hsame)).
    rewrite (apply_run_missing h base s' s' Hens' Hreg'). cbn [fst snd].
    split; [done|]. split; [apply missing_post_same|]. intros _.
    destruct Hframe as (_ & _ & _ & _ & _ & regs & Htr0 & Hregs).
    destruct (missing_events_proj h base s1) as (V1 & T1 & E1).
    destruct (missing_events_proj h base s') as (V2 & T2 & E2).
    eapply (twice_summary _ _ _ regs _ _ Hregs).
    + apply trace_since_app. unfold s'. by rewrite missing_post_trace, Htr0, <- app_assoc.
    + apply trace_since_app. apply missing_post_trace.
    + exact T2.
    + by rewrite E1, E2.
    + by rewrite V1, V2.
Qed.

Lemma apply_twice_same_view_witness :
  (apply_layout_at host_modern 0 (image 0 0x723)).1 = Ok tt /\
  same_view (apply_layout_at host_modern 0 (image 0 0x723)).2
    (apply_layout_at host_modern 0
       (apply_layout_at host_modern 0 (image 0 0x723)).2).2 /\
  registered_types
    (trace_since (apply_layout_at host_modern 0 (image 0 0x723)).2
       (apply_layout_at host_modern 0
          (apply_layout_at host_modern 0 (image 0 0x723)).2).2) = [].
Proof.
  assert (H1 : (apply_layout_at host_modern 0 (image 0 0x723)).1 = Ok tt)
    by (vm_compute; reflexivity).
  destruct (apply_twice_same_view host_modern 0 (image 0 0x723)) as (_ & Hsame & Hrest).
  destruct (Hrest H1) as (Hreg & _).
  exact (conj H1 (conj Hsame Hreg)).
Defined.

(* ===================================================================== *)
(** ** Two runs                                                           *)
(* ===================================================================== *)

(** A whole patch at address 0: four variables, the region with the
    registered type of 0xD40 records, and no warning or error line. *)
Example run_whole_patch :
  let r := apply_layout_at host_modern 0 (image 0 0x3820) in
  r.1 = Ok tt /\
  map fst (defined_vars (bv_trace r.2)) = [0; 0; 0x20; 0x320] /\
  bv_vars r.2 !! 0x320 = bv_types r.2 !! T_REG /\
  parsed_sources (bv_trace r.2) = [] /\
  map fst (log_lines (bv_trace r.2)) = [Info; Info; Info] /\
  last (bv_trace r.2) = Some (EvLog Info "Applied AMD microcode layout at 0x0 (uops=0xd40).").
Proof. by vm_compute. Qed.

(** A patch at 0x1000 cut off 0x400 bytes into its microcode region: the
    region is typed with 256 records and the short read is reported. *)
Example run_truncated_patch :
  let r := apply_layout_at host_modern 0x1000 (image 0 0x1720) in
  r.1 = Ok tt /\
  map fst (defined_vars (bv_trace r.2)) = [0x1000; 0x1000; 0x1020; 0x1320] /\
  parsed_sources (bv_trace r.2)
  = ["struct AMD_Zen_MicrocodeRegion_auto { AMD_Zen_MicroOp uops[256]; };"] /\
  log_lines (bv_trace r.2)
  = [(Info, enum_created_msg); (Info, structs_defined_msg);
     (Warn, "Only 1824 bytes available from 0x1000, expected 0x3820. Layout may be partial.");
     (Info, "Applied AMD microcode layout at 0x1000 (uops=0x100).")].
Proof. by vm_compute. Qed.

(* ===================================================================== *)
(** ** The sizing a call performs                                         *)
(* ===================================================================== *)

Lemma auto_region_type_width uop n :
  ty_layout uop = (UOP_SIZE, 1) -> ty_width (auto_region_type uop n) = UOP_SIZE * n.
Proof.
  intros Hl. unfold ty_width, auto_region_type. cbn [ty_layout]. rewrite Hl.
  cbn [fst snd]. unfold align_up. cbn. reflexivity.
Qed.

Lemma full_events_last h base p hd r g s :
  last (full_events h base p hd r g s)
  = Some (EvLog Info
            (applied_msg base (snd (ucode_sizing (bv_end s) (base + UCREG_OFF))))).
Proof. unfold full_events. by rewrite !app_assoc, last_app_cons. Qed.

Lemma truncated_events_last h base p hd r uop s :
  last (truncated_events h base p hd r uop s)
  = Some (EvLog Info
            (applied_msg base (snd (ucode_sizing (bv_end s) (base + UCREG_OFF))))).
Proof. unfold truncated_events. cbv zeta. by rewrite !app_assoc, last_app_cons. Qed.

(** C1: in every call of [apply_layout_at] that gets past registration and
    the type check with [available = bv.end - (base + 0x320) > 0], the
    sizing the call computes is [usable = min(available, 0x3500)] rounded
    down to a multiple of 4, never including a partial trailing record,
    and [count = usable / 4]; and the call acts on exactly these numbers:
    it returns, closes with the log line that carries [count], types the
    region start with the registered region type when [usable] is 0x3500
    and otherwise with the type parsed from the declaration with [count]
    records, the only declaration it parses, and the variable it defines
    there is [usable] bytes wide where the record type is four bytes with
    byte alignment and the registered region type 0x3500 bytes. *)
Theorem region_sizing_floor (h : Host) (base : Z) (s0 s1 : BinaryView)
    (uop reg_t : Ty) :
  _ensure_types h s0 = (Ok tt, s1) ->
  registered s1 = true ->
  bv_types s1 !! T_UOP = Some uop ->
  bv_types s1 !! T_REG = Some reg_t ->
  0 < bv_end s0 - (base + UCREG_OFF) ->
  let available := bv_end s0 - (base + UCREG_OFF) in
  let usable := usable_region_bytes available in
  let count := record_count available in
  let region_t := if usable =? UCREG_SIZE then reg_t else auto_region_type uop count in
  ucode_sizing (bv_end s0) (base + UCREG_OFF) = (usable, count) /\
  count = usable / 4 /\
  count * 4 = usable /\
  usable mod 4 = 0 /\
  0 <= usable <= Z.min available 0x3500 /\
  Z.min available 0x3500 < usable + 4 /\
  (apply_layout_at h base s0).1 = Ok tt /\
  last (trace_since s0 (apply_layout_at h base s0).2)
  = Some (EvLog Info (applied_msg base count)) /\
  bv_vars (apply_layout_at h base s0).2 !! (base + UCREG_OFF) = Some region_t /\
  last (defined_vars (trace_since s0 (apply_layout_at h base s0).2))
  = Some (base + UCREG_OFF, region_t) /\
  parsed_sources (trace_since s0 (apply_layout_at h base s0).2)
  = (if usable =? UCREG_SIZE then [] else [type_str count]) /\
  (ty_layout uop = (UOP_SIZE, 1) -> ty_width reg_t = UCREG_SIZE ->
   ty_width region_t = usable).
Proof.
  intros Hens Hreg Hu Hg Hav available usable count region_t.
  pose proof (ensure_types_end h s0 _ s1 Hens) as Hframe.
  pose proof (only_registers_end _ _ Hframe) as Hend.
  destruct (registered_lookup s1 Hreg) as (p & hd & r & g & Hp & Hh & Hr & Hg').
  rewrite Hg in Hg'. injection Hg' as <-.
  assert (Hsz : ucode_sizing (bv_end s0) (base + UCREG_OFF) = (usable, count))
    by apply ucode_sizing_unfold.
  pose proof (ucode_sizing_floor (bv_end s0) (base + UCREG_OFF) Hav)
    as (_ & _ & A1 & A2 & A3 & A4 & A5).
  rewrite Hsz in A1, A2, A3, A4, A5. cbn [fst snd] in A1, A2, A3, A4, A5.
  fold available in A4, A5.
  split; [exact Hsz|]. split; [exact A1|]. split; [exact A2|].
  split; [exact A3|]. split; [exact A4|]. split; [exact A5|].
  assert (Hlt : base + UCREG_OFF < bv_end s1) by (rewrite Hend; lia).
  assert (Hsz1 : ucode_sizing (bv_end s1) (base + UCREG_OFF) = (usable, count))
    by (by rewrite Hend).
  subst region_t.
  destruct (Z.eqb_spec usable UCREG_SIZE) as [Hfull|Hne].
  - assert (Hfull1 : fst (ucode_sizing (bv_end s1) (base + UCREG_OFF)) = UCREG_SIZE)
      by (by rewrite Hsz1).
    rewrite (apply_view_full h base s0 s1 p hd r reg_t Hens Hreg Hp Hh Hr Hg Hlt Hfull1).
    cbn [fst snd].
    destruct (trace_since_applied base p hd r (Some reg_t) s0 s1
                (full_events h base p hd r reg_t s1) Hframe) as (regs & Hregs & _ & ->).
    destruct (registration_events_silent regs Hregs) as (R1 & R2 & _ & _).
    split; [done|].
    split; [by rewrite last_app, full_events_last, Hsz1|].
    split; [unfold applied_view, region_var; cbn [bv_vars]; apply lookup_insert_eq|].
    split.
    { unfold defined_vars in *. rewrite flat_map_app, R1.
      fold (defined_vars (full_events h base p hd r reg_t s1)).
      by rewrite full_events_vars. }
    split.
    { unfold parsed_sources in *. rewrite flat_map_app, R2.
      fold (parsed_sources (full_events h base p hd r reg_t s1)).
      by rewrite full_events_parsed. }
    intros _ Hw. by rewrite Hw.
  - assert (Hne1 : fst (ucode_sizing (bv_end s1) (base + UCREG_OFF)) <> UCREG_SIZE)
      by (by rewrite Hsz1).
    rewrite (apply_view_truncated h base s0 s1 p hd r reg_t Hens Hreg Hp Hh Hr Hg
               uop Hlt Hne1 Hu).
    cbn [fst snd].
    destruct (trace_since_applied base p hd r
                (Some (auto_region_type uop
                         (snd (ucode_sizing (bv_end s1) (base + UCREG_OFF)))))
                s0 s1 (truncated_events h base p hd r uop s1) Hframe)
      as (regs & Hregs & _ & ->).
    destruct (registration_events_silent regs Hregs) as (R1 & R2 & _ & _).
    split; [done|].
    split; [by rewrite last_app, truncated_events_last, Hsz1|].
    split.
    { unfold applied_view, region_var. cbn [bv_vars]. rewrite Hsz1.
      apply lookup_insert_eq. }
    split.
    { unfold defined_vars in *. rewrite flat_map_app, R1.
      fold (defined_vars (truncated_events h base p hd r uop s1)).
      by rewrite truncated_events_vars, Hsz1. }
    split.
    { unfold parsed_sources in *. rewrite flat_map_app, R2.
      fold (parsed_sources (truncated_events h base p hd r uop s1)).
      by rewrite truncated_events_parsed, Hsz1. }
    intros Hl _. rewrite (auto_region_type_width _ _ Hl).
    unfold UOP_SIZE. lia.
Qed.

Lemma region_sizing_floor_witness :
  0 < bv_end (image 0 0x723) - (0 + UCREG_OFF) /\
  ucode_sizing (bv_end (image 0 0x723)) (0 + UCREG_OFF) = (0x400, 0x100) /\
  (apply_layout_at host_modern 0 (image 0 0x723)).1 = Ok tt /\
  last (trace_since (image 0 0x723) (apply_layout_at host_modern 0 (image 0 0x723)).2)
  = Some (EvLog Info (applied_msg 0 0x100)) /\
  parsed_sources
    (trace_since (image 0 0x723) (apply_layout_at host_modern 0 (image 0 0x723)).2)
  = [type_str 0x100].
Proof.
  assert (H1 : _ensure_types host_modern (image 0 0x723)
               = (Ok tt, (_ensure_types host_modern (image 0 0x723)).2))
    by (vm_compute; reflexivity).
  assert (H2 : registered (_ensure_types host_modern (image 0 0x723)).2 = true)
    by (vm_compute; reflexivity).
  assert (H3 : bv_types (_ensure_types host_modern (image 0 0x723)).2 !! T_UOP
               = Some (uop_struct (TNamed T_ENUM (TEnum 1 false ZEN_OPCODE_ENUM))
                         (TInt 1 false) (TInt 2 false)))
    by (vm_compute; reflexivity).
  assert (H4 : bv_types (_ensure_types host_modern (image 0 0x723)).2 !! T_REG
               = Some (region_struct
                         (uop_struct (TNamed T_ENUM (TEnum 1 false ZEN_OPCODE_ENUM))
                            (TInt 1 false) (TInt 2 false))))
    by (vm_compute; reflexivity).
  assert (H5 : 0 < bv_end (image 0 0x723) - (0 + UCREG_OFF))
    by (vm_compute; reflexivity).
  destruct (region_sizing_floor host_modern 0 _ _ _ _ H1 H2 H3 H4 H5)
    as (Hsz & _ & _ & _ & _ & _ & Hok & Hlast & _ & _ & Hparsed & _).
  exact (conj H5 (conj Hsz (conj Hok (conj Hlast Hparsed)))).
Defined.

(* ===================================================================== *)
(** ** The integer and structure helpers                                  *)
(* ===================================================================== *)

(** X1: when [_uint width] returns, the result is an integer type of
    exactly [width] bytes; it is unsigned unless both call shapes with an
    explicit signedness raised [TypeError], in which case it has the
    signedness [Type.int(width)] gives by default.  The first shape that
    works decides: where [Type.int(width, False)] works, the others are
    not consulted. *)
Theorem uint_returns_width (h : Host) (width : Z) (t : Ty) :
  _uint h width = Ok t ->
  ty_width t = width /\
  (int_width_bool h width = Works -> t = TInt width false) /\
  (t = TInt width false \/
   exists e1 e2,
     int_width_bool h width = Fails e1 /\ is_TypeError e1 = true /\
     int_width_zero h width = Fails e2 /\ is_TypeError e2 = true /\
     int_width_only h width = Works /\
     t = TInt width (int_default_signed h)).
Proof.
  unfold _uint, Type_int_bool, Type_int_zero, Type_int_only.
  destruct (int_width_bool h width) as [|e1]; cbn [outcome_res].
  { intros [= <-]. repeat split; auto. }
  destruct (is_TypeError e1) eqn:T1; cbn [negb]; [|discriminate].
  destruct (int_width_zero h width) as [|e2]; cbn [outcome_res].
  { intros [= <-]. repeat split; auto. }
  destruct (is_TypeError e2) eqn:T2; cbn [negb]; [|discriminate].
  destruct (int_width_only h width) as [|e3]; cbn [outcome_res]; [|discriminate].
  intros [= <-]. split; [reflexivity|]. split; [discriminate|].
  right. exists e1, e2. auto 10.
Qed.

Lemma uint_returns_width_witness :
  _uint host_no_enum 2 = Ok (TInt 2 false) /\ ty_width (TInt 2 false) = 2.
Proof.
  assert (H : _uint host_no_enum 2 = Ok (TInt 2 false)) by reflexivity.
  exact (conj H (proj1 (uint_returns_width host_no_enum 2 _ H))).
Defined.

(** X2: an exception of [_uint] is one of three: the exception of
    [Type.int(width, False)] when that is no [TypeError]; after a
    [TypeError] there, the exception of [Type.int(width, 0)] when that is
    no [TypeError]; after two [TypeError]s, a [RuntimeError] whose message
    is "Cannot construct Type.int(<width>): " followed by the message of
    whatever [Type.int(width)] raised.  So only a [TypeError] makes the
    helper try the next call shape. *)
Theorem uint_raises_which (h : Host) (width : Z) (e : Exn) :
  _uint h width = Raise e ->
  (int_width_bool h width = Fails e /\ is_TypeError e = false) \/
  (exists e1,
     int_width_bool h width = Fails e1 /\ is_TypeError e1 = true /\
     int_width_zero h width = Fails e /\ is_TypeError e = false) \/
  (exists e1 e2 e3,
     int_width_bool h width = Fails e1 /\ is_TypeError e1 = true /\
     int_width_zero h width = Fails e2 /\ is_TypeError e2 = true /\
     int_width_only h width = Fails e3 /\
     e = mkExn RuntimeError
           ("Cannot construct Type.int(" +:+ py_str width +:+ "): " +:+ exn_msg e3)).
Proof.
  unfold _uint, Type_int_bool, Type_int_zero, Type_int_only.
  destruct (int_width_bool h width) as [|e1]; cbn [outcome_res]; [discriminate|].
  destruct (is_TypeError e1) eqn:T1; cbn [negb].
  2:{ intros [= <-]. by left. }
  destruct (int_width_zero h width) as [|e2]; cbn [outcome_res]; [discriminate|].
  destruct (is_TypeError e2) eqn:T2; cbn [negb].
  2:{ intros [= <-]. right. left. by exists e1. }
  destruct (int_width_only h width) as [|e3]; cbn [outcome_res]; [discriminate|].
  intros [= <-]. right. right. by exists e1, e2, e3.
Qed.

Lemma uint_raises_which_witness :
  _uint host_no_int 1
  = Raise (mkExn RuntimeError "Cannot construct Type.int(1): no int") /\
  int_width_only host_no_int 1 = Fails (host_exn "no int").
Proof.
  assert (H : _uint host_no_int 1
              = Raise (mkExn RuntimeError "Cannot construct Type.int(1): no int"))
    by reflexivity.
  destruct (uint_raises_which host_no_int 1 _ H)
    as [[H1 _]|[(e1 & _ & _ & H2 & _)|(e1 & e2 & e3 & _ & _ & _ & _ & H3 & _)]];
    [discriminate H1|discriminate H2|].
  split; [exact H|reflexivity].
Defined.

(** X3: what [_type_structure] returns is the structure of the builder, its
    packing flag and its fields in order, and it returns whenever one of
    the two constructors works on the builder.  What it raises is never the
    exception of [Type.structure]: that one is swallowed, and the error is
    the one of [Type.structure_type] or, where that attribute is missing,
    the fixed [RuntimeError], also on a build that does have a (failing)
    [Type.structure]. *)
Theorem type_structure_outcome (h : Host) (sb : StructureBuilder) :
  let first_works :=
    match type_structure h with Some f => works (f sb) | None => false end in
  let second_works :=
    match type_structure_type h with Some g => works (g sb) | None => false end in
  match _type_structure h sb with
  | Ok t =>
      t = TStruct (sb_packed sb) (sb_fields sb) /\
      first_works || second_works = true
  | Raise e =>
      first_works = false /\
      match type_structure_type h with
      | Some g => g sb = Fails e
      | None => e = mkExn RuntimeError no_structure_msg
      end
  end.
Proof.
  unfold _type_structure.
  destruct (type_structure h) as [f|], (type_structure_type h) as [g|];
    try destruct (f sb); try destruct (g sb); cbn; auto.
Qed.

(* ===================================================================== *)
(** ** The enumeration                                                    *)
(* ===================================================================== *)

Lemma enum_append_all_spec h eb items :
  enum_append_all h eb items
  = if forallb (fun kv => works (enum_append h kv.1 kv.2)) items
    then Some (mkEB (eb_width eb) (eb_signed eb) (eb_members eb ++ items))
    else None.
Proof.
  revert eb. induction items as [|[k v] items IH]; intros eb;
    cbn [enum_append_all forallb fst snd].
  - rewrite app_nil_r. by destruct eb.
  - destruct (enum_append h k v); cbn [works andb]; [|done].
    rewrite IH. cbn [eb_width eb_signed eb_members].
    by rewrite <- app_assoc.
Qed.

(** X4: [_make_enum_type_best_effort] gives [None] exactly when the host
    lacks one of: a builder from [create()] or from the constructor, a
    working [append] for every entry of the table, and a working
    conversion ([Type.enumeration], or [Type.enumeration_type] in one of
    its three call shapes).  Failing to set the width or the signedness
    never causes the fallback. *)
Theorem enum_none_iff_unsupported (h : Host) :
  _make_enum_type_best_effort h = None <-> enum_supported h = false.
Proof.
  unfold _make_enum_type_best_effort, enum_supported.
  set (fresh := mkEB (enum_default_width h) (enum_default_signed h) []).
  destruct (enum_builder_create h) as [|c1]; cbn [works orb].
  2: destruct (enum_builder_construct h) as [|c2]; cbn [works orb andb]; [|done].
  all: rewrite enum_append_all_spec;
    destruct (forallb _ ZEN_OPCODE_ENUM); cbn [andb]; [|done];
    destruct (type_enumeration h) as [[|?]|]; cbn [works orb]; try done;
    destruct (type_enumeration_type h) as [[[[|?] [|?]] [|?]]|];
    cbn [works orb]; done.
Qed.

(** X5: a type returned by [_make_enum_type_best_effort] is an enumeration
    with exactly the eight members of [ZEN_OPCODE_ENUM], in the order of
    the table; it is one byte wide where [eb.width = 1] took effect or a
    conversion with an explicit width produced it, and unsigned where the
    builder has a [signed] attribute that could be cleared; otherwise width
    and signedness are the builder's defaults. *)
Theorem enum_members_complete (h : Host) (t : Ty) :
  _make_enum_type_best_effort h = Some t ->
  exists w sg,
    t = TEnum w sg ZEN_OPCODE_ENUM /\
    (enum_set_width h = Works -> w = 1) /\
    (w = 1 \/ w = enum_default_width h) /\
    (enum_has_signed h = true -> enum_set_signed h = Works -> sg = false).
Proof.
  unfold _make_enum_type_best_effort.
  set (fresh := mkEB (enum_default_width h) (enum_default_signed h) []).
  assert (Hgo : forall eb0 : EnumerationBuilder,
    eb_members eb0 = [] -> eb_width eb0 = enum_default_width h ->
    match
      enum_append_all h
        (if enum_has_signed h
         then match enum_set_signed h with
              | Works =>
                  mkEB (eb_width match enum_set_width h with
                                 | Works => mkEB 1 (eb_signed eb0) (eb_members eb0)
                                 | Fails _ => eb0
                                 end) false
                       (eb_members match enum_set_width h with
                                   | Works => mkEB 1 (eb_signed eb0) (eb_members eb0)
                                   | Fails _ => eb0
                                   end)
              | Fails _ =>
                  match enum_set_width h with
                  | Works => mkEB 1 (eb_signed eb0) (eb_members eb0)
                  | Fails _ => eb0
                  end
              end
         else match enum_set_width h with
              | Works => mkEB 1 (eb_signed eb0) (eb_members eb0)
              | Fails _ => eb0
              end) ZEN_OPCODE_ENUM
    with
    | Some eb =>
        match type_enumeration h with
        | Some Works => Some (enum_type (eb_width eb) eb)
        | _ =>
            match type_enumeration_type h with
            | Some (width_first, width_last, no_width) =>
                match width_first with
                | Works => Some (enum_type 1 eb)
                | Fails _ =>
                    match width_last with
                    | Works => Some (enum_type 1 eb)
                    | Fails _ =>
                        match no_width with
                        | Works => Some (enum_type (eb_width eb) eb)
                        | Fails _ => None
                        end
                    end
                end
            | None => None
            end
        end
    | None => None
    end = Some t ->
    exists w sg,
      t = TEnum w sg ZEN_OPCODE_ENUM /\
      (enum_set_width h = Works -> w = 1) /\
      (w = 1 \/ w = enum_default_width h) /\
      (enum_has_signed h = true -> enum_set_signed h = Works -> sg = false)).
  { intros eb0 Hm Hw. rewrite enum_append_all_spec.
    destruct (forallb _ ZEN_OPCODE_ENUM); [|discriminate].
    unfold enum_type. cbn [eb_width eb_signed eb_members].
    destruct (enum_has_signed h), (enum_set_signed h), (enum_set_width h);
      cbn [eb_width eb_signed eb_members]; rewrite ?Hm, ?Hw;
      (destruct (type_enumeration h) as [[|?]|];
       [intros [= <-]| |];
       try (destruct (type_enumeration_type h) as [[[[|?] [|?]] [|?]]|];
            intros [= <-]));
      eexists _, _; (split; [reflexivity|]);
      (split; [try done|]); (split; [auto; try done|]); try done;
      auto. }
  destruct (enum_builder_create h); [by apply (Hgo fresh)|].
  destruct (enum_builder_construct h); [by apply (Hgo fresh)|discriminate].
Qed.

Lemma enum_members_complete_witness :
  _make_enum_type_best_effort host_modern = Some (TEnum 1 false ZEN_OPCODE_ENUM) /\
  exists w sg, TEnum 1 false ZEN_OPCODE_ENUM = TEnum w sg ZEN_OPCODE_ENUM /\ w = 1.
Proof.
  assert (H : _make_enum_type_best_effort host_modern
              = Some (TEnum 1 false ZEN_OPCODE_ENUM)) by reflexivity.
  destruct (enum_members_complete host_modern _ H) as (w & sg & Ht & Hw & _).
  exact (conj H (ex_intro _ w (ex_intro _ sg (conj Ht (Hw eq_refl))))).
Defined.

(** X6: the table [ZEN_OPCODE_ENUM] has pairwise distinct names and
    pairwise distinct values, every value fits the one byte the enumeration
    is given, and the values are closed under the complement within a byte:
    0x21, 0x41 and 0x5F are the complements of 0xDE, 0xBE and 0xA0, as the
    comments say, and 0x00 and 0xFF are each other's. *)
Theorem opcode_table_closed_under_complement :
  List.NoDup (map fst ZEN_OPCODE_ENUM) /\
  List.NoDup (map snd ZEN_OPCODE_ENUM) /\
  Forall (fun kv => 0 <= kv.2 < 256) ZEN_OPCODE_ENUM /\
  Forall (fun kv => In (byte_complement kv.2) (map snd ZEN_OPCODE_ENUM))
    ZEN_OPCODE_ENUM /\
  map byte_complement [0xDE; 0xBE; 0xA0] = [0x21; 0x41; 0x5F].
Proof.
  assert (Hnodup : forall (A : Type) (l : list A),
            (fix distinct (l : list A) : Prop :=
               match l with
               | [] => True
               | x :: l' => ~ In x l' /\ distinct l'
               end) l -> List.NoDup l).
  { intros A l. induction l as [|x l IH]; [constructor|].
    intros [Hx Hl]. constructor; auto. }
  split.
  { apply Hnodup. cbn. repeat split; try exact I;
      intros H; repeat (destruct H as [H|H]; [discriminate H|]); exact H. }
  split.
  { apply Hnodup. cbn. repeat split; try exact I;
      intros H; repeat (destruct H as [H|H]; [discriminate H|]); exact H. }
  split.
  { unfold ZEN_OPCODE_ENUM.
    repeat (apply List.Forall_cons; [cbn; lia|]). apply List.Forall_nil. }
  split; [|reflexivity].
  unfold ZEN_OPCODE_ENUM.
  repeat (apply List.Forall_cons; [vm_compute; tauto|]). apply List.Forall_nil.
Qed.

(* ===================================================================== *)
(** ** Defining one variable, and the size check                          *)
(* ===================================================================== *)

Lemma define_var_post_image_data a t sym c s :
  bv_start (define_var_post a t sym c s) = bv_start s /\
  bv_data (define_var_post a t sym c s) = bv_data s.
Proof. unfold define_var_post. by destruct (str_truthy sym), (str_truthy c). Qed.

(** X7: [_define_var] never raises, whether or not there was a variable at
    the address and whatever the host does when asked to undefine where
    there is none.  Afterwards the address holds the given type and every
    other address what it held; the symbol and the comment at the address
    are replaced when given and non-empty and kept otherwise; types and
    image are untouched; and the host saw the undefine before the define,
    then the symbol, then the comment. *)
Theorem define_var_effect (h : Host) (addr : Z) (t : Ty)
    (sym comment : option string) (s : BinaryView) :
  (_define_var h addr t sym comment s).1 = Ok tt /\
  bv_vars (_define_var h addr t sym comment s).2 !! addr = Some t /\
  (forall a, a <> addr ->
     bv_vars (_define_var h addr t sym comment s).2 !! a = bv_vars s !! a) /\
  bv_symbols (_define_var h addr t sym comment s).2
  = match sym with
    | Some (String c x) => <[addr := String c x]> (bv_symbols s)
    | _ => bv_symbols s
    end /\
  bv_comments (_define_var h addr t sym comment s).2
  = match comment with
    | Some (String c x) => <[addr := String c x]> (bv_comments s)
    | _ => bv_comments s
    end /\
  bv_types (_define_var h addr t sym comment s).2 = bv_types s /\
  bv_end (_define_var h addr t sym comment s).2 = bv_end s /\
  trace_since s (_define_var h addr t sym comment s).2
  = [EvUndefineVar addr; EvDefineVar addr t]
    ++ match sym with Some (String c x) => [EvDefineSymbol addr (String c x)] | _ => [] end
    ++ match comment with Some (String c x) => [EvSetComment addr (String c x)] | _ => [] end.
Proof.
  rewrite define_var_run. cbn [fst snd].
  split; [done|].
  split; [by rewrite define_var_post_vars, lookup_insert_eq|].
  split; [intros a Ha; by rewrite define_var_post_vars, lookup_insert_ne|].
  split; [rewrite define_var_post_symbols; by destruct sym as [[|]|]|].
  split; [rewrite define_var_post_comments; by destruct comment as [[|]|]|].
  split; [apply define_var_post_types|].
  split; [apply define_var_post_end|].
  apply trace_since_app. rewrite define_var_post_trace. unfold define_var_events.
  by destruct sym as [[|]|], comment as [[|]|].
Qed.

(** X8: two [_define_var] calls at one address compose to the second as far
    as the variable goes: the first type leaves no trace in the variables.
    The symbol and the comment of the first call survive where the second
    call gives none, so a label can outlive the variable it was attached
    with.  Calling twice with the same arguments leaves the view of one
    call. *)
Theorem define_var_twice (h : Host) (addr : Z) (t1 t2 : Ty)
    (sym1 comment1 sym2 comment2 : option string) (s : BinaryView) :
  let s1 := (_define_var h addr t1 sym1 comment1 s).2 in
  let s2 := (_define_var h addr t2 sym2 comment2 s1).2 in
  bv_vars s2 = <[addr := t2]> (bv_vars s) /\
  bv_symbols s2 !! addr
  = match str_truthy sym2 with
    | Some x => Some x
    | None => bv_symbols s1 !! addr
    end /\
  bv_comments s2 !! addr
  = match str_truthy comment2 with
    | Some x => Some x
    | None => bv_comments s1 !! addr
    end /\
  (t1 = t2 -> sym1 = sym2 -> comment1 = comment2 -> same_view s1 s2).
Proof.
  intros s1 s2. subst s1 s2. rewrite !define_var_run. cbn [snd].
  split; [by rewrite !define_var_post_vars, insert_insert_eq|].
  split.
  { rewrite (define_var_post_symbols addr t2).
    destruct (str_truthy sym2); [apply lookup_insert_eq|done]. }
  split.
  { rewrite (define_var_post_comments addr t2).
    destruct (str_truthy comment2); [apply lookup_insert_eq|done]. }
  intros <- <- <-.
  destruct (define_var_post_image_data addr t1 sym1 comment1 s) as [I1 I2].
  destruct (define_var_post_image_data addr t1 sym1 comment1
              (define_var_post addr t1 sym1 comment1 s)) as [J1 J2].
  unfold same_view.
  rewrite J1, J2, !define_var_post_types, !define_var_post_vars,
    !define_var_post_symbols, !define_var_post_comments.
  repeat split.
  - apply insert_insert_eq.
  - destruct (str_truthy sym1); [apply insert_insert_eq|done].
  - destruct (str_truthy comment1); [apply insert_insert_eq|done].
Qed.

Lemma image_read_length (s : BinaryView) (addr len : Z) :
  0 <= len ->
  Z.of_nat (length (image_read s addr len))
  = if (addr <? bv_start s) || (bv_end s <=? addr) then 0
    else Z.min len (bv_end s - addr).
Proof.
  intros Hlen. unfold image_read.
  destruct ((addr <? bv_start s) || (bv_end s <=? addr)) eqn:E; [reflexivity|].
  apply orb_false_elim in E as [E1 E2].
  apply Z.ltb_ge in E1. apply Z.leb_gt in E2. unfold bv_end in *.
  rewrite length_take, length_drop. lia.
Qed.

(** X9: [_check_size] never raises and changes nothing in the view, also
    when the read itself raises.  It asks the host for [PATCH_SIZE] bytes at
    the base once, and warns exactly when the read returned and fewer than
    [PATCH_SIZE] bytes lie between the base and the end of the image; the
    number it reports is that distance, or 0 for a base outside the image. *)
Theorem check_size_effect (h : Host) (base : Z) (s : BinaryView) :
  let inside := (bv_start s <=? base) && (base <? bv_end s) in
  let got := if inside then Z.min PATCH_SIZE (bv_end s - base) else 0 in
  (_check_size h base s).1 = Ok tt /\
  same_view s (_check_size h base s).2 /\
  trace_since s (_check_size h base s).2
  = EvRead base PATCH_SIZE ::
    (if works (read_outcome h) && negb (inside && (PATCH_SIZE <=? bv_end s - base))
     then [EvLog Warn (short_read_msg got base)] else []) /\
  (inside = true -> (got <? PATCH_SIZE) = true -> got = bv_end s - base).
Proof.
  intros inside got. rewrite check_size_run. cbn [fst snd].
  split; [reflexivity|]. split; [apply check_size_post_same|].
  split.
  - apply trace_since_app. rewrite check_size_post_trace.
    unfold check_size_events. f_equal.
    destruct (read_outcome h); [|reflexivity]. cbn [works andb].
    rewrite image_read_length by done.
    assert (Hin : (base <? bv_start s) || (bv_end s <=? base) = negb inside).
    { subst inside. rewrite negb_andb, <- Z.ltb_antisym, <- Z.leb_antisym. done. }
    rewrite Hin. subst got.
    destruct inside; cbn [negb andb]; [|reflexivity].
    rewrite Z.leb_antisym.
    replace (bv_end s - base <? PATCH_SIZE)
      with (Z.min PATCH_SIZE (bv_end s - base) <? PATCH_SIZE); [|].
    + by destruct (_ <? PATCH_SIZE).
    + destruct (Z.ltb_spec (bv_end s - base) PATCH_SIZE);
        [apply Z.ltb_lt|apply Z.ltb_ge]; lia.
  - subst got. intros ->. intros H%Z.ltb_lt. lia.
Qed.

(** X10: the comparison [ucode_size == UCREG_SIZE] that selects the
    registered region type holds exactly when at least [UCREG_SIZE] bytes
    are available, which is also exactly when the record count is
    [UOP_COUNT]; the count never exceeds [UOP_COUNT], depends only on the
    distance between region start and image end, and does not shrink when
    the image grows. *)
Theorem sizing_threshold (file_end reg_base : Z) :
  (fst (ucode_sizing file_end reg_base) = UCREG_SIZE
     <-> UCREG_SIZE <= file_end - reg_base) /\
  (snd (ucode_sizing file_end reg_base) = UOP_COUNT
     <-> UCREG_SIZE <= file_end - reg_base) /\
  snd (ucode_sizing file_end reg_base) <= UOP_COUNT /\
  fst (ucode_sizing file_end reg_base) <= file_end - reg_base /\
  (forall d, ucode_sizing (file_end + d) (reg_base + d)
             = ucode_sizing file_end reg_base) /\
  (forall file_end', file_end <= file_end' ->
     snd (ucode_sizing file_end reg_base) <= snd (ucode_sizing file_end' reg_base)).
Proof.
  unfold ucode_sizing. cbn [fst snd].
  change UCREG_SIZE with 13568. change UOP_SIZE with 4. change UOP_COUNT with 3392.
  set (av := file_end - reg_base).
  assert (Hfl : forall x, (x - x mod 4) / 4 = x / 4).
  { intros x. pose proof (Z.div_mod x 4 ltac:(lia)) as Hx.
    replace (x - x mod 4) with (x / 4 * 4) by lia. apply Z.div_mul. lia. }
  assert (Hmod : forall x, 0 <= x mod 4 < 4) by (intros; apply Z.mod_pos_bound; lia).
  assert (Hdm : forall x, x = 4 * (x / 4) + x mod 4) by (intros; apply Z.div_mod; lia).
  rewrite !Hfl.
  pose proof (Hmod (Z.min av 13568)) as Hm. pose proof (Hdm (Z.min av 13568)) as Hd.
  split; [|split; [|split; [|split; [|split]]]].
  - split; intros H.
    + lia.
    + rewrite Z.min_r by lia. reflexivity.
  - split; intros H.
    + lia.
    + rewrite Z.min_r by lia. reflexivity.
  - lia.
  - lia.
  - intros d. replace (file_end + d - (reg_base + d)) with av by lia.
    by rewrite Hfl.
  - intros fe' Hle. rewrite !Hfl. apply Z.div_le_mono; lia.
Qed.

(** X11: the declaration text built for a truncated region has the shape
    [struct S { T f[N]; };] with the record type's name and the count [N]
    in decimal, so that it reads back as that count, and two counts give
    the same text only when they are equal. *)
Theorem type_str_round_trip (n : Z) :
  0 <= n ->
  parse_struct_decl (type_str n)
  = Some ("AMD_Zen_MicrocodeRegion_auto", T_UOP, "uops", n) /\
  (forall m, 0 <= m -> type_str m = type_str n -> m = n).
Proof.
  intros Hn. split; [by apply parse_type_str|].
  intros m Hm E.
  pose proof (parse_type_str m Hm) as Pm.
  rewrite E, parse_type_str in Pm by done. congruence.
Qed.

Lemma type_str_round_trip_witness :
  0 <= 0x100 /\
  parse_struct_decl (type_str 0x100)
  = Some ("AMD_Zen_MicrocodeRegion_auto", T_UOP, "uops", 0x100).
Proof.
  assert (H : 0 <= 0x100) by lia.
  exact (conj H (proj1 (type_str_round_trip 0x100 H))).
Defined.

(* ===================================================================== *)
(** ** What a call leaves alone                                           *)
(* ===================================================================== *)

Lemma leaves_ret {A} (a : A) : leaves_other_types (ret a).
Proof. by intros s name _. Qed.

Lemma leaves_lift {A} (r : Res A) : leaves_other_types (lift r).
Proof. by intros s name _. Qed.

Lemma leaves_bind {A B} (m : M A) (k : A -> M B) :
  leaves_other_types m -> (forall a, leaves_other_types (k a)) ->
  leaves_other_types (bind m k).
Proof.
  intros Hm Hk s name Hn. specialize (Hm s name Hn). rewrite bind_run.
  destruct (m s) as [[a|e] s']; cbn [snd] in *; [|done].
  by rewrite (Hk a s' name Hn).
Qed.

Lemma leaves_get_type_by_name name : leaves_other_types (get_type_by_name name).
Proof. by intros s n _. Qed.

Lemma leaves_log_info msg : leaves_other_types (log_info msg).
Proof. by intros s n _. Qed.

Lemma leaves_log_warn msg : leaves_other_types (log_warn msg).
Proof. by intros s n _. Qed.

Lemma leaves_append r name sb : leaves_other_types (append r name sb).
Proof. apply leaves_bind; [apply leaves_lift|intros; apply leaves_ret]. Qed.

Lemma leaves_define_user_type name t :
  In name managed_names -> leaves_other_types (define_user_type name t).
Proof.
  intros Hin s n Hn. unfold define_user_type. view_simpl.
  apply lookup_insert_ne. by intros ->.
Qed.

Ltac leaves_steps :=
  repeat match goal with
    | |- leaves_other_types (bind _ _) => apply leaves_bind; [|intros ?]
    | |- leaves_other_types (ret _) => apply leaves_ret
    | |- leaves_other_types (lift _) => apply leaves_lift
    | |- leaves_other_types (append _ _ _) => apply leaves_append
    | |- leaves_other_types (get_type_by_name _) => apply leaves_get_type_by_name
    | |- leaves_other_types (define_user_type _ _) =>
        apply leaves_define_user_type;
        unfold managed_names, structure_names; cbn [In]; auto 10
    | |- leaves_other_types (log_info _) => apply leaves_log_info
    | |- leaves_other_types (log_warn _) => apply leaves_log_warn
    | |- leaves_other_types (match ?x with _ => _ end) => destruct x
    | |- leaves_other_types _ => progress cbv zeta
    end.

Lemma ensure_types_leaves_others h : leaves_other_types (_ensure_types h).
Proof. unfold _ensure_types. leaves_steps. Qed.

(** The ways through [apply_layout_at] once registration has returned and
    the four looked-up types are there: the view is the canonical one, with
    or without a region variable, and the call has returned unless the
    parser could not resolve the record type. *)
Lemma apply_shape_ready h base s0 s1 p hd r g :
  _ensure_types h s0 = (Ok tt, s1) -> registered s1 = true ->
  bv_types s1 !! T_PATCH = Some p -> bv_types s1 !! T_HDR = Some hd ->
  bv_types s1 !! T_RAND = Some r -> bv_types s1 !! T_REG = Some g ->
  exists res region evs,
    apply_layout_at h base s0 = (res, applied_view base p hd r region s1 evs) /\
    defined_vars evs
    = [(base + 0, p); (base + HDR_OFF, hd); (base + RANDOM_OFF, r)]
      ++ match region with Some t => [(base + UCREG_OFF, t)] | None => [] end /\
    (res = Ok tt \/
     res = Raise parse_error /\ region = None /\ bv_types s1 !! T_UOP = None /\
     analysis_requests evs = []).
Proof.
  intros Hens Hreg Hp Hh Hr Hg.
  destruct (Z_lt_ge_dec (base + UCREG_OFF) (bv_end s1)) as [Hlt|Hge].
  - destruct (Z.eq_dec (fst (ucode_sizing (bv_end s1) (base + UCREG_OFF))) UCREG_SIZE)
      as [Hfull|Hne].
    + eexists _, _, _. split;
        [exact (apply_view_full h base s0 s1 p hd r g Hens Hreg Hp Hh Hr Hg Hlt Hfull)|].
      split; [apply full_events_vars|by left].
    + destruct (bv_types s1 !! T_UOP) as [uop|] eqn:Hu.
      * eexists _, _, _. split;
          [exact (apply_view_truncated h base s0 s1 p hd r g Hens Hreg Hp Hh Hr Hg
                    uop Hlt Hne Hu)|].
        split; [apply truncated_events_vars|by left].
      * exists (Raise parse_error), None. eexists. split.
        { rewrite (apply_run_unresolved h base s0 s1 p hd r g Hens Hreg Hp Hh Hr Hg
                     Hlt Hne Hu).
          by rewrite (three_regions_view h base s1 p hd r), emit_applied_view. }
        destruct (check_size_events_silent h base s1) as (C1 & _ & C3 & _).
        unfold defined_vars, analysis_requests in *.
        rewrite !flat_map_app, C1, C3. split; [reflexivity|].
        right. done.
  - eexists _, _, _. split;
      [exact (apply_view_early h base s0 s1 p hd r g Hens Hreg Hp Hh Hr Hg Hge)|].
    split; [by rewrite early_events_vars|by left].
Qed.

(** Every call ends in one of three ways: registration raised and so does
    the call; a looked-up type is missing and the call logs the error; or
    the view is the canonical one. *)
Lemma apply_shape h base s0 :
  (exists e s1, _ensure_types h s0 = (Raise e, s1) /\
                apply_layout_at h base s0 = (Raise e, s1))
  \/ (exists s1, _ensure_types h s0 = (Ok tt, s1) /\ registered s1 = false /\
        apply_layout_at h base s0
        = (Ok tt, emit (EvLog Error types_missing_msg) (check_size_post h base s1)))
  \/ (exists s1 p hd r res region evs,
        _ensure_types h s0 = (Ok tt, s1) /\ registered s1 = true /\
        apply_layout_at h base s0 = (res, applied_view base p hd r region s1 evs)).
Proof.
  destruct (_ensure_types h s0) as [[[]|e] s1] eqn:Hens.
  - destruct (registered s1) eqn:Hreg.
    + right. right.
      destruct (registered_lookup s1 Hreg) as (p & hd & r & g & Hp & Hh & Hr & Hg).
      destruct (apply_shape_ready h base s0 s1 p hd r g Hens Hreg Hp Hh Hr Hg)
        as (res & region & evs & Happ & _).
      by exists s1, p, hd, r, res, region, evs.
    + right. left. exists s1. split; [done|]. split; [done|].
      by apply apply_run_missing.
  - left. exists e, s1. split; [done|]. by apply apply_run_abort.
Qed.

(** X12: neither [_ensure_types] nor [apply_layout_at] touches a type name
    other than the six the plugin manages, on any host and whether the call
    returns or raises; and [apply_layout_at] leaves the registry exactly as
    its registration step left it, so that the rest of the call, the parsed
    declaration included, registers, replaces and removes nothing. *)
Theorem registry_frame (h : Host) (base : Z) :
  leaves_other_types (_ensure_types h) /\
  leaves_other_types (apply_layout_at h base) /\
  forall s, bv_types (apply_layout_at h base s).2 = bv_types (_ensure_types h s).2.
Proof.
  assert (Hsame : forall s,
    bv_types (apply_layout_at h base s).2 = bv_types (_ensure_types h s).2).
  { intros s.
    destruct (apply_shape h base s)
      as [(e & s1 & Hens & Happ)
         |[(s1 & Hens & Hreg & Happ)
          |(s1 & p & hd & r & res & region & evs & Hens & Hreg & Happ)]];
      rewrite Happ, Hens; cbn [snd]; [done| |done].
    by destruct (missing_post_same h base s1) as (_ & _ & -> & _). }
  split; [apply ensure_types_leaves_others|]. split; [|exact Hsame].
  intros s name Hn. rewrite Hsame. by apply ensure_types_leaves_others.
Qed.

(** X13: whatever the host and the view, and whether the call returns or
    raises, [apply_layout_at] leaves the image as it was, the variables and
    symbols at every address other than the base, the base plus 0x20 and
    the base plus 0x320, and the comment at every address other than the
    base. *)
Theorem apply_leaves_other_addresses (h : Host) (base : Z) (s0 : BinaryView) :
  bv_start (apply_layout_at h base s0).2 = bv_start s0 /\
  bv_data (apply_layout_at h base s0).2 = bv_data s0 /\
  (forall a, ~ In a (layout_addresses base) ->
     bv_vars (apply_layout_at h base s0).2 !! a = bv_vars s0 !! a /\
     bv_symbols (apply_layout_at h base s0).2 !! a = bv_symbols s0 !! a) /\
  (forall a, a <> base ->
     bv_comments (apply_layout_at h base s0).2 !! a = bv_comments s0 !! a).
Proof.
  destruct (apply_shape h base s0)
    as [(e & s1 & Hens & Happ)
       |[(s1 & Hens & Hreg & Happ)
        |(s1 & p & hd & r & res & region & evs & Hens & Hreg & Happ)]];
    rewrite Happ; cbn [snd];
    destruct (ensure_types_end h s0 _ s1 Hens) as (F1 & F2 & F3 & F4 & F5 & _).
  - rewrite F1, F2, F3, F4, F5. done.
  - destruct (missing_post_same h base s1) as (-> & -> & _ & -> & -> & ->).
    rewrite F1, F2, F3, F4, F5. done.
  - unfold applied_view.
    cbn [bv_start bv_data bv_vars bv_symbols bv_comments].
    rewrite F1, F2, F3, F4, F5.
    split; [done|]. split; [done|]. split.
    + intros a Ha. unfold layout_addresses in Ha. cbn [In] in Ha.
      change (base + RANDOM_OFF) with (base + 0x20) in Ha.
      assert (a <> base) by (intros E; apply Ha; auto).
      assert (a <> base + 0x20) by (intros E; apply Ha; auto).
      assert (a <> base + UCREG_OFF) by (intros E; apply Ha; auto).
      unfold region_var, region_symbol.
      destruct region; by rewrite ?lookup_insert_ne by done.
    + intros a Ha. by rewrite lookup_insert_ne.
Qed.

(** X14: in a call that gets past the type check, the container variable
    defined first at the base does not survive: the header is defined at
    the same address ([HDR_OFF] is 0), so the base ends up typed as the
    header and labelled [amd_mc_header], while the comment of the container
    stays; the random blocks follow at 0x20.  The trace still shows the
    container being defined first. *)
Theorem container_overlaid_by_header (h : Host) (base : Z) (s0 s1 : BinaryView)
    (patch_t hdr_t rand_t : Ty) :
  _ensure_types h s0 = (Ok tt, s1) ->
  registered s1 = true ->
  bv_types s1 !! T_PATCH = Some patch_t ->
  bv_types s1 !! T_HDR = Some hdr_t ->
  bv_types s1 !! T_RAND = Some rand_t ->
  let s' := (apply_layout_at h base s0).2 in
  bv_vars s' !! base = Some hdr_t /\
  bv_symbols s' !! base = Some "amd_mc_header" /\
  bv_comments s' !! base = Some "AMD microcode patch container" /\
  bv_vars s' !! (base + RANDOM_OFF) = Some rand_t /\
  bv_symbols s' !! (base + RANDOM_OFF) = Some "amd_mc_random_blocks" /\
  exists rest,
    defined_vars (trace_since s1 s')
    = (base + 0, patch_t) :: (base + HDR_OFF, hdr_t) :: (base + RANDOM_OFF, rand_t)
        :: rest.
Proof.
  intros Hens Hreg Hp Hh Hr s'. subst s'.
  destruct (registered_lookup s1 Hreg) as (p' & hd' & r' & g & Hp' & Hh' & Hr' & Hg).
  rewrite Hp in Hp'. rewrite Hh in Hh'. rewrite Hr in Hr'.
  injection Hp' as <-. injection Hh' as <-. injection Hr' as <-.
  destruct (apply_shape_ready h base s0 s1 patch_t hdr_t rand_t g
              Hens Hreg Hp Hh Hr Hg) as (res & region & evs & -> & Hv & _).
  cbn [snd]. rewrite trace_since_applied_self, Hv.
  unfold applied_view. cbn [bv_vars bv_symbols bv_comments].
  change (base + RANDOM_OFF) with (base + 0x20).
  assert (N1 : base + 0x20 <> base) by lia.
  assert (N2 : base + UCREG_OFF <> base) by (unfold UCREG_OFF; lia).
  assert (N3 : base + UCREG_OFF <> base + 0x20) by (unfold UCREG_OFF; lia).
  unfold region_var, region_symbol.
  split; [destruct region; rewrite ?(lookup_insert_ne _ _ _ _ N2),
            (lookup_insert_ne _ _ _ _ N1); apply lookup_insert_eq|].
  split; [destruct region; rewrite ?(lookup_insert_ne _ _ _ _ N2),
            (lookup_insert_ne _ _ _ _ N1); apply lookup_insert_eq|].
  split; [apply lookup_insert_eq|].
  split; [destruct region; rewrite ?(lookup_insert_ne _ _ _ _ N3);
            apply lookup_insert_eq|].
  split; [destruct region; rewrite ?(lookup_insert_ne _ _ _ _ N3);
            apply lookup_insert_eq|].
  eexists. reflexivity.
Qed.

Lemma container_overlaid_by_header_witness :
  bv_vars (apply_layout_at host_modern 0x1000 (image 0 0x1100)).2 !! 0x1000
  = Some (header_struct (TInt 1 false) (TInt 2 false) (TInt 4 false)) /\
  bv_symbols (apply_layout_at host_modern 0x1000 (image 0 0x1100)).2 !! 0x1000
  = Some "amd_mc_header".
Proof.
  assert (H1 : _ensure_types host_modern (image 0 0x1100)
               = (Ok tt, (_ensure_types host_modern (image 0 0x1100)).2))
    by (vm_compute; reflexivity).
  assert (H2 : registered (_ensure_types host_modern (image 0 0x1100)).2 = true)
    by (vm_compute; reflexivity).
  assert (H3 : bv_types (_ensure_types host_modern (image 0 0x1100)).2 !! T_PATCH
               = Some (patch_struct
                         (header_struct (TInt 1 false) (TInt 2 false) (TInt 4 false))
                         (TInt 1 false)))
    by (vm_compute; reflexivity).
  assert (H4 : bv_types (_ensure_types host_modern (image 0 0x1100)).2 !! T_HDR
               = Some (header_struct (TInt 1 false) (TInt 2 false) (TInt 4 false)))
    by (vm_compute; reflexivity).
  assert (H5 : bv_types (_ensure_types host_modern (image 0 0x1100)).2 !! T_RAND
               = Some (random_struct (TInt 1 false)))
    by (vm_compute; reflexivity).
  destruct (container_overlaid_by_header host_modern 0x1000 _ _ _ _ _ H1 H2 H3 H4 H5)
    as (V & S & _).
  exact (conj V S).
Defined.

(* ===================================================================== *)
(** ** The registered types refer to each other by name                   *)
(* ===================================================================== *)

Lemma enum_no_refs h e :
  _make_enum_type_best_effort h = Some e -> named_refs e = [].
Proof.
  unfold _make_enum_type_best_effort. intros H.
  repeat match type of H with
         | context [match ?x with _ => _ end] => destruct x
         end;
    try discriminate H; by injection H as <-.
Qed.

Lemma registered_view_enum h o t8 t16 t32 s e :
  _make_enum_type_best_effort h = Some e ->
  bv_types (registered_view h o t8 t16 t32 s) !! T_ENUM = Some e.
Proof.
  intros Hen. unfold registered_view, with_enum. cbn [bv_types]. rewrite Hen.
  rewrite !lookup_insert_ne by (by vm_compute). apply lookup_insert_eq.
Qed.

(** X15: after a registration pass that started without [T_PATCH] and
    returned, every reference by name inside one of the five registered
    structures carries the very type registered under that name, so no
    reference dangles or points at an older definition.  The region refers
    to the record type, the record type to the enumeration (when one was
    built) and the container to the header only: its body is a plain byte
    array that names neither the random blocks nor the region. *)
Theorem registered_references_resolve (h : Host) (s0 s1 : BinaryView) :
  bv_types s0 !! T_PATCH = None ->
  _ensure_types h s0 = (Ok tt, s1) ->
  (forall name t n t',
     In name structure_names -> bv_types s1 !! name = Some t ->
     In (n, t') (named_refs t) -> bv_types s1 !! n = Some t') /\
  exists uop reg hdr rand patch,
    bv_types s1 !! T_UOP = Some uop /\ bv_types s1 !! T_REG = Some reg /\
    bv_types s1 !! T_HDR = Some hdr /\ bv_types s1 !! T_RAND = Some rand /\
    bv_types s1 !! T_PATCH = Some patch /\
    named_refs patch = [(T_HDR, hdr)] /\
    named_refs hdr = [] /\ named_refs rand = [] /\
    named_refs reg = (T_UOP, uop) :: named_refs uop /\
    named_refs uop
    = match _make_enum_type_best_effort h with
      | Some e => [(T_ENUM, e)]
      | None => []
      end.
Proof.
  intros Habs Hens.
  destruct (ensure_types_fresh h s0 s1 Habs Hens)
    as (o & t8 & t16 & t32 & Hop & H8 & H16 & H32 & ->).
  destruct (registered_view_types h o t8 t16 t32 s0) as (Tu & Tg & Th & Tr & Tp).
  destruct (uint_shape h 1 t8 H8) as [s8 ->].
  destruct (uint_shape h 2 t16 H16) as [s16 ->].
  destruct (uint_shape h 4 t32 H32) as [s32 ->].
  set (uop := uop_struct o (TInt 1 s8) (TInt 2 s16)) in *.
  set (hdr := header_struct (TInt 1 s8) (TInt 2 s16) (TInt 4 s32)) in *.
  assert (Ruop : named_refs uop
                 = match _make_enum_type_best_effort h with
                   | Some e => [(T_ENUM, e)]
                   | None => []
                   end).
  { unfold opcode_field in Hop. subst uop.
    destruct (_make_enum_type_best_effort h) as [e|] eqn:Een.
    - injection Hop as <-. unfold uop_struct. cbn [named_refs app].
      by rewrite (enum_no_refs h e Een).
    - rewrite H8 in Hop. by injection Hop as <-. }
  assert (Rreg : named_refs (region_struct uop) = (T_UOP, uop) :: named_refs uop).
  { unfold region_struct. cbn [named_refs]. by rewrite app_nil_r. }
  assert (Rhdr : named_refs hdr = []) by reflexivity.
  assert (Rrand : named_refs (random_struct (TInt 1 s8)) = []) by reflexivity.
  assert (Rpatch : named_refs (patch_struct hdr (TInt 1 s8)) = [(T_HDR, hdr)]).
  { unfold patch_struct. cbn [named_refs app]. by rewrite Rhdr. }
  assert (Huop : forall n t', In (n, t') (named_refs uop) ->
            bv_types (registered_view h o (TInt 1 s8) (TInt 2 s16) (TInt 4 s32) s0) !! n
            = Some t').
  { intros n t'. rewrite Ruop.
    destruct (_make_enum_type_best_effort h) as [e|] eqn:Een; [|intros []].
    intros [[= <- <-]|[]]. by apply registered_view_enum. }
  split.
  - intros name t n t' Hname Ht Hin.
    unfold structure_names in Hname. cbn [In] in Hname.
    destruct Hname as [<-|[<-|[<-|[<-|[<-|[]]]]]].
    + rewrite Tu in Ht. injection Ht as <-. by apply Huop.
    + rewrite Tg in Ht. injection Ht as <-. rewrite Rreg in Hin.
      destruct Hin as [[= <- <-]|Hin]; [exact Tu|by apply Huop].
    + rewrite Th in Ht. injection Ht as <-. rewrite Rhdr in Hin. destruct Hin.
    + rewrite Tr in Ht. injection Ht as <-. rewrite Rrand in Hin. destruct Hin.
    + rewrite Tp in Ht. injection Ht as <-. rewrite Rpatch in Hin.
      destruct Hin as [[= <- <-]|[]]. exact Th.
  - exists uop, (region_struct uop), hdr, (random_struct (TInt 1 s8)),
      (patch_struct hdr (TInt 1 s8)).
    do 5 (split; [assumption|]).
    split; [exact Rpatch|]. split; [exact Rhdr|]. split; [exact Rrand|].
    split; [exact Rreg|exact Ruop].
Qed.

Lemma registered_references_resolve_witness :
  bv_types (image 0 0x3820) !! T_PATCH = None /\
  exists uop reg,
    bv_types (_ensure_types host_modern (image 0 0x3820)).2 !! T_REG = Some reg /\
    named_refs reg = (T_UOP, uop) :: named_refs uop.
Proof.
  assert (H0 : bv_types (image 0 0x3820) !! T_PATCH = None)
    by (vm_compute; reflexivity).
  assert (H1 : _ensure_types host_modern (image 0 0x3820)
               = (Ok tt, (_ensure_types host_modern (image 0 0x3820)).2))
    by (vm_compute; reflexivity).
  destruct (registered_references_resolve host_modern _ _ H0 H1)
    as (_ & uop & reg & hdr & rand & patch & _ & Tg & _ & _ & _ & _ & _ & _ & Rg & _).
  exact (conj H0 (ex_intro _ uop (ex_intro _ reg (conj Tg Rg)))).
Defined.

(* ===================================================================== *)
(** ** Registration depends on the host alone                             *)
(* ===================================================================== *)

(** X16: started without [T_PATCH], a registration pass gives the same
    result, registers the same types in the same order and logs the same
    lines on every view: whether it returns or raises is a property of the
    host.  A pass that raised has left [T_PATCH] unregistered, so the guard
    at the head of [_ensure_types] lets the next call try again, and that
    call raises the same exception. *)
Theorem registration_outcome_host_determined (h : Host) (s0 s : BinaryView) :
  bv_types s0 !! T_PATCH = None ->
  bv_types s !! T_PATCH = None ->
  (_ensure_types h s).1 = (_ensure_types h s0).1 /\
  trace_since s (_ensure_types h s).2 = trace_since s0 (_ensure_types h s0).2 /\
  (forall e, (_ensure_types h s0).1 = Raise e ->
     bv_types (_ensure_types h s0).2 !! T_PATCH = None /\
     (_ensure_types h (_ensure_types h s0).2).1 = Raise e /\
     same_view (_ensure_types h s0).2 (_ensure_types h (_ensure_types h s0).2).2).
Proof.
  intros Habs0 Habs.
  destruct (ensure_types_uniform h) as (r & regs & evs & Huni).
  rewrite (Huni s Habs), (Huni s0 Habs0). cbn [fst snd].
  split; [done|].
  split.
  { rewrite !(trace_since_app _ _ evs); done. }
  intros e ->.
  pose proof (ensure_types_raise_absent h s0 e _ (Huni s0 Habs0)) as Habs1.
  split; [exact Habs1|].
  rewrite (Huni _ Habs1). cbn [fst snd].
  split; [done|apply script_view_idem].
Qed.

Lemma registration_outcome_host_determined_witness :
  bv_types (image 0 0x3820) !! T_PATCH = None /\
  bv_types (image 0x1000 0x10) !! T_PATCH = None /\
  (_ensure_types host_broken_structure (image 0x1000 0x10)).1
  = (_ensure_types host_broken_structure (image 0 0x3820)).1.
Proof.
  assert (H0 : bv_types (image 0 0x3820) !! T_PATCH = None)
    by (vm_compute; reflexivity).
  assert (H1 : bv_types (image 0x1000 0x10) !! T_PATCH = None)
    by (vm_compute; reflexivity).
  exact (conj H0 (conj H1
           (proj1 (registration_outcome_host_determined host_broken_structure
                     _ _ H0 H1)))).
Defined.

(* ===================================================================== *)
(** ** Registries the plugin did not fill                                 *)
(* ===================================================================== *)

(** X17: the guard of [_ensure_types] looks at [T_PATCH] only.  On a view
    that has [T_PATCH] but lacks, or has with zero width, one of the other
    three looked-up types, [apply_layout_at] registers nothing to repair
    the registry: it returns normally, leaves types, variables, symbols and
    comments as they were, defines no variable and logs the one error line
    about missing types; this holds on every host. *)
Theorem stale_registry_not_repaired (h : Host) (base : Z) (s0 : BinaryView) :
  is_Some (bv_types s0 !! T_PATCH) ->
  registered s0 = false ->
  (apply_layout_at h base s0).1 = Ok tt /\
  same_view s0 (apply_layout_at h base s0).2 /\
  registered_types (trace_since s0 (apply_layout_at h base s0).2) = [] /\
  defined_vars (trace_since s0 (apply_layout_at h base s0).2) = [] /\
  error_lines (trace_since s0 (apply_layout_at h base s0).2) = [types_missing_msg].
Proof.
  intros Hpatch Hreg.
  pose proof (ensure_types_present h s0 Hpatch) as Hens.
  rewrite (apply_run_missing h base s0 s0 Hens Hreg). cbn [fst snd].
  split; [done|]. split; [apply missing_post_same|].
  rewrite (trace_since_app _ _ _ (missing_post_trace h base s0)).
  destruct (missing_events_proj h base s0) as (V & T & E). done.
Qed.

Lemma stale_registry_not_repaired_witness :
  is_Some (bv_types (image_patch_only 0 0x3820) !! T_PATCH) /\
  registered (image_patch_only 0 0x3820) = false /\
  defined_vars (trace_since (image_patch_only 0 0x3820)
                  (apply_layout_at host_modern 0 (image_patch_only 0 0x3820)).2) = [].
Proof.
  assert (H0 : is_Some (bv_types (image_patch_only 0 0x3820) !! T_PATCH))
    by (vm_compute; eauto).
  assert (H1 : registered (image_patch_only 0 0x3820) = false)
    by (vm_compute; reflexivity).
  destruct (stale_registry_not_repaired host_modern 0 _ H0 H1) as (_ & _ & _ & V & _).
  exact (conj H0 (conj H1 V)).
Defined.

(** X18: on a view with the four looked-up types but without the record
    type, a truncated region cannot be typed: the parser's exception for
    the unresolved name is not caught, so the call raises after the
    container, the header and the random blocks have been defined, with no
    variable at the region start beyond what was there, no request for
    re-analysis and no closing log line. *)
Theorem missing_record_type_raises (h : Host) (base : Z) (s0 : BinaryView) :
  is_Some (bv_types s0 !! T_PATCH) ->
  registered s0 = true ->
  bv_types s0 !! T_UOP = None ->
  base + UCREG_OFF < bv_end s0 < base + UCREG_OFF + UCREG_SIZE ->
  (apply_layout_at h base s0).1 = Raise parse_error /\
  map fst (defined_vars (trace_since s0 (apply_layout_at h base s0).2))
  = [base + 0; base + HDR_OFF; base + RANDOM_OFF] /\
  bv_vars (apply_layout_at h base s0).2 !! (base + UCREG_OFF)
  = bv_vars s0 !! (base + UCREG_OFF) /\
  analysis_requests (trace_since s0 (apply_layout_at h base s0).2) = [] /\
  last (trace_since s0 (apply_layout_at h base s0).2)
  = Some (EvParseTypeString
            (type_str (record_count (bv_end s0 - (base + UCREG_OFF))))).
Proof.
  intros Hpatch Hreg Hu [Hlt Hhi].
  pose proof (ensure_types_present h s0 Hpatch) as Hens.
  destruct (registered_lookup s0 Hreg) as (p & hd & r & g & Hp & Hh & Hr & Hg).
  assert (Hne : fst (ucode_sizing (bv_end s0) (base + UCREG_OFF)) <> UCREG_SIZE).
  { rewrite ucode_sizing_unfold. cbn [fst].
    unfold usable_region_bytes.
    destruct (floor_to_multiple_spec (Z.min (bv_end s0 - (base + UCREG_OFF)) UCREG_SIZE)
                UOP_SIZE) as (_ & _ & Hle & _); [reflexivity|]. lia. }
  rewrite (apply_run_unresolved h base s0 s0 p hd r g Hens Hreg Hp Hh Hr Hg Hlt Hne Hu).
  cbn [fst snd].
  rewrite (three_regions_view h base s0 p hd r), emit_applied_view.
  rewrite trace_since_applied_self.
  destruct (check_size_events_silent h base s0) as (C1 & _ & C3 & _).
  split; [done|]. split.
  { unfold defined_vars in *. by rewrite !flat_map_app, C1. }
  split.
  { unfold applied_view, region_var. cbn [bv_vars].
    rewrite !lookup_insert_ne by (unfold UCREG_OFF; lia). done. }
  split.
  { unfold analysis_requests in *. by rewrite !flat_map_app, C3. }
  rewrite last_snoc. by rewrite ucode_sizing_unfold.
Qed.

Lemma missing_record_type_raises_witness :
  is_Some (bv_types (image_without_uop 0 0x723) !! T_PATCH) /\
  registered (image_without_uop 0 0x723) = true /\
  bv_types (image_without_uop 0 0x723) !! T_UOP = None /\
  0 + UCREG_OFF < bv_end (image_without_uop 0 0x723) < 0 + UCREG_OFF + UCREG_SIZE /\
  (apply_layout_at host_modern 0 (image_without_uop 0 0x723)).1 = Raise parse_error.
Proof.
  assert (H0 : is_Some (bv_types (image_without_uop 0 0x723) !! T_PATCH))
    by (vm_compute; eauto).
  assert (H1 : registered (image_without_uop 0 0x723) = true)
    by (vm_compute; reflexivity).
  assert (H2 : bv_types (image_without_uop 0 0x723) !! T_UOP = None)
    by (vm_compute; reflexivity).
  assert (H3 : 0 + UCREG_OFF < bv_end (image_without_uop 0 0x723)
               < 0 + UCREG_OFF + UCREG_SIZE)
    by (vm_compute; split; reflexivity).
  exact (conj H0 (conj H1 (conj H2 (conj H3
           (proj1 (missing_record_type_raises host_modern 0 _ H0 H1 H2 H3)))))).
Defined.

(* ===================================================================== *)
(** ** The region variable and the end of the image                       *)
(* ===================================================================== *)

(** X19: where the record type is four bytes wide with byte alignment and
    the registered region type is 0x3500 bytes wide, a call that reaches
    the microcode region defines at the region start a variable whose width
    is the usable size of the sizing rule.  The variable therefore ends at
    or before the end of the image, and fewer than four bytes of the image
    are left behind it unless the region has its full size. *)
Theorem region_within_image (h : Host) (base : Z) (s0 s1 : BinaryView)
    (uop reg_t : Ty) :
  _ensure_types h s0 = (Ok tt, s1) ->
  registered s1 = true ->
  bv_types s1 !! T_UOP = Some uop ->
  bv_types s1 !! T_REG = Some reg_t ->
  ty_layout uop = (UOP_SIZE, 1) ->
  ty_width reg_t = UCREG_SIZE ->
  base + UCREG_OFF < bv_end s0 ->
  exists t,
    bv_vars (apply_layout_at h base s0).2 !! (base + UCREG_OFF) = Some t /\
    ty_width t = usable_region_bytes (bv_end s0 - (base + UCREG_OFF)) /\
    base + UCREG_OFF + ty_width t <= bv_end s0 /\
    (ty_width t = UCREG_SIZE \/ bv_end s0 < base + UCREG_OFF + ty_width t + UOP_SIZE).
Proof.
  intros Hens Hreg Hu Hg Hl Hw Hlt.
  pose proof (only_registers_end _ _ (ensure_types_end h s0 _ s1 Hens)) as Hend.
  rewrite <- Hend in *.
  destruct (registered_lookup s1 Hreg) as (p & hd & r & g & Hp & Hh & Hr & Hg').
  rewrite Hg in Hg'. injection Hg' as <-.
  set (av := bv_end s1 - (base + UCREG_OFF)).
  destruct (floor_to_multiple_spec (Z.min av UCREG_SIZE) UOP_SIZE)
    as (Hfl & Hmod & Hlo & Hhi); [reflexivity|].
  fold (usable_region_bytes av) in Hfl, Hmod, Hlo, Hhi.
  pose proof (ucode_sizing_unfold (bv_end s1) (base + UCREG_OFF)) as Hsz.
  fold av in Hsz.
  destruct (Z.eq_dec (fst (ucode_sizing (bv_end s1) (base + UCREG_OFF))) UCREG_SIZE)
    as [Hfull|Hne].
  - rewrite (apply_view_full h base s0 s1 p hd r reg_t Hens Hreg Hp Hh Hr Hg Hlt Hfull).
    exists reg_t. cbn [snd]. unfold applied_view, region_var. cbn [bv_vars].
    split; [apply lookup_insert_eq|].
    rewrite Hsz in Hfull. cbn [fst] in Hfull. rewrite Hw, Hfull.
    split; [done|]. split; [|by left].
    rewrite <- Hfull. subst av. lia.
  - rewrite (apply_view_truncated h base s0 s1 p hd r reg_t Hens Hreg Hp Hh Hr Hg
               uop Hlt Hne Hu).
    eexists. cbn [snd]. unfold applied_view, region_var. cbn [bv_vars].
    split; [apply lookup_insert_eq|].
    rewrite (auto_region_type_width _ _ Hl), Hsz. cbn [snd].
    rewrite Hsz in Hne. cbn [fst] in Hne.
    assert (Hexact : UOP_SIZE * record_count av = usable_region_bytes av).
    { unfold record_count. apply Z.div_exact in Hmod; [|done]. lia. }
    rewrite Hexact. split; [done|]. subst av. unfold UCREG_SIZE, UOP_SIZE in *. lia.
Qed.

Lemma region_within_image_witness :
  0x1000 + UCREG_OFF < bv_end (image 0 0x1723) /\
  exists t,
    bv_vars (apply_layout_at host_modern 0x1000 (image 0 0x1723)).2
      !! (0x1000 + UCREG_OFF) = Some t /\
    0x1000 + UCREG_OFF + ty_width t <= bv_end (image 0 0x1723).
Proof.
  assert (H1 : _ensure_types host_modern (image 0 0x1723)
               = (Ok tt, (_ensure_types host_modern (image 0 0x1723)).2))
    by (vm_compute; reflexivity).
  assert (H2 : registered (_ensure_types host_modern (image 0 0x1723)).2 = true)
    by (vm_compute; reflexivity).
  assert (H3 : bv_types (_ensure_types host_modern (image 0 0x1723)).2 !! T_UOP
               = Some (uop_struct (TNamed T_ENUM (TEnum 1 false ZEN_OPCODE_ENUM))
                         (TInt 1 false) (TInt 2 false)))
    by (vm_compute; reflexivity).
  assert (H4 : bv_types (_ensure_types host_modern (image 0 0x1723)).2 !! T_REG
               = Some (region_struct
                         (uop_struct (TNamed T_ENUM (TEnum 1 false ZEN_OPCODE_ENUM))
                            (TInt 1 false) (TInt 2 false))))
    by (vm_compute; reflexivity).
  assert (H5 : ty_layout (uop_struct (TNamed T_ENUM (TEnum 1 false ZEN_OPCODE_ENUM))
                            (TInt 1 false) (TInt 2 false)) = (UOP_SIZE, 1))
    by (vm_compute; reflexivity).
  assert (H6 : ty_width (region_struct
                           (uop_struct (TNamed T_ENUM (TEnum 1 false ZEN_OPCODE_ENUM))
                              (TInt 1 false) (TInt 2 false))) = UCREG_SIZE)
    by (vm_compute; reflexivity).
  assert (H7 : 0x1000 + UCREG_OFF < bv_end (image 0 0x1723))
    by (vm_compute; reflexivity).
  destruct (region_within_image host_modern 0x1000 _ _ _ _ H1 H2 H3 H4 H5 H6 H7)
    as (t & Hv & _ & Hle & _).
  exact (conj H7 (ex_intro _ t (conj Hv Hle))).
Defined.

(* ===================================================================== *)
(** ** The commands                                                       *)
(* ===================================================================== *)

Lemma same_view_refl s : same_view s s.
Proof. by unfold same_view. Qed.

(** X20: running the command that defines the types before one that
    applies the layout changes nothing in what the latter does: the result
    is the same and so are the types, variables, symbols and comments left
    in the view; when the first command returned, the second does exactly
    what it would have done alone after its own registration, event for
    event.  The command for the file start is the one for the cursor at
    address 0. *)
Theorem define_types_first_is_redundant (h : Host) (addr : Z) (s : BinaryView) :
  (cmd_apply_at_cursor h addr (cmd_define_types h s).2).1
  = (cmd_apply_at_cursor h addr s).1 /\
  same_view (cmd_apply_at_cursor h addr s).2
    (cmd_apply_at_cursor h addr (cmd_define_types h s).2).2 /\
  ((cmd_define_types h s).1 = Ok tt ->
   cmd_apply_at_cursor h addr (cmd_define_types h s).2 = cmd_apply_at_cursor h addr s) /\
  cmd_apply_at_zero h s = cmd_apply_at_cursor h 0 s.
Proof.
  unfold cmd_apply_at_cursor, cmd_define_types, cmd_apply_at_zero.
  destruct (_ensure_types h s) as [[[]|e] s1] eqn:Hens; cbn [fst snd].
  - assert (Hens1 : _ensure_types h s1 = (Ok tt, s1)).
    { apply ensure_types_present. by apply (ensure_types_ok_present h s s1). }
    assert (Heq : apply_layout_at h addr s1 = apply_layout_at h addr s).
    { unfold apply_layout_at.
      by rewrite (bind_run (_ensure_types h) _ s1), Hens1,
           (bind_run (_ensure_types h) _ s), Hens. }
    rewrite Heq. split; [done|]. split; [apply same_view_refl|]. done.
  - assert (Habs0 : bv_types s !! T_PATCH = None).
    { destruct (bv_types s !! T_PATCH) as [t|] eqn:E; [|done].
      rewrite ensure_types_present in Hens by eauto. discriminate Hens. }
    pose proof (ensure_types_raise_absent h s e s1 Hens) as Habs1.
    destruct (ensure_types_uniform h) as (r & regs & evs & Huni).
    pose proof (Huni s Habs0) as H0. rewrite Hens in H0. injection H0 as <- ->.
    rewrite (apply_run_abort h addr s _ _ Hens).
    rewrite (apply_run_abort h addr _ _ _ (Huni _ Habs1)). cbn [fst snd].
    split; [done|]. split; [apply script_view_idem|]. split; [intros [=]|done].
Qed.

(* ===================================================================== *)
(** ** The guarded host calls                                             *)
(* ===================================================================== *)

Lemma ensure_types_guarded h undef analysis :
  _ensure_types (with_guarded_calls undef analysis h) = _ensure_types h.
Proof. reflexivity. Qed.

Lemma check_size_post_guarded h undef analysis base s :
  check_size_post (with_guarded_calls undef analysis h) base s
  = check_size_post h base s.
Proof. reflexivity. Qed.

(** X21: the two host calls wrapped in [except Exception: pass] have no
    influence on a call: whether undefining at an address without a
    variable raises, and whether the request for re-analysis raises,
    [_define_var] and [apply_layout_at] return the same result and leave
    the same view, trace included. *)
Theorem guarded_calls_do_not_matter (h : Host) (undef analysis : Outcome)
    (base : Z) (s : BinaryView) :
  apply_layout_at (with_guarded_calls undef analysis h) base s
  = apply_layout_at h base s /\
  forall addr t sym comment,
    _define_var (with_guarded_calls undef analysis h) addr t sym comment s
    = _define_var h addr t sym comment s.
Proof.
  split; [|intros; by rewrite !define_var_run].
  set (h' := with_guarded_calls undef analysis h).
  assert (E : forall s, _ensure_types h' s = _ensure_types h s)
    by (intros; unfold h'; by rewrite ensure_types_guarded).
  assert (C : forall s, check_size_post h' base s = check_size_post h base s)
    by (intros; apply check_size_post_guarded).
  destruct (_ensure_types h s) as [[[]|e] s1] eqn:Hens.
  2:{ by rewrite (apply_run_abort h base s e s1 Hens),
           (apply_run_abort h' base s e s1 (eq_trans (E s) Hens)). }
  pose proof (eq_trans (E s) Hens) as Hens'.
  destruct (registered s1) eqn:Hreg.
  2:{ by rewrite (apply_run_missing h base s s1 Hens Hreg),
           (apply_run_missing h' base s s1 Hens' Hreg), C. }
  destruct (registered_lookup s1 Hreg) as (p & hd & r & g & Hp & Hh & Hr & Hg).
  destruct (Z_lt_ge_dec (base + UCREG_OFF) (bv_end s1)) as [Hlt|Hge].
  - destruct (Z.eq_dec (fst (ucode_sizing (bv_end s1) (base + UCREG_OFF))) UCREG_SIZE)
      as [Hfull|Hne].
    + by rewrite (apply_run_full h base s s1 p hd r g Hens Hreg Hp Hh Hr Hg Hlt Hfull),
           (apply_run_full h' base s s1 p hd r g Hens' Hreg Hp Hh Hr Hg Hlt Hfull), C.
    + destruct (bv_types s1 !! T_UOP) as [uop|] eqn:Hu.
      * rewrite (apply_run_truncated h base s s1 p hd r g Hens Hreg Hp Hh Hr Hg
                   uop Hlt Hne Hu),
          (apply_run_truncated h' base s s1 p hd r g Hens' Hreg Hp Hh Hr Hg
             uop Hlt Hne Hu).
        cbv zeta. by rewrite C.
      * by rewrite (apply_run_unresolved h base s s1 p hd r g Hens Hreg Hp Hh Hr Hg
                      Hlt Hne Hu),
             (apply_run_unresolved h' base s s1 p hd r g Hens' Hreg Hp Hh Hr Hg
                Hlt Hne Hu), C.
  - by rewrite (apply_run_early h base s s1 p hd r g Hens Hreg Hp Hh Hr Hg Hge),
         (apply_run_early h' base s s1 p hd r g Hens' Hreg Hp Hh Hr Hg Hge), C.
Qed.

(* ===================================================================== *)
(** ** How a call ends                                                    *)
(* ===================================================================== *)

Lemma ready_closing h base s0 s1 p hd r g :
  _ensure_types h s0 = (Ok tt, s1) -> registered s1 = true ->
  bv_types s1 !! T_PATCH = Some p -> bv_types s1 !! T_HDR = Some hd ->
  bv_types s1 !! T_RAND = Some r -> bv_types s1 !! T_REG = Some g ->
  exists res region evs,
    apply_layout_at h base s0 = (res, applied_view base p hd r region s1 evs) /\
    error_lines evs = [] /\
    ((res = Ok tt /\ last evs = Some (EvLog Warn no_bytes_msg) /\
      analysis_requests evs = [] /\ length (defined_vars evs) = 3%nat)
     \/ (res = Ok tt /\
         last evs
         = Some (EvLog Info
                   (applied_msg base (record_count (bv_end s1 - (base + UCREG_OFF))))) /\
         analysis_requests evs = [tt] /\ length (defined_vars evs) = 4%nat)
     \/ (res = Raise parse_error /\ analysis_requests evs = [])).
Proof.
  intros Hens Hreg Hp Hh Hr Hg.
  destruct (Z_lt_ge_dec (base + UCREG_OFF) (bv_end s1)) as [Hlt|Hge].
  - destruct (Z.eq_dec (fst (ucode_sizing (bv_end s1) (base + UCREG_OFF))) UCREG_SIZE)
      as [Hfull|Hne].
    + eexists _, _, _. split;
        [exact (apply_view_full h base s0 s1 p hd r g Hens Hreg Hp Hh Hr Hg Hlt Hfull)|].
      split; [apply full_events_errors|].
      right. left. split; [done|]. split.
      { unfold full_events. rewrite !app_assoc, last_app_cons.
        by rewrite ucode_sizing_unfold. }
      split; [apply full_events_analysis|by rewrite full_events_vars].
    + destruct (bv_types s1 !! T_UOP) as [uop|] eqn:Hu.
      * eexists _, _, _. split;
          [exact (apply_view_truncated h base s0 s1 p hd r g Hens Hreg Hp Hh Hr Hg
                    uop Hlt Hne Hu)|].
        split; [apply truncated_events_errors|].
        right. left. split; [done|]. split.
        { unfold truncated_events. cbv zeta. rewrite !app_assoc, last_app_cons.
          by rewrite ucode_sizing_unfold. }
        split; [apply truncated_events_analysis|by rewrite truncated_events_vars].
      * exists (Raise parse_error), None. eexists. split.
        { rewrite (apply_run_unresolved h base s0 s1 p hd r g Hens Hreg Hp Hh Hr Hg
                     Hlt Hne Hu).
          by rewrite (three_regions_view h base s1 p hd r), emit_applied_view. }
        destruct (check_size_events_silent h base s1) as (_ & _ & C3 & C4 & _).
        unfold error_lines, analysis_requests in *.
        rewrite !flat_map_app, C3, C4. split; [reflexivity|].
        right. right. done.
  - eexists _, _, _. split;
      [exact (apply_view_early h base s0 s1 p hd r g Hens Hreg Hp Hh Hr Hg Hge)|].
    split; [apply early_events_errors|].
    left. split; [done|]. split.
    { unfold early_events. by rewrite !app_assoc, last_snoc. }
    split; [apply early_events_analysis|by rewrite early_events_vars].
Qed.

(** X22: every call that returns closes with exactly one of three log
    lines, and what it did can be read off that line: the error about
    missing types after defining nothing, the warning about no bytes after
    defining three variables, or the line with base and record count after
    defining four; the re-analysis is requested once in the last case and
    never in the other two.  A call that raises has requested no
    re-analysis and logged no error line: the exception is its only
    report. *)
Theorem call_closes_with_one_line (h : Host) (base : Z) (s0 : BinaryView) :
  let tr := trace_since s0 (apply_layout_at h base s0).2 in
  match (apply_layout_at h base s0).1 with
  | Ok _ =>
      (last tr = Some (EvLog Error types_missing_msg) /\
       analysis_requests tr = [] /\ defined_vars tr = [])
      \/ (last tr = Some (EvLog Warn no_bytes_msg) /\
          analysis_requests tr = [] /\ length (defined_vars tr) = 3%nat /\
          error_lines tr = [])
      \/ (last tr
          = Some (EvLog Info
                    (applied_msg base (record_count (bv_end s0 - (base + UCREG_OFF))))) /\
          analysis_requests tr = [tt] /\ length (defined_vars tr) = 4%nat /\
          error_lines tr = [])
  | Raise _ => analysis_requests tr = [] /\ error_lines tr = []
  end.
Proof.
  intros tr. subst tr.
  destruct (_ensure_types h s0) as [[[]|e] s1] eqn:Hens.
  2:{ rewrite (apply_run_abort h base s0 e s1 Hens). cbn [fst snd].
      destruct (ensure_types_end h s0 _ s1 Hens) as (_ & _ & _ & _ & _ & regs & Htr & Hregs).
      rewrite (trace_since_app _ _ _ Htr).
      by destruct (registration_events_silent regs Hregs) as (_ & _ & R3 & R4). }
  pose proof (ensure_types_end h s0 _ s1 Hens) as Hframe.
  pose proof (only_registers_end _ _ Hframe) as Hend.
  destruct (registered s1) eqn:Hreg.
  - destruct (registered_lookup s1 Hreg) as (p & hd & r & g & Hp & Hh & Hr & Hg).
    destruct (ready_closing h base s0 s1 p hd r g Hens Hreg Hp Hh Hr Hg)
      as (res & region & evs & -> & Herr & Hcase).
    cbn [fst snd].
    destruct (trace_since_applied base p hd r region s0 s1 evs Hframe)
      as (regs & Hregs & _ & ->).
    destruct (registration_events_silent regs Hregs) as (R1 & _ & R3 & R4).
    assert (Ha : analysis_requests (regs ++ evs) = analysis_requests evs)
      by (unfold analysis_requests in *; by rewrite flat_map_app, R3).
    assert (Hv : defined_vars (regs ++ evs) = defined_vars evs)
      by (unfold defined_vars in *; by rewrite flat_map_app, R1).
    assert (He : error_lines (regs ++ evs) = []).
    { unfold error_lines in *. by rewrite flat_map_app, R4, Herr. }
    rewrite Ha, Hv, He, last_app, <- Hend.
    destruct Hcase as [(-> & -> & A & V)|[(-> & -> & A & V)|(-> & A)]]; auto 10.
  - rewrite (apply_run_missing h base s0 s1 Hens Hreg). cbn [fst snd].
    destruct Hframe as (_ & _ & _ & _ & _ & regs & Htr & Hregs).
    destruct (registration_events_silent regs Hregs) as (R1 & _ & R3 & _).
    destruct (check_size_events_silent h base s1) as (C1 & _ & C3 & _).
    rewrite (trace_since_app s0 _
               (regs ++ check_size_events h base s1 ++ [EvLog Error types_missing_msg]))
      by (by rewrite missing_post_trace, Htr, <- app_assoc).
    left. split; [by rewrite !app_assoc, last_snoc|].
    unfold analysis_requests, defined_vars in *.
    by rewrite !flat_map_app, R1, R3, C1, C3.
Qed.
